(** * The wire-protocol bridge of the market-data collectors

    A shallow embedding of [rithmic_binary_collector.py] (length-prefixed
    binary frames read through an asyncio stream) and of
    [rtrader_collector.py] (newline-delimited JSON read from a raw socket),
    followed by the properties of framing, dispatch, persistence,
    subscription tracking, connection retry and exchange resolution.

    Conventions of the embedding:
    - [bytes] is [list byte]; a Python [str] is the [string] of its UTF-8
      encoding, so [encode('utf-8')] is the identity and [decode('utf-8')]
      is a validity check;
    - a [float] is kept as its 64 IEEE-754 bits (a [Z]); no float
      arithmetic is performed by the modelled code paths except the
      truthiness test, which is a test on the bits;
    - a raised exception is a [None] / [Raised] result, caught where the
      source catches it;
    - the relational sink accepts every well-typed row; a transaction that
      ends in [rollback] leaves the tables as they were;
    - a stream delivers its chunks and then stops, because the peer closes
      it or because the transport fails; a write never fails;
    - the listener thread of the plug-in client runs by turns, one
      iteration of its loop at a time, between the steps of the main
      thread. *)

From Stdlib Require Import ZArith Lia List.
From Stdlib.Strings Require Import Byte String Ascii.
From stdpp Require Import gmap strings list.

Set Warnings "-register-all".
Open Scope Z_scope.

(** ** Python's [struct] module, big-endian unsigned fields *)

Module Struct.

Definition byte_of_Z (z : Z) : byte :=
  match Byte.of_N (Z.to_N (z `mod` 256)) with
  | Some b => b
  | None => x00
  end.

Definition Z_of_byte (b : byte) : Z := Z.of_N (Byte.to_N b).

(** The [n] bytes of [z], most significant first. *)
Fixpoint be_bytes (n : nat) (z : Z) : list byte :=
  match n with
  | O => []
  | S k => byte_of_Z (z ≫ (8 * Z.of_nat k)) :: be_bytes k z
  end.

Definition be_value (bs : list byte) : Z :=
  fold_left (fun acc b => acc * 256 + Z_of_byte b) bs 0.

(** [struct.pack] of one [n]-byte unsigned field; [None] is
    [struct.error] (argument out of range). *)
Definition pack_uint (n : nat) (z : Z) : option (list byte) :=
  if (0 <=? z) && (z <? 2 ^ (8 * Z.of_nat n))
  then Some (be_bytes n z) else None.

(** [struct.unpack] of one [n]-byte unsigned field; [None] is
    [struct.error] (the buffer has not exactly [n] bytes). *)
Definition unpack_uint (n : nat) (bs : list byte) : option Z :=
  if (length bs =? n)%nat then Some (be_value bs) else None.

(** The formats the collectors use.  ['>d'] yields the bits of the
    double. *)
Definition pack_I : Z -> option (list byte) := pack_uint 4.
Definition pack_H : Z -> option (list byte) := pack_uint 2.
Definition unpack_I : list byte -> option Z := unpack_uint 4.
Definition unpack_H : list byte -> option Z := unpack_uint 2.
Definition unpack_Q : list byte -> option Z := unpack_uint 8.
Definition unpack_d : list byte -> option Z := unpack_uint 8.

Definition pack_IH (a b : Z) : option (list byte) :=
  match pack_I a, pack_H b with
  | Some x, Some y => Some (x ++ y)
  | _, _ => None
  end.

End Struct.

(** Python's slice [data[a:b]] for [0 <= a]: clamped, never raising. *)
Definition slice {A} (a b : Z) (l : list A) : list A :=
  take (Z.to_nat (b - a)) (drop (Z.to_nat a) l).

(** ** Python values, exceptions and strings *)

Inductive exn :=
| StructError | UnicodeDecodeError | ValueError | KeyError | TypeError
| AttributeError | InvalidOperation | IncompleteReadError
| ConnectionResetError.

Inductive result (A : Type) :=
| Ok (a : A)
| Raised (e : exn).
Arguments Ok {A} a.
Arguments Raised {A} e.

Definition bind {A B} (r : result A) (k : A -> result B) : result B :=
  match r with
  | Ok a => k a
  | Raised e => Raised e
  end.

Notation "'let*' x ':=' r 'in' k" := (bind r (fun x => k))
  (at level 10, x name, r at level 100, k at level 200).

(** Case analysis along a chain of [let*]. *)
Ltac step_binds :=
  repeat match goal with
         | |- context [bind ?r _] =>
           let E := fresh "E" in destruct r eqn:E; cbn [bind]
         end.

Definition or_raise {A} (e : exn) (o : option A) : result A :=
  match o with
  | Some a => Ok a
  | None => Raised e
  end.

(** [PFloat] carries the IEEE-754 bits, [PDatetime] the milliseconds
    since the epoch. *)
Inductive pyval :=
| PNone
| PBool (b : bool)
| PInt (z : Z)
| PFloat (bits : Z)
| PStr (s : string)
| PDatetime (ms : Z)
| PList (l : list pyval)
| PDict (d : gmap string pyval).

Module PyStr.

Definition codes (s : string) : list Z :=
  map Struct.Z_of_byte (list_byte_of_string s).

Definition is_cont (b : Z) : bool := (128 <=? b) && (b <=? 191).

Definition second_of_3 (b0 b1 : Z) : bool :=
  if b0 =? 224 then (160 <=? b1) && (b1 <=? 191)
  else if b0 =? 237 then (128 <=? b1) && (b1 <=? 159)
  else is_cont b1.

Definition second_of_4 (b0 b1 : Z) : bool :=
  if b0 =? 240 then (144 <=? b1) && (b1 <=? 191)
  else if b0 =? 244 then (128 <=? b1) && (b1 <=? 143)
  else is_cont b1.

(** Well-formed UTF-8: shortest forms only, no surrogates, at most
    U+10FFFF. *)
Fixpoint utf8_valid (bs : list Z) : bool :=
  match bs with
  | [] => true
  | b0 :: t0 =>
    if b0 <? 128 then utf8_valid t0
    else match t0 with
    | [] => false
    | b1 :: t1 =>
      if (194 <=? b0) && (b0 <=? 223) then is_cont b1 && utf8_valid t1
      else match t1 with
      | [] => false
      | b2 :: t2 =>
        if (224 <=? b0) && (b0 <=? 239)
        then second_of_3 b0 b1 && is_cont b2 && utf8_valid t2
        else match t2 with
        | [] => false
        | b3 :: t3 =>
          if (240 <=? b0) && (b0 <=? 244)
          then second_of_4 b0 b1 && is_cont b2 && is_cont b3
               && utf8_valid t3
          else false
        end
      end
    end
  end.

(** [bs.decode('utf-8')] *)
Definition decode (bs : list byte) : result string :=
  if utf8_valid (map Struct.Z_of_byte bs)
  then Ok (string_of_list_byte bs) else Raised UnicodeDecodeError.

(** [s.encode('utf-8')] *)
Definition encode (s : string) : list byte := list_byte_of_string s.

(** [len(s)]: the number of code points. *)
Definition len (s : string) : Z :=
  Z.of_nat (length (filter (fun b => negb (is_cont b)) (codes s))).

Fixpoint contains (c : ascii) (s : string) : bool :=
  match s with
  | EmptyString => false
  | String d s' => if Ascii.eqb c d then true else contains c s'
  end.

(** [s.rstrip(chars)] for a set [chars] of ASCII characters. *)
Fixpoint rstrip (chars : string) (s : string) : string :=
  match s with
  | EmptyString => EmptyString
  | String c s' =>
    match rstrip chars s' with
    | EmptyString =>
      if contains c chars then EmptyString else String c EmptyString
    | r => String c r
    end
  end.

(** [s.startswith(p)] *)
Definition startswith (s p : string) : bool := String.prefix p s.

(** [s.split(sep)] for a one-character separator. *)
Fixpoint split (sep : ascii) (s : string) : list string :=
  match s with
  | EmptyString => [EmptyString]
  | String c s' =>
    if Ascii.eqb c sep then EmptyString :: split sep s'
    else match split sep s' with
         | h :: t => String c h :: t
         | [] => [String c EmptyString]
         end
  end.

(** The white-space characters of three bytes, [b0 b1 b2] in reading
    order: U+1680, U+2000..200A, U+2028, U+2029, U+202F, U+205F,
    U+3000. *)
Definition wide_space (b0 b1 b2 : Z) : bool :=
  ((b0 =? 225) && (b1 =? 154) && (b2 =? 128))
  || ((b0 =? 226) && (b1 =? 128)
      && (((128 <=? b2) && (b2 <=? 138)) || (b2 =? 168) || (b2 =? 169)
          || (b2 =? 175)))
  || ((b0 =? 226) && (b1 =? 129) && (b2 =? 159))
  || ((b0 =? 227) && (b1 =? 128) && (b2 =? 128)).

(** Length in bytes of the white-space character at the head of [bs]
    (0 when there is none).  White space is what [str.isspace] accepts:
    U+0009..000D, U+001C..0020, U+0085, U+00A0 and the characters of
    [wide_space]. *)
Definition space_at_head (bs : list Z) : nat :=
  match bs with
  | b0 :: t0 =>
    if ((9 <=? b0) && (b0 <=? 13)) || ((28 <=? b0) && (b0 <=? 32))
    then 1%nat
    else match t0 with
    | b1 :: t1 =>
      if (b0 =? 194) && ((b1 =? 133) || (b1 =? 160)) then 2%nat
      else match t1 with
      | b2 :: _ => if wide_space b0 b1 b2 then 3%nat else 0%nat
      | [] => 0%nat
      end
    | [] => 0%nat
    end
  | [] => 0%nat
  end.

(** The same test at the right end: [rbs] is the string reversed, so
    its first byte is the last of the string. *)
Definition space_at_tail (rbs : list Z) : nat :=
  match rbs with
  | b0 :: t0 =>
    if ((9 <=? b0) && (b0 <=? 13)) || ((28 <=? b0) && (b0 <=? 32))
    then 1%nat
    else match t0 with
    | b1 :: t1 =>
      if (b1 =? 194) && ((b0 =? 133) || (b0 =? 160)) then 2%nat
      else match t1 with
      | b2 :: _ => if wide_space b2 b1 b0 then 3%nat else 0%nat
      | [] => 0%nat
      end
    | [] => 0%nat
    end
  | [] => 0%nat
  end.

Fixpoint strip_with (test : list Z -> nat) (fuel : nat) (bs : list byte)
    : list byte :=
  match fuel with
  | O => bs
  | S f =>
    match test (map Struct.Z_of_byte bs) with
    | O => bs
    | n => strip_with test f (drop n bs)
    end
  end.

(** [s.strip()] *)
Definition strip (s : string) : string :=
  let bs := list_byte_of_string s in
  let l := strip_with space_at_head (length bs) bs in
  let r := rev (strip_with space_at_tail (length l) (rev l)) in
  string_of_list_byte r.

End PyStr.

Definition newline : ascii := ascii_of_nat 10.
Definition colon : ascii := ascii_of_nat 58.
Definition comma : ascii := ascii_of_nat 44.

(** Truth value of a Python object. *)
Definition truthy (v : pyval) : bool :=
  match v with
  | PNone => false
  | PBool b => b
  | PInt z => negb (z =? 0)
  | PFloat bits => negb ((bits =? 0) || (bits =? 2 ^ 63))
  | PStr s => negb (String.eqb s EmptyString)
  | PDatetime _ => true
  | PList l => match l with [] => false | _ => true end
  | PDict d => negb (bool_decide (dom d = (∅ : gset string)))
  end.

(** [v == 1] *)
Definition equals_one (v : pyval) : bool :=
  match v with
  | PInt z => z =? 1
  | PBool b => b
  | PFloat bits => bits =? 4607182418800017408
  | _ => false
  end.

(** A [Decimal] column value: [Dec v] is [Decimal(str(v))]. *)
Inductive decimal := Dec (v : pyval).

Section Decimal.
(** Which strings the [Decimal] constructor accepts. *)
Variable decimal_syntax : string -> bool.

(** [Decimal(str(v))]: numbers always convert ([str] of a float is a
    numeral, [inf] or [nan]); [None], booleans, dates and containers
    print as text that [Decimal] rejects. *)
Definition to_decimal (v : pyval) : result decimal :=
  match v with
  | PInt _ | PFloat _ => Ok (Dec v)
  | PStr s => if decimal_syntax s then Ok (Dec v) else Raised InvalidOperation
  | _ => Raised InvalidOperation
  end.
End Decimal.

(** ** [asyncio.StreamReader] *)

(** The bytes already buffered and the chunks the transport will still
    deliver, in order.  After the last chunk the stream stops: the peer
    closes it (end of file) or, when [reset] is set, the connection is
    lost and the reader is handed the exception of the transport, a
    [ConnectionResetError]. *)
Record StreamReader := {
  buffer : list byte;
  incoming : list (list byte);
  reset : bool
}.

(** The reader waits for chunks until it holds [n] bytes.  When the
    stream stops first, the bytes it holds are given up:
    [IncompleteReadError] carries them away at the end of file, and after
    a reset they can no longer be read. *)
Fixpoint readexactly_from (n : nat) (buf : list byte)
    (chunks : list (list byte)) (lost : bool) {struct chunks}
    : result (list byte) * StreamReader :=
  if (n <=? length buf)%nat
  then (Ok (take n buf),
        {| buffer := drop n buf; incoming := chunks; reset := lost |})
  else match chunks with
       | [] =>
         (Raised (if lost then ConnectionResetError else IncompleteReadError),
          {| buffer := []; incoming := []; reset := lost |})
       | c :: cs => readexactly_from n (buf ++ c) cs lost
       end.

(** The exception of the transport is set on the reader: the stream ends
    in a reset and nothing is left to deliver. *)
Definition exception_set (r : StreamReader) : bool :=
  reset r
  && match buffer r, incoming r with [], [] => true | _, _ => false end.

(** [await reader.readexactly(n)].  A reader with its exception set
    raises it before anything else, whatever [n]. *)
Definition readexactly (n : nat) (r : StreamReader)
    : result (list byte) * StreamReader :=
  if exception_set r then (Raised ConnectionResetError, r)
  else readexactly_from n (buffer r) (incoming r) (reset r).

(** Every byte the reader holds or will receive. *)
Definition pending (r : StreamReader) : list byte :=
  buffer r ++ concat (incoming r).

(** ** Logging and the relational sink *)

Inductive level := DEBUG | INFO | WARNING | ERROR.

(** What a collector does that an observer outside the process can see,
    apart from the bytes it writes and the rows it commits: a call of the
    logger (its level and the constant part of its text), an attempt to
    open the upstream connection, a sleep, and a call of [json.loads]
    with the text it is given. *)
Inductive event :=
| Logged (l : level) (text : string)
| Connect (ok : bool)
| Sleep (seconds : Z)
| Decode (text : string).

(** One entry popped from the control queue [symbol_subscriptions]: an
    empty message, a message that is not a JSON object with a [symbol]
    key, or a request.  The requests the repository publishes carry two
    strings; a request without an [exchange] key has [None] there. *)
Inductive queue_msg :=
| MsgEmpty
| MsgMalformed
| MsgRequest (symbol : string) (exchange : option string).

Record tick_row := {
  t_timestamp : pyval;
  t_symbol : pyval;
  t_exchange : pyval;
  t_price : decimal;
  t_size : pyval;
  t_bid_price : option decimal;
  t_ask_price : option decimal;
  t_bid_size : pyval;
  t_ask_size : pyval;
  t_aggressor_side : option string;
  t_trade_id : pyval
}.

(** [l_order_count = None]: the column is not supplied by the insert. *)
Record level2_row := {
  l_timestamp : pyval;
  l_symbol : pyval;
  l_exchange : pyval;
  l_side : string;
  l_level : Z;
  l_price : decimal;
  l_size : pyval;
  l_order_count : option pyval
}.

(** The committed content of the two tables, oldest row first. *)
Record Database := {
  tick_data : list tick_row;
  level2_data : list level2_row
}.

(** ** rithmic_binary_collector.py *)

Module Binary.

(** [RITHMIC_MSG_TYPES] *)
Definition RITHMIC_MSG_TYPES : gmap Z string :=
  list_to_map
    [ (100, "MARKET_DATA_REQUEST"); (101, "MARKET_DATA_RESPONSE");
      (102, "LAST_TRADE"); (103, "BID_OFFER"); (104, "MARKET_MODE");
      (105, "OPEN_INTEREST"); (106, "SETTLEMENT_PRICE");
      (107, "MARKET_DEPTH_REQUEST"); (108, "MARKET_DEPTH_RESPONSE");
      (109, "MARKET_DEPTH_UPDATE"); (110, "TRADE_VOLUME");
      (111, "OPEN_RANGE"); (112, "HIGH_LOW"); (113, "TRADE_STATISTICS");
      (200, "HISTORY_REQUEST"); (201, "HISTORY_RESPONSE");
      (202, "HISTORY_TICK"); (203, "HISTORY_BAR");
      (300, "PNL_REQUEST"); (301, "PNL_RESPONSE"); (302, "PNL_UPDATE") ].

(** [SYMBOL_EXCHANGE_MAP], in the order its items are iterated. *)
Definition SYMBOL_EXCHANGE_MAP : list (string * string) :=
  [ ("GC", "COMEX"); ("MGC", "COMEX"); ("GLD", "COMEX");
    ("CL", "NYMEX"); ("NG", "NYMEX"); ("RB", "NYMEX"); ("HO", "NYMEX");
    ("ES", "CME"); ("NQ", "CME"); ("YM", "CBOT"); ("RTY", "CME");
    ("6A", "CME"); ("6B", "CME"); ("6C", "CME"); ("6E", "CME");
    ("6J", "CME"); ("6S", "CME");
    ("ZC", "CBOT"); ("ZS", "CBOT"); ("ZW", "CBOT"); ("ZL", "CBOT");
    ("ZM", "CBOT");
    ("SI", "COMEX"); ("HG", "COMEX"); ("PA", "NYMEX"); ("PL", "NYMEX") ].

(** *** class RithmicBinaryProtocol *)

(** [writer] holds every byte handed to [writer.write] so far; the
    model has no write that fails. *)
Record RithmicBinaryProtocol := {
  connected : bool;
  reader : StreamReader;
  writer : list byte
}.

Definition send_message (self : RithmicBinaryProtocol) (msg_type : Z)
    (data : list byte) : RithmicBinaryProtocol * bool :=
  if negb (connected self) then (self, false)
  else
    let msg_length := Z.of_nat (length data) + 2 in
    match Struct.pack_IH msg_length msg_type with
    | Some header =>
      ({| connected := connected self; reader := reader self;
          writer := writer self ++ header ++ data |}, true)
    | None => (self, false)
    end.

Definition with_reader (self : RithmicBinaryProtocol) (r : StreamReader)
    : RithmicBinaryProtocol :=
  {| connected := connected self; reader := r; writer := writer self |}.

(** The [IncompleteReadError] handler. *)
Definition closed_by_server (self : RithmicBinaryProtocol)
    (r : StreamReader) : RithmicBinaryProtocol :=
  {| connected := false; reader := r; writer := writer self |}.

(** The two [except] clauses of [receive_message]: the end of the
    stream marks the connection closed; any other exception is logged
    and leaves the flag as it is. *)
Definition read_failed (self : RithmicBinaryProtocol) (e : exn)
    (r : StreamReader) : RithmicBinaryProtocol :=
  match e with
  | IncompleteReadError => closed_by_server self r
  | _ => with_reader self r
  end.

(** [None] is the pair [(None, None)] of the source. *)
Definition receive_message (self : RithmicBinaryProtocol)
    : option (Z * list byte) * RithmicBinaryProtocol :=
  if negb (connected self) then (None, self)
  else
    match readexactly 4 (reader self) with
    | (Raised e, r) => (None, read_failed self e r)
    | (Ok length_data, r1) =>
      match Struct.unpack_I length_data with
      | None => (None, with_reader self r1)
      | Some msg_length =>
        match readexactly 2 r1 with
        | (Raised e, r) => (None, read_failed self e r)
        | (Ok type_data, r2) =>
          match Struct.unpack_H type_data with
          | None => (None, with_reader self r2)
          | Some msg_type =>
            let data_length := msg_length - 2 in
            if 0 <? data_length then
              match readexactly (Z.to_nat data_length) r2 with
              | (Raised e, r) => (None, read_failed self e r)
              | (Ok data, r3) =>
                (Some (msg_type, data), with_reader self r3)
              end
            else (Some (msg_type, []), with_reader self r2)
          end
        end
      end
    end.

(** Latest instant [datetime.fromtimestamp] accepts, in milliseconds:
    the end of year 9999 (UTC). *)
Definition max_timestamp_ms : Z := 253402300799999.

(** [datetime.fromtimestamp(timestamp / 1000.0)] *)
Definition fromtimestamp_ms (timestamp : Z) : result pyval :=
  if timestamp <=? max_timestamp_ms then Ok (PDatetime timestamp)
  else Raised ValueError.

Definition unpack (f : list byte -> option Z) (bs : list byte) : result Z :=
  or_raise StructError (f bs).

Definition parse_market_data (msg_type : Z) (data : list byte)
    : result (gmap string pyval) :=
  let result0 : gmap string pyval :=
    {[ "type" := PStr (default "UNKNOWN" (RITHMIC_MSG_TYPES !! msg_type)) ]} in
  if msg_type =? 102 then
    if 24 <=? Z.of_nat (length data) then
      let* symbol_len := unpack Struct.unpack_I (slice 0 4 data) in
      let* symbol := PyStr.decode (slice 4 (4 + symbol_len) data) in
      let offset := 4 + symbol_len in
      let* price := unpack Struct.unpack_d (slice offset (offset + 8) data) in
      let* size :=
        unpack Struct.unpack_I (slice (offset + 8) (offset + 12) data) in
      let* timestamp :=
        unpack Struct.unpack_Q (slice (offset + 12) (offset + 20) data) in
      let* when := fromtimestamp_ms timestamp in
      Ok (<["timestamp" := when]>
          (<["size" := PInt size]>
           (<["price" := PFloat price]>
            (<["symbol" := PStr symbol]> result0))))
    else Ok result0
  else if msg_type =? 103 then
    if 32 <=? Z.of_nat (length data) then
      let* symbol_len := unpack Struct.unpack_I (slice 0 4 data) in
      let* symbol := PyStr.decode (slice 4 (4 + symbol_len) data) in
      let offset := 4 + symbol_len in
      let* bid_price :=
        unpack Struct.unpack_d (slice offset (offset + 8) data) in
      let* bid_size :=
        unpack Struct.unpack_I (slice (offset + 8) (offset + 12) data) in
      let* ask_price :=
        unpack Struct.unpack_d (slice (offset + 12) (offset + 20) data) in
      let* ask_size :=
        unpack Struct.unpack_I (slice (offset + 20) (offset + 24) data) in
      Ok (<["ask_size" := PInt ask_size]>
          (<["ask_price" := PFloat ask_price]>
           (<["bid_size" := PInt bid_size]>
            (<["bid_price" := PFloat bid_price]>
             (<["symbol" := PStr symbol]> result0)))))
    else Ok result0
  else if msg_type =? 109 then Ok result0
  else Ok result0.

(** *** class RithmicCollector *)

Record RithmicCollector := {
  db_conn : Database;
  redis_queue : list queue_msg;
  protocol : option RithmicBinaryProtocol;
  running : bool;
  symbols : list string;
  trace : list event
}.

Definition with_db (self : RithmicCollector) (db : Database)
    : RithmicCollector :=
  {| db_conn := db; redis_queue := redis_queue self;
     protocol := protocol self; running := running self;
     symbols := symbols self; trace := trace self |}.

Definition with_protocol (self : RithmicCollector)
    (p : RithmicBinaryProtocol) : RithmicCollector :=
  {| db_conn := db_conn self; redis_queue := redis_queue self;
     protocol := Some p; running := running self;
     symbols := symbols self; trace := trace self |}.

Definition with_queue (self : RithmicCollector) (q : list queue_msg)
    : RithmicCollector :=
  {| db_conn := db_conn self; redis_queue := q;
     protocol := protocol self; running := running self;
     symbols := symbols self; trace := trace self |}.

Definition with_symbols (self : RithmicCollector) (l : list string)
    : RithmicCollector :=
  {| db_conn := db_conn self; redis_queue := redis_queue self;
     protocol := protocol self; running := running self;
     symbols := l; trace := trace self |}.

Definition emit (self : RithmicCollector) (e : event) : RithmicCollector :=
  {| db_conn := db_conn self; redis_queue := redis_queue self;
     protocol := protocol self; running := running self;
     symbols := symbols self; trace := trace self ++ [e] |}.

Fixpoint exchange_loop (base : string) (items : list (string * string))
    : string :=
  match items with
  | [] => "CME"
  | (prefix, exchange) :: rest =>
    if PyStr.startswith base prefix then exchange
    else exchange_loop base rest
  end.

Definition get_exchange_for_symbol (symbol : string) : string :=
  let base := PyStr.rstrip "0123456789" symbol in
  exchange_loop base SYMBOL_EXCHANGE_MAP.

(** The payload [subscribe_symbol] builds. *)
Definition subscribe_payload (symbol exchange : string)
    : result (list byte) :=
  let* n1 := or_raise StructError (Struct.pack_I (PyStr.len symbol)) in
  let* n2 := or_raise StructError (Struct.pack_I (PyStr.len exchange)) in
  let* flag := or_raise StructError (Struct.pack_I 1) in
  Ok (n1 ++ PyStr.encode symbol ++ n2 ++ PyStr.encode exchange ++ flag).

(** [None]: returned normally; [Some e]: [e] propagates to the caller. *)
Definition subscribe_symbol (self : RithmicCollector)
    (p : RithmicBinaryProtocol) (symbol : string)
    : RithmicCollector * option exn :=
  let exchange := get_exchange_for_symbol symbol in
  let self := emit self (Logged INFO "Subscribing to") in
  match subscribe_payload symbol exchange with
  | Raised e => (self, Some e)
  | Ok data =>
    let (p', _) := send_message p 100 data in
    (with_protocol self p', None)
  end.

Section Sink.
Variable decimal_syntax : string -> bool.
(** The reading of [datetime.now()]. *)
Variable now : Z.

(** [self.get_exchange_for_symbol(v)] on a dictionary value. *)
Definition exchange_of (v : pyval) : result pyval :=
  match v with
  | PStr s => Ok (PStr (get_exchange_for_symbol s))
  | _ => Raised AttributeError
  end.

(** [Decimal(str(data.get(k, 0))) if data.get(k) else None] *)
Definition optional_decimal (data : gmap string pyval) (k : string)
    : result (option decimal) :=
  if truthy (default PNone (data !! k))
  then let* d := to_decimal decimal_syntax (default (PInt 0) (data !! k)) in
       Ok (Some d)
  else Ok None.

(** The tuple of parameters of the [INSERT INTO tick_data]. *)
Definition tick_parameters (data : gmap string pyval) : result tick_row :=
  let aggressor_side :=
    match data !! "aggressor" with
    | Some v => Some (if equals_one v then "BUY" else "SELL")
    | None => None
    end in
  let* symbol := or_raise KeyError (data !! "symbol") in
  let* exchange := exchange_of symbol in
  let* raw_price := or_raise KeyError (data !! "price") in
  let* price := to_decimal decimal_syntax raw_price in
  let* bid_price := optional_decimal data "bid_price" in
  let* ask_price := optional_decimal data "ask_price" in
  Ok {| t_timestamp := default (PDatetime now) (data !! "timestamp");
        t_symbol := symbol;
        t_exchange := exchange;
        t_price := price;
        t_size := default (PInt 0) (data !! "size");
        t_bid_price := bid_price;
        t_ask_price := ask_price;
        t_bid_size := default PNone (data !! "bid_size");
        t_ask_size := default PNone (data !! "ask_size");
        t_aggressor_side := aggressor_side;
        t_trade_id := default PNone (data !! "trade_id") |}.

Definition store_tick_data (self : RithmicCollector)
    (data : gmap string pyval) : RithmicCollector :=
  if negb (bool_decide (is_Some (data !! "symbol")))
     || negb (bool_decide (is_Some (data !! "price")))
  then self
  else
    match tick_parameters data with
    | Ok row =>
      let db := db_conn self in
      emit (with_db self {| tick_data := tick_data db ++ [row];
                            level2_data := level2_data db |})
           (Logged DEBUG "Stored tick for")
    | Raised _ => emit self (Logged ERROR "Failed to store tick data")
    end.

(** The elements a [for] loop draws from [v]; the elements of a
    string or of a dictionary are strings, which the loop body cannot
    index by field name. *)
Definition levels_of (v : pyval) : result (list pyval) :=
  match v with
  | PList l => Ok l
  | PStr s => if String.eqb s EmptyString then Ok [] else Raised TypeError
  | PDict d =>
    if bool_decide (dom d = (∅ : gset string)) then Ok []
    else Raised TypeError
  | _ => Raised TypeError
  end.

(** [b[k]] for a price level [b]. *)
Definition item (b : pyval) (k : string) : result pyval :=
  match b with
  | PDict d => or_raise KeyError (d !! k)
  | _ => Raised TypeError
  end.

(** [b.get('order_count', 1)] *)
Definition order_count_of (b : pyval) : result pyval :=
  match b with
  | PDict d => Ok (default (PInt 1) (d !! "order_count"))
  | _ => Raised AttributeError
  end.

(** One [for level, b in enumerate(levels, level)] loop of
    [store_depth_data]: the rows it inserts. *)
Fixpoint depth_rows (timestamp : pyval) (data : gmap string pyval)
    (side : string) (level : Z) (levels : list pyval)
    : result (list level2_row) :=
  match levels with
  | [] => Ok []
  | b :: rest =>
    let* symbol := or_raise KeyError (data !! "symbol") in
    let* exchange := exchange_of symbol in
    let* raw_price := item b "price" in
    let* price := to_decimal decimal_syntax raw_price in
    let* size := item b "size" in
    let* order_count := order_count_of b in
    let* rows := depth_rows timestamp data side (level + 1) rest in
    Ok ({| l_timestamp := timestamp; l_symbol := symbol;
           l_exchange := exchange; l_side := side; l_level := level;
           l_price := price; l_size := size;
           l_order_count := Some order_count |} :: rows)
  end.

Definition depth_parameters (data : gmap string pyval)
    : result (list level2_row) :=
  let timestamp := default (PDatetime now) (data !! "timestamp") in
  let* bids := levels_of (default (PList []) (data !! "bids")) in
  let* bid_rows := depth_rows timestamp data "B" 1 bids in
  let* asks := levels_of (default (PList []) (data !! "asks")) in
  let* ask_rows := depth_rows timestamp data "S" 1 asks in
  Ok (bid_rows ++ ask_rows).

Definition store_depth_data (self : RithmicCollector)
    (data : gmap string pyval) : RithmicCollector :=
  if negb (bool_decide (is_Some (data !! "symbol"))) then self
  else
    match depth_parameters data with
    | Ok rows =>
      let db := db_conn self in
      emit (with_db self {| tick_data := tick_data db;
                            level2_data := level2_data db ++ rows |})
           (Logged DEBUG "Stored depth data for")
    | Raised _ => emit self (Logged ERROR "Failed to store depth data")
    end.

(** How the read loop ends: the [while] condition failed or the loop
    reached [break] ([Returned]); an exception left the coroutine
    ([Propagated]); the recursion budget of the model ran out. *)
Inductive ending :=
| Returned
| Propagated (e : exn)
| OutOfFuel.

Fixpoint process_messages (fuel : nat) (self : RithmicCollector)
    (p : RithmicBinaryProtocol) : RithmicCollector * ending :=
  match fuel with
  | O => (with_protocol self p, OutOfFuel)
  | S fuel' =>
    if running self && connected p then
      match receive_message p with
      | (None, p') => (with_protocol self p', Returned)
      | (Some (msg_type, data), p') =>
        match parse_market_data msg_type data with
        | Raised e => (with_protocol self p', Propagated e)
        | Ok parsed_data =>
          let self' :=
            if msg_type =? 102 then store_tick_data self parsed_data
            else if msg_type =? 103 then store_tick_data self parsed_data
            else if msg_type =? 109 then store_depth_data self parsed_data
            else emit self (Logged DEBUG "Received message type") in
          process_messages fuel' self' p'
        end
      end
    else (with_protocol self p, Returned)
  end.

End Sink.

Definition check_new_subscriptions (self : RithmicCollector)
    : RithmicCollector :=
  match redis_queue self with
  | [] => self
  | message :: rest =>
    let self := with_queue self rest in
    match message with
    | MsgEmpty => self
    | MsgMalformed =>
      emit self (Logged ERROR "Failed to check subscriptions")
    | MsgRequest symbol _ =>
      if bool_decide (symbol ∈ symbols self) then self
      else
        let self :=
          emit (with_symbols self (symbols self ++ [symbol]))
               (Logged INFO "Adding new symbol") in
        match protocol self with
        | Some p =>
          if connected p then
            match subscribe_symbol self p symbol with
            | (self', None) => self'
            | (self', Some _) =>
              emit self' (Logged ERROR "Failed to check subscriptions")
            end
          else self
        | None => self
        end
    end
  end.

(** What [run] finds outside the process: whether the database and the
    queue answer, the outcome of the k-th call of [connect] (counted
    from 0), and the byte stream of the upstream once connected. *)
Record Env := {
  database_up : bool;
  redis_up : bool;
  connect_ok : nat -> bool;
  upstream : StreamReader
}.

(** [RithmicBinaryProtocol.connect] *)
Definition connect (ok : bool) (stream : StreamReader)
    (self : RithmicBinaryProtocol) : RithmicBinaryProtocol * bool :=
  if ok
  then ({| connected := true; reader := stream; writer := writer self |},
        true)
  else (self, false).

(** The [while retry_count < 5] loop of [run]; [None] only if the
    recursion budget of the model runs out. *)
Fixpoint connect_loop (fuel : nat) (env : Env) (retry_count : Z)
    (self : RithmicCollector) (p : RithmicBinaryProtocol)
    : option (RithmicCollector * RithmicBinaryProtocol) :=
  if retry_count <? 5 then
    match fuel with
    | O => None
    | S fuel' =>
      let (p', ok) :=
        connect (connect_ok env (Z.to_nat retry_count)) (upstream env) p in
      let self := emit self (Connect ok) in
      if ok then Some (self, p')
      else
        let retry_count := retry_count + 1 in
        let self :=
          emit self (Logged WARNING
                       "Connection attempt failed, retrying in 5 seconds...") in
        let self := emit self (Sleep 5) in
        connect_loop fuel' env retry_count self p'
    end
  else Some (self, p).

(** [for symbol in self.symbols: await self.subscribe_symbol(...)] *)
Fixpoint subscribe_each (self : RithmicCollector) (todo : list string)
    : RithmicCollector * option exn :=
  match todo with
  | [] => (self, None)
  | symbol :: rest =>
    match protocol self with
    | None => (self, Some AttributeError)
    | Some p =>
      match subscribe_symbol self p symbol with
      | (self', None) => subscribe_each self' rest
      | (self', Some e) => (self', Some e)
      end
    end
  end.

(** How [run] goes up to the point where it starts its two tasks. *)
Inductive startup :=
| DatabaseUnavailable
| RedisUnavailable
| ConnectFailed
| SubscribeRaised (e : exn)
| Started
| StartupOutOfFuel.

Definition run (env : Env) (self : RithmicCollector)
    : RithmicCollector * startup :=
  let self :=
    emit self (Logged INFO "Starting Rithmic Binary Protocol Collector...") in
  if negb (database_up env)
  then (emit self (Logged ERROR "Failed to connect to database"),
        DatabaseUnavailable)
  else
    let self := emit self (Logged INFO "Connected to PostgreSQL database") in
    if negb (redis_up env)
    then (emit self (Logged ERROR "Failed to connect to Redis"),
          RedisUnavailable)
    else
      let self := emit self (Logged INFO "Connected to Redis") in
      let p0 := {| connected := false;
                   reader := {| buffer := []; incoming := [];
                                reset := false |};
                   writer := [] |} in
      match connect_loop 5 env 0 self p0 with
      | None => (self, StartupOutOfFuel)
      | Some (self, p) =>
        let self := with_protocol self p in
        if negb (connected p)
        then (emit self
                (Logged ERROR
                   "Failed to connect to R|Trader Pro after 5 attempts"),
              ConnectFailed)
        else
          match subscribe_each self (symbols self) with
          | (self', Some e) => (self', SubscribeRaised e)
          | (self', None) =>
            (emit self' (Logged INFO "Subscribed to symbols"), Started)
          end
      end.

(** *** The rest of the two classes *)

(** [RithmicBinaryProtocol.disconnect]: the writer is closed and the
    flag cleared; what was written stays written and what was buffered
    stays buffered.  The line it logs is not recorded: the protocol
    object keeps no trace. *)
Definition disconnect (self : RithmicBinaryProtocol)
    : RithmicBinaryProtocol :=
  {| connected := false; reader := reader self; writer := writer self |}.

(** [subscription_checker]: a poll of the queue and a sleep of five
    seconds, for as long as [self.running] holds. *)
Fixpoint subscription_checker (fuel : nat) (self : RithmicCollector)
    : RithmicCollector * ending :=
  match fuel with
  | O => (self, OutOfFuel)
  | S fuel' =>
    if running self then
      let self := check_new_subscriptions self in
      let self := emit self (Sleep 5) in
      subscription_checker fuel' self
    else (self, Returned)
  end.

(** [RithmicCollector.__init__]: the symbols it loads, given the value
    of [SYMBOLS] in the environment ([None]: the variable is not
    set). *)
Definition init_symbols (SYMBOLS : option string) : list string :=
  let symbols_str := default "GCQ5,ESU5" SYMBOLS in
  map PyStr.strip (PyStr.split comma symbols_str).

End Binary.

(** ** rtrader_collector.py *)

Module RTrader.

(** What one call of [socket.recv(4096)] does: return bytes (an empty
    result means the peer closed), time out, or fail. *)
Inductive recv_result :=
| RecvData (data : list byte)
| RecvTimeout
| RecvError.

Section Plugin.
(** The state the registered callbacks act on. *)
Context {S : Type}.
(** [json.loads]; [None] is [JSONDecodeError]. *)
Variable json_loads : string -> option pyval.

(** *** class RTraderProPlugin *)

(** [socket] lists the results of the calls of [recv] still to come
    (after the last one the peer has closed); [sent] lists the JSON
    objects written, each followed by a newline. *)
Record RTraderProPlugin := {
  connected : bool;
  running : bool;
  callbacks : gmap string (gmap string pyval -> S -> S);
  socket : list recv_result;
  sent : list (gmap string pyval);
  trace : list event
}.

Definition emit (self : RTraderProPlugin) (e : event) : RTraderProPlugin :=
  {| connected := connected self; running := running self;
     callbacks := callbacks self; socket := socket self;
     sent := sent self; trace := trace self ++ [e] |}.

Definition set_connected (self : RTraderProPlugin) (b : bool)
    : RTraderProPlugin :=
  {| connected := b; running := running self;
     callbacks := callbacks self; socket := socket self;
     sent := sent self; trace := trace self |}.

Definition with_socket (self : RTraderProPlugin)
    (l : list recv_result) : RTraderProPlugin :=
  {| connected := connected self; running := running self;
     callbacks := callbacks self; socket := l;
     sent := sent self; trace := trace self |}.

Definition is_type (v : pyval) (name : string) : bool :=
  match v with
  | PStr s => String.eqb s name
  | _ => false
  end.

Definition call (self : RTraderProPlugin) (name : string)
    (message : gmap string pyval) (st : S) : S :=
  match callbacks self !! name with
  | Some callback => callback message st
  | None => st
  end.

(** [Raised]: the message is not a JSON object. *)
Definition _process_message (self : RTraderProPlugin) (st : S)
    (message : pyval) : result (RTraderProPlugin * S) :=
  match message with
  | PDict m =>
    let msg_type := default (PStr "") (m !! "type") in
    if is_type msg_type "TICK" || is_type msg_type "TRADE"
    then Ok (self, call self "tick_callback" m st)
    else if is_type msg_type "QUOTE" || is_type msg_type "BBO"
    then Ok (self, call self "quote_callback" m st)
    else if is_type msg_type "DEPTH" || is_type msg_type "LEVEL2"
    then Ok (self, call self "level2_callback" m st)
    else if is_type msg_type "STATUS"
    then Ok (emit self (Logged INFO "Status"), st)
    else if is_type msg_type "ERROR"
    then Ok (emit self (Logged ERROR "Error from R|Trader Pro"), st)
    else Ok (emit self (Logged DEBUG "Unknown message type"), st)
  | _ => Raised AttributeError
  end.

(** [for msg_str in messages]; [Some e]: [e] leaves the loop. *)
Fixpoint each_line (self : RTraderProPlugin) (st : S)
    (messages : list string) : RTraderProPlugin * S * option exn :=
  match messages with
  | [] => (self, st, None)
  | msg_str :: rest =>
    if String.eqb msg_str EmptyString then each_line self st rest
    else
      let self := emit self (Decode msg_str) in
      match json_loads msg_str with
      | None =>
        each_line (emit self (Logged ERROR "Invalid JSON message")) st rest
      | Some message =>
        match _process_message self st message with
        | Ok (self', st') => each_line self' st' rest
        | Raised e => (self, st, Some e)
        end
      end
  end.

Definition stop_listening (self : RTraderProPlugin) : RTraderProPlugin :=
  emit (set_connected self false)
       (Logged INFO "R|Trader Pro listener stopped").

(** The body of the [while] loop of [_listen] once [recv] has
    produced [r]; the flag tells whether the loop goes on ([true]) or
    is left by [break] ([false]). *)
Definition listen_once (r : recv_result) (self : RTraderProPlugin)
    (st : S) : RTraderProPlugin * S * bool :=
  match r with
  | RecvTimeout => (self, st, true)
  | RecvError => (emit self (Logged ERROR "Error in listener"), st, false)
  | RecvData data =>
    match data with
    | [] => (self, st, false)
    | _ =>
      match PyStr.decode data with
      | Raised _ =>
        (emit self (Logged ERROR "Error in listener"), st, false)
      | Ok text =>
        let messages := PyStr.split newline (PyStr.strip text) in
        match each_line self st messages with
        | (self', st', None) => (self', st', true)
        | (self', st', Some _) =>
          (emit self' (Logged ERROR "Error in listener"), st', false)
        end
      end
    end
  end.

Fixpoint listen_loop (todo : list recv_result) (self : RTraderProPlugin)
    (st : S) : RTraderProPlugin * S :=
  if running self && connected self then
    match todo with
    | [] => (stop_listening (with_socket self []), st)
    | r :: rest =>
      match listen_once r (with_socket self rest) st with
      | (self', st', true) => listen_loop rest self' st'
      | (self', st', false) => (stop_listening self', st')
      end
    end
  else (stop_listening (with_socket self todo), st).

(** One turn of the listener thread: the test of the loop
    condition, one [recv] and the loop body.  A turn taken once the
    loop has been left does nothing. *)
Definition listen_turn (self : RTraderProPlugin) (st : S)
    : RTraderProPlugin * S :=
  if running self && connected self then
    match socket self with
    | [] => (stop_listening self, st)
    | r :: rest =>
      match listen_once r (with_socket self rest) st with
      | (self', st', true) => (self', st')
      | (self', st', false) => (stop_listening self', st')
      end
    end
  else (self, st).

Definition _listen (self : RTraderProPlugin) (st : S)
    : RTraderProPlugin * S :=
  listen_loop (socket self) self st.

Definition send_message (self : RTraderProPlugin)
    (message : gmap string pyval) : RTraderProPlugin * bool :=
  if negb (connected self) then (self, false)
  else ({| connected := connected self; running := running self;
           callbacks := callbacks self; socket := socket self;
           sent := sent self ++ [message]; trace := trace self |}, true).

Definition subscribe_market_data (self : RTraderProPlugin)
    (symbol exchange : string) : RTraderProPlugin * bool :=
  let message : gmap string pyval :=
    <["data_types" := PList [PStr "TRADE"; PStr "QUOTE"; PStr "DEPTH"]]>
    (<["exchange" := PStr exchange]>
     (<["symbol" := PStr symbol]>
      (<["type" := PStr "MARKET_DATA"]>
       {[ "action" := PStr "SUBSCRIBE" ]}))) in
  send_message self message.

Definition unsubscribe_market_data (self : RTraderProPlugin)
    (symbol exchange : string) : RTraderProPlugin * bool :=
  let message : gmap string pyval :=
    <["exchange" := PStr exchange]>
    (<["symbol" := PStr symbol]>
     (<["type" := PStr "MARKET_DATA"]>
      {[ "action" := PStr "UNSUBSCRIBE" ]})) in
  send_message self message.

Definition set_callback (self : RTraderProPlugin) (callback_type : string)
    (callback : gmap string pyval -> S -> S) : RTraderProPlugin :=
  {| connected := connected self; running := running self;
     callbacks := <[callback_type := callback]> (callbacks self);
     socket := socket self; sent := sent self; trace := trace self |}.

(** [RTraderProPlugin.__init__] *)
Definition new_plugin : RTraderProPlugin :=
  {| connected := false; running := false; callbacks := ∅;
     socket := []; sent := []; trace := [] |}.

(** [RTraderProPlugin.connect].  [upstream] is what the calls of
    [recv] will produce if the peer accepts the connection, [None]
    if it does not.  The listener thread that [connect] starts is
    [_listen], run by turns beside the caller. *)
Definition connect (upstream : option (list recv_result))
    (self : RTraderProPlugin) : RTraderProPlugin * bool :=
  match upstream with
  | Some script =>
    (emit {| connected := true; running := true;
             callbacks := callbacks self; socket := script;
             sent := sent self; trace := trace self |}
          (Logged INFO "Connected to R|Trader Pro at"), true)
  | None =>
    (emit self (Logged ERROR "Failed to connect to R|Trader Pro"), false)
  end.

(** [RTraderProPlugin.disconnect] *)
Definition disconnect (self : RTraderProPlugin) : RTraderProPlugin :=
  emit {| connected := false; running := false;
          callbacks := callbacks self; socket := socket self;
          sent := sent self; trace := trace self |}
       (Logged INFO "Disconnected from R|Trader Pro").

End Plugin.
Arguments RTraderProPlugin : clear implicits.

(** *** class RTraderProDataCollector *)

(** What the data handlers act on: the database connection and the
    log. *)
Record Store := {
  db_conn : Database;
  journal : list event
}.

Definition note (st : Store) (e : event) : Store :=
  {| db_conn := db_conn st; journal := journal st ++ [e] |}.

Record RTraderProDataCollector := {
  store : Store;
  redis_queue : list queue_msg;
  rtrader_client : option (RTraderProPlugin Store);
  symbols : list string;
  subscribed_symbols : gset string
}.

Section Handlers.
Variable decimal_syntax : string -> bool.
(** [datetime.fromisoformat]; [None] is [ValueError]. *)
Variable fromisoformat : string -> option Z.
(** The reading of [datetime.now()]. *)
Variable now : Z.

Definition timestamp_of (data : gmap string pyval) : result pyval :=
  match data !! "timestamp" with
  | None => Ok (PDatetime now)
  | Some (PStr s) =>
    let* t := or_raise ValueError (fromisoformat s) in Ok (PDatetime t)
  | Some v => Ok v
  end.

(** [Decimal(str(data.get(k, 0))) if data.get(k) else None] *)
Definition optional_decimal (data : gmap string pyval) (k : string)
    : result (option decimal) :=
  if truthy (default PNone (data !! k))
  then let* d := to_decimal decimal_syntax (default (PInt 0) (data !! k)) in
       Ok (Some d)
  else Ok None.

(** The parameters of the [INSERT INTO tick_data]; the two columns
    the statement does not name stay null. *)
Definition tick_parameters (data : gmap string pyval) : result tick_row :=
  let* timestamp := timestamp_of data in
  let* price :=
    to_decimal decimal_syntax (default (PInt 0) (data !! "price")) in
  let* bid_price := optional_decimal data "bid_price" in
  let* ask_price := optional_decimal data "ask_price" in
  Ok {| t_timestamp := timestamp;
        t_symbol := default PNone (data !! "symbol");
        t_exchange := default (PStr "CME") (data !! "exchange");
        t_price := price;
        t_size := default (PInt 0) (data !! "size");
        t_bid_price := bid_price;
        t_ask_price := ask_price;
        t_bid_size := default PNone (data !! "bid_size");
        t_ask_size := default PNone (data !! "ask_size");
        t_aggressor_side := None;
        t_trade_id := PNone |}.

Definition _handle_tick_data (data : gmap string pyval) (st : Store)
    : Store :=
  match tick_parameters data with
  | Ok row =>
    let db := db_conn st in
    note {| db_conn := {| tick_data := tick_data db ++ [row];
                          level2_data := level2_data db |};
            journal := journal st |}
         (Logged DEBUG "Stored tick data for")
  | Raised _ => note st (Logged ERROR "Failed to store tick data")
  end.

Definition _handle_quote_data (data : gmap string pyval) (st : Store)
    : Store :=
  _handle_tick_data data st.

(** [timestamp - INTERVAL '1 minute'] as the sink evaluates it: a
    datetime gives the cut-off, null gives null, and no other value
    has such a difference. *)
Definition cutoff_of (timestamp : pyval) : result (option Z) :=
  match timestamp with
  | PDatetime t => Ok (Some (t - 60000))
  | PNone => Ok None
  | _ => Raised TypeError
  end.

(** [symbol = %s] as the sink evaluates it: only text or null can be
    compared with the column. *)
Definition symbol_key (symbol : pyval) : result (option string) :=
  match symbol with
  | PStr s => Ok (Some s)
  | PNone => Ok None
  | _ => Raised TypeError
  end.

(** The rows the [DELETE] selects. *)
Definition stale (key : option string) (cutoff : option Z)
    (r : level2_row) : bool :=
  match key, l_symbol r, cutoff, l_timestamp r with
  | Some s, PStr s', Some c, PDatetime t => String.eqb s s' && (t <? c)
  | _, _, _, _ => false
  end.

(** [levels[:10]], then what the [for] loop draws from it. *)
Definition top_levels (v : pyval) : result (list pyval) :=
  match v with
  | PList l => Ok (take 10 l)
  | PStr s =>
    if String.eqb s EmptyString then Ok [] else Raised AttributeError
  | _ => Raised TypeError
  end.

(** [b.get(k, 0)] for a price level [b]. *)
Definition field (b : pyval) (k : string) : result pyval :=
  match b with
  | PDict d => Ok (default (PInt 0) (d !! k))
  | _ => Raised AttributeError
  end.

(** One [for level, b in enumerate(levels)] loop of
    [_handle_level2_data], entered at index [level]. *)
Fixpoint level_rows (timestamp : pyval) (data : gmap string pyval)
    (side : string) (level : Z) (levels : list pyval)
    : result (list level2_row) :=
  match levels with
  | [] => Ok []
  | b :: rest =>
    let* raw_price := field b "price" in
    let* price := to_decimal decimal_syntax raw_price in
    let* size := field b "size" in
    let* rows := level_rows timestamp data side (level + 1) rest in
    Ok ({| l_timestamp := timestamp;
           l_symbol := default PNone (data !! "symbol");
           l_exchange := default (PStr "CME") (data !! "exchange");
           l_side := side; l_level := level + 1;
           l_price := price; l_size := size;
           l_order_count := None |} :: rows)
  end.

(** The table after the transaction of [_handle_level2_data]. *)
Definition level2_transaction (data : gmap string pyval)
    (table : list level2_row) : result (list level2_row) :=
  let* timestamp := timestamp_of data in
  let* key := symbol_key (default PNone (data !! "symbol")) in
  let* cutoff := cutoff_of timestamp in
  let kept := filter (fun r => negb (stale key cutoff r)) table in
  let* bids := top_levels (default (PList []) (data !! "bids")) in
  let* bid_rows := level_rows timestamp data "B" 0 bids in
  let* asks := top_levels (default (PList []) (data !! "asks")) in
  let* ask_rows := level_rows timestamp data "S" 0 asks in
  Ok (kept ++ bid_rows ++ ask_rows).

Definition _handle_level2_data (data : gmap string pyval) (st : Store)
    : Store :=
  let db := db_conn st in
  match level2_transaction data (level2_data db) with
  | Ok table =>
    note {| db_conn := {| tick_data := tick_data db;
                          level2_data := table |};
            journal := journal st |}
         (Logged DEBUG "Stored Level 2 data for")
  | Raised _ => note st (Logged ERROR "Failed to store Level 2 data")
  end.

End Handlers.

Definition with_client (self : RTraderProDataCollector)
    (c : RTraderProPlugin Store) : RTraderProDataCollector :=
  {| store := store self; redis_queue := redis_queue self;
     rtrader_client := Some c; symbols := symbols self;
     subscribed_symbols := subscribed_symbols self |}.

Definition with_queue (self : RTraderProDataCollector)
    (q : list queue_msg) : RTraderProDataCollector :=
  {| store := store self; redis_queue := q;
     rtrader_client := rtrader_client self; symbols := symbols self;
     subscribed_symbols := subscribed_symbols self |}.

Definition add_subscribed (self : RTraderProDataCollector)
    (entry : string) : RTraderProDataCollector :=
  {| store := store self; redis_queue := redis_queue self;
     rtrader_client := rtrader_client self; symbols := symbols self;
     subscribed_symbols := {[ entry ]} ∪ subscribed_symbols self |}.

Definition log (self : RTraderProDataCollector) (e : event)
    : RTraderProDataCollector :=
  {| store := note (store self) e; redis_queue := redis_queue self;
     rtrader_client := rtrader_client self; symbols := symbols self;
     subscribed_symbols := subscribed_symbols self |}.

(** [SYMBOL] or [SYMBOL:EXCHANGE]; a token with two colons cannot be
    unpacked into two names. *)
Definition parse_token (symbol : string) : result (string * string) :=
  if PyStr.contains colon symbol then
    match PyStr.split colon symbol with
    | [sym; exchange] => Ok (sym, exchange)
    | _ => Raised ValueError
    end
  else Ok (symbol, "CME").

(** The body of the [for] loop of [subscribe_symbols]. *)
Definition subscribe_token (self : RTraderProDataCollector)
    (symbol : string) : RTraderProDataCollector * option exn :=
  match parse_token symbol with
  | Raised e => (self, Some e)
  | Ok (sym, exchange) =>
    match rtrader_client self with
    | None => (self, Some AttributeError)
    | Some client =>
      let (client', ok) := subscribe_market_data client sym exchange in
      let self := with_client self client' in
      if ok
      then (log (add_subscribed self symbol) (Logged INFO "Subscribed to"),
            None)
      else (log self (Logged ERROR "Failed to subscribe to"), None)
    end
  end.

Fixpoint subscribe_each (self : RTraderProDataCollector)
    (todo : list string) : RTraderProDataCollector * option exn :=
  match todo with
  | [] => (self, None)
  | symbol :: rest =>
    match subscribe_token self symbol with
    | (self', None) => subscribe_each self' rest
    | (self', Some e) => (self', Some e)
    end
  end.

Definition subscribe_symbols (self : RTraderProDataCollector)
    : RTraderProDataCollector * option exn :=
  subscribe_each (log self (Logged INFO "Subscribing to symbols"))
                 (symbols self).

Definition check_new_subscriptions (self : RTraderProDataCollector)
    : RTraderProDataCollector :=
  match redis_queue self with
  | [] => self
  | message :: rest =>
    let self := with_queue self rest in
    match message with
    | MsgEmpty => self
    | MsgMalformed =>
      log self (Logged ERROR "Failed to check new subscriptions")
    | MsgRequest symbol requested =>
      let exchange := default "CME" requested in
      let full_symbol := symbol +:+ ":" +:+ exchange in
      if bool_decide (full_symbol ∈ subscribed_symbols self) then self
      else
        match rtrader_client self with
        | None => log self (Logged ERROR "Failed to check new subscriptions")
        | Some client =>
          let (client', ok) :=
            subscribe_market_data client symbol exchange in
          let self := with_client self client' in
          if ok
          then log (add_subscribed self full_symbol)
                   (Logged INFO "Added new subscription")
          else self
        end
    end
  end.

(** [RTraderProDataCollector.__init__]: the symbols it loads, given the
    value of [SYMBOLS] in the environment ([None]: the variable is not
    set). *)
Definition init_symbols (SYMBOLS : option string) : list string :=
  let symbols_str := default "GCQ5,MGCQ5" SYMBOLS in
  map PyStr.strip (PyStr.split comma symbols_str).

(** Where the main thread stands when the listener thread, which
    [connect] has started, takes its turns: before the [k]-th call of
    [set_callback], before the [i]-th token of the start-up loop,
    before the [j]-th poll of the main loop (all counted from 0), or
    before the [finally] block. *)
Inductive point :=
| AtCallback (k : nat)
| AtToken (i : nat)
| AtPoll (j : nat)
| AtCleanup.

(** What [run] finds outside the process: whether the database and the
    queue answer, what the plug-in port delivers ([None]: the
    connection is refused), after how many turns of the main loop the
    operator interrupts it, and how the two threads are scheduled: the
    number of turns the listener takes at each point of the main
    thread. *)
Record Env := {
  database_up : bool;
  redis_up : bool;
  upstream : option (list recv_result);
  interrupt_after : nat;
  listener : point -> nat
}.

(** The exception that ends [run] before its main loop. *)
Inductive failure :=
| DatabaseUnavailable
| RedisUnavailable
| ConnectFailed
| SubscribeRaised (e : exn).

Section Run.
Variable json_loads : string -> option pyval.
Variable decimal_syntax : string -> bool.
Variable fromisoformat : string -> option Z.
Variable now : Z.

(** [false]: the exception is logged and raised again. *)
Definition connect_database (up : bool) (self : RTraderProDataCollector)
    : RTraderProDataCollector * bool :=
  if up then (log self (Logged INFO "Connected to PostgreSQL database"), true)
  else (log self (Logged ERROR "Failed to connect to database"), false).

Definition connect_redis (up : bool) (self : RTraderProDataCollector)
    : RTraderProDataCollector * bool :=
  if up then (log self (Logged INFO "Connected to Redis"), true)
  else (log self (Logged ERROR "Failed to connect to Redis"), false).

(** The body of [connect_rtrader_pro], with no turn of the listener
    thread in between; [false]:
    [Exception("Failed to connect to R|Trader Pro")]. *)
Definition connect_rtrader_pro (stream : option (list recv_result))
    (self : RTraderProDataCollector) : RTraderProDataCollector * bool :=
  let self := log self (Logged INFO "Connecting to R|Trader Pro at") in
  let (client, ok) := connect stream new_plugin in
  let self := with_client self client in
  if ok then
    let self :=
      log self (Logged INFO "Connected to R|Trader Pro successfully") in
    let client :=
      set_callback client "tick_callback"
        (_handle_tick_data decimal_syntax fromisoformat now) in
    let client :=
      set_callback client "quote_callback"
        (_handle_quote_data decimal_syntax fromisoformat now) in
    let client :=
      set_callback client "level2_callback"
        (_handle_level2_data decimal_syntax fromisoformat now) in
    (with_client self client, true)
  else (self, false).

(** *** The main thread beside the listener thread *)

(** One turn of the listener thread: the client and the state its
    callbacks act on change together. *)
Definition listener_turn (self : RTraderProDataCollector)
    : RTraderProDataCollector :=
  match rtrader_client self with
  | Some client =>
    let '(client', store') :=
      listen_turn json_loads client (store self) in
    {| store := store'; redis_queue := redis_queue self;
       rtrader_client := Some client'; symbols := symbols self;
       subscribed_symbols := subscribed_symbols self |}
  | None => self
  end.

Fixpoint listener_turns (n : nat) (self : RTraderProDataCollector)
    : RTraderProDataCollector :=
  match n with
  | O => self
  | S n' => listener_turns n' (listener_turn self)
  end.

(** A call of [set_callback] on the client, after the turns the
    listener takes before it. *)
Definition register (turns : nat) (callback_type : string)
    (callback : gmap string pyval -> Store -> Store)
    (self : RTraderProDataCollector) : RTraderProDataCollector :=
  let self := listener_turns turns self in
  match rtrader_client self with
  | Some client =>
    with_client self (set_callback client callback_type callback)
  | None => self
  end.

(** [connect_rtrader_pro] as [run] executes it: the listener thread
    exists from the moment [connect] returns and takes its turns
    while the callbacks are being registered. *)
Definition connect_rtrader_pro_beside (turns : point -> nat)
    (stream : option (list recv_result))
    (self : RTraderProDataCollector) : RTraderProDataCollector * bool :=
  let self := log self (Logged INFO "Connecting to R|Trader Pro at") in
  let (client, ok) := connect stream new_plugin in
  let self := with_client self client in
  if ok then
    let self :=
      log self (Logged INFO "Connected to R|Trader Pro successfully") in
    let self :=
      register (turns (AtCallback 0)) "tick_callback"
        (_handle_tick_data decimal_syntax fromisoformat now) self in
    let self :=
      register (turns (AtCallback 1)) "quote_callback"
        (_handle_quote_data decimal_syntax fromisoformat now) self in
    let self :=
      register (turns (AtCallback 2)) "level2_callback"
        (_handle_level2_data decimal_syntax fromisoformat now) self in
    (self, true)
  else (self, false).

(** The loop of [subscribe_symbols] from its [i]-th token on, the
    listener taking its turns before each token. *)
Fixpoint subscribe_each_beside (turns : point -> nat) (i : nat)
    (self : RTraderProDataCollector) (todo : list string)
    : RTraderProDataCollector * option exn :=
  match todo with
  | [] => (self, None)
  | symbol :: rest =>
    let self := listener_turns (turns (AtToken i)) self in
    match subscribe_token self symbol with
    | (self', None) => subscribe_each_beside turns (S i) self' rest
    | (self', Some e) => (self', Some e)
    end
  end.

Definition subscribe_symbols_beside (turns : point -> nat)
    (self : RTraderProDataCollector)
    : RTraderProDataCollector * option exn :=
  subscribe_each_beside turns 0
    (log self (Logged INFO "Subscribing to symbols")) (symbols self).

(** The four calls that open the [try] block of [run]. *)
Definition connect_services (env : Env) (self : RTraderProDataCollector)
    : RTraderProDataCollector * option failure :=
  match connect_database (database_up env) self with
  | (self, false) => (self, Some DatabaseUnavailable)
  | (self, true) =>
    match connect_redis (redis_up env) self with
    | (self, false) => (self, Some RedisUnavailable)
    | (self, true) =>
      match connect_rtrader_pro_beside (listener env) (upstream env)
              self with
      | (self, false) => (self, Some ConnectFailed)
      | (self, true) =>
        match subscribe_symbols_beside (listener env) self with
        | (self, Some e) => (self, Some (SubscribeRaised e))
        | (self, None) => (self, None)
        end
      end
    end
  end.

(** The [while self.running] loop of [run] from its [j]-th turn on: a
    poll of the queue and a sleep of one second, [todo] times, until
    the interrupt; the listener takes its turns before each poll. *)
Fixpoint main_loop (turns : point -> nat) (j todo : nat)
    (self : RTraderProDataCollector) : RTraderProDataCollector :=
  match todo with
  | O => self
  | S todo' =>
    let self := listener_turns (turns (AtPoll j)) self in
    let self := check_new_subscriptions self in
    let self := log self (Sleep 1) in
    main_loop turns (S j) todo' self
  end.

(** The [finally] block of [run]. *)
Definition cleanup (self : RTraderProDataCollector)
    : RTraderProDataCollector :=
  let self := log self (Logged INFO "Shutting down collector...") in
  let self :=
    match rtrader_client self with
    | Some client => with_client self (disconnect client)
    | None => self
    end in
  log self (Logged INFO "Collector stopped").

(** [Some f]: [run] ends by raising the exception [f] stands for;
    [None]: it returns after the interrupt. *)
Definition run (env : Env) (self : RTraderProDataCollector)
    : RTraderProDataCollector * option failure :=
  let self :=
    log self (Logged INFO "Starting R|Trader Pro Data Collector...") in
  match connect_services env self with
  | (self, Some f) =>
    let self := log self (Logged ERROR "Fatal error") in
    (cleanup (listener_turns (listener env AtCleanup) self), Some f)
  | (self, None) =>
    let self :=
      log self
        (Logged INFO "Collector started successfully, waiting for data...") in
    let self := main_loop (listener env) 0 (interrupt_after env) self in
    (cleanup (listener_turns (listener env AtCleanup) self), None)
  end.

End Run.

End RTrader.

(** ** Reference decoder and observations used by the statements *)

(** The binary frame as the data model words it:
    [[length:uint32][type:uint16][payload]], big-endian, with [length] the
    number of payload bytes plus 2. *)
Definition frame_layout (msg_type : Z) (payload : list byte) : list byte :=
  Struct.be_bytes 4 (Z.of_nat (length payload) + 2)
  ++ Struct.be_bytes 2 msg_type ++ payload.

(** The decoder of the frame codec run on a whole byte sequence at once:
    six header bytes are needed, the payload has [length - 2] bytes, and a
    sequence that ends before the frame does yields nothing. *)
Definition decode_at_once (bs : list byte)
    : option (Z * list byte) * list byte :=
  if (length bs <? 6)%nat then (None, [])
  else
    let msg_length := Struct.be_value (take 4 bs) in
    let msg_type := Struct.be_value (take 2 (drop 4 bs)) in
    let n := Z.to_nat (msg_length - 2) in
    let body := drop 6 bs in
    if (n <=? length body)%nat
    then (Some (msg_type, take n body), drop n body)
    else (None, []).

(** The frames [receive_message] returns when it is called again and
    again, at most [fuel] times, until it returns [(None, None)]. *)
Fixpoint received (fuel : nat) (p : Binary.RithmicBinaryProtocol)
    : list (Z * list byte) :=
  match fuel with
  | O => []
  | S fuel' =>
    match Binary.receive_message p with
    | (Some m, p') => m :: received fuel' p'
    | (None, _) => []
    end
  end.

(** The payload size the specification gives as an example of the
    configured maximum. *)
Definition sixteen_MiB : Z := 16 * 1024 * 1024.

(** The texts handed to [json.loads], in order. *)
Definition decoder_calls (tr : list event) : list string :=
  omap (fun e => match e with Decode text => Some text | _ => None end) tr.

Definition quoted (s : string) : string :=
  String (ascii_of_nat 34) (s +:+ String (ascii_of_nat 34) EmptyString).

(** The depth message of the specification's scenario, one line of JSON
    text. *)
Definition depth_line : string :=
  "{" +:+ quoted "type" +:+ ":" +:+ quoted "DEPTH" +:+ ","
  +:+ quoted "symbol" +:+ ":" +:+ quoted "GCQ5" +:+ ","
  +:+ quoted "bids" +:+ ":[{" +:+ quoted "price" +:+ ":1950.1,"
  +:+ quoted "size" +:+ ":5}]," +:+ quoted "asks" +:+ ":[]}".

(** The same message as it travels: the line and its newline. *)
Definition depth_frame : list byte :=
  list_byte_of_string depth_line ++ [x0a].

(** The lines one result of [recv] is split into. *)
Definition lines_of (r : RTrader.recv_result) : list string :=
  match r with
  | RTrader.RecvData data =>
    match PyStr.decode data with
    | Ok text => PyStr.split newline (PyStr.strip text)
    | Raised _ => []
    end
  | _ => []
  end.

(** A plugin client that is connected and listening, with the given
    callbacks and the given results of [recv] ahead of it. *)
Definition listening {S : Type}
    (cbs : gmap string (gmap string pyval -> S -> S))
    (script : list RTrader.recv_result) : RTrader.RTraderProPlugin S :=
  {| RTrader.connected := true; RTrader.running := true;
     RTrader.callbacks := cbs; RTrader.socket := script;
     RTrader.sent := []; RTrader.trace := [] |}.

(** A binary collector with empty tables, an empty queue and no symbols,
    before any connection is made. *)
Definition idle_collector : Binary.RithmicCollector :=
  {| Binary.db_conn := {| tick_data := []; level2_data := [] |};
     Binary.redis_queue := [];
     Binary.protocol := None;
     Binary.running := true;
     Binary.symbols := [];
     Binary.trace := [] |}.

(** A connected protocol object with the given bytes ahead of it, arriving
    as one chunk. *)
Definition connected_to (stream : list byte) : Binary.RithmicBinaryProtocol :=
  {| Binary.connected := true;
     Binary.reader := {| buffer := []; incoming := [stream]; reset := false |};
     Binary.writer := [] |}.

(** The LAST_TRADE payload of the specification's scenario: symbol
    [ESU5], price 4500.25, size 3, a timestamp in milliseconds. *)
Definition last_trade_payload : list byte :=
  Struct.be_bytes 4 4 ++ PyStr.encode "ESU5"
  ++ Struct.be_bytes 8 0x40B1944000000000
  ++ Struct.be_bytes 4 3 ++ Struct.be_bytes 8 1700000000000.

(** A LAST_TRADE payload of 24 bytes whose symbol-length field says 100. *)
Definition short_last_trade_payload : list byte :=
  Struct.be_bytes 4 100 ++ repeat x41 20.

(** A BID_OFFER payload of 32 bytes: symbol [ESU5], bid 4500.25 for 10,
    ask 4500.5 for 12. *)
Definition bid_offer_payload : list byte :=
  Struct.be_bytes 4 4 ++ PyStr.encode "ESU5"
  ++ Struct.be_bytes 8 0x40B1944000000000 ++ Struct.be_bytes 4 10
  ++ Struct.be_bytes 8 0x40B1948000000000 ++ Struct.be_bytes 4 12.

(** A price level [{'price': price, 'size': size}]. *)
Definition price_level (price size : Z) : pyval :=
  PDict (<["size" := PInt size]> {[ "price" := PInt price ]}).

(** Fifteen bid levels, best first. *)
Definition fifteen_bids : list pyval :=
  map (fun i => price_level (1950 - i) (i + 1)) (seqZ 0 15).

(** A depth update for [GCQ5] with fifteen bid levels and no ask. *)
Definition depth_update : gmap string pyval :=
  <["asks" := PList []]>
  (<["bids" := PList fifteen_bids]> {[ "symbol" := PStr "GCQ5" ]}).

(** A MARKET_DEPTH_UPDATE payload with the fifteen bid levels of
    [fifteen_bids], laid out in the style of the two payloads the parser
    reads: the symbol [GCQ5] with its length, the number of bid levels,
    each level as a price (a double) and a size, and the number of ask
    levels, none.  The source defines no layout for this type. *)
Definition depth_update_payload : list byte :=
  Struct.be_bytes 4 4 ++ PyStr.encode "GCQ5"
  ++ Struct.be_bytes 4 15
  ++ concat (map (fun i =>
                    Struct.be_bytes 8 (0x409E780000000000 - i * 0x40000000000)
                    ++ Struct.be_bytes 4 (i + 1))
                 (seqZ 0 15))
  ++ Struct.be_bytes 4 0.

(** Empty tables and an empty journal, for the plugin collector. *)
Definition empty_store : RTrader.Store :=
  {| RTrader.db_conn := {| tick_data := []; level2_data := [] |};
     RTrader.journal := [] |}.

(** *** Runs of the two collectors *)

(** What can happen to a running plugin collector, one step at a time: a
    poll of the control queue, one iteration of the start-up subscription
    loop, one turn of the listener thread, a producer publishing a request,
    the outcome of a further [recv] becoming available. *)
Inductive plugin_op :=
| Poll
| SubscribeToken (symbol : string)
| ListenerTurn
| Publish (m : queue_msg)
| Arrive (r : RTrader.recv_result).

Definition plugin_step (json_loads : string -> option pyval)
    (o : plugin_op) (self : RTrader.RTraderProDataCollector)
    : RTrader.RTraderProDataCollector :=
  match o with
  | Poll => RTrader.check_new_subscriptions self
  | SubscribeToken symbol => (RTrader.subscribe_token self symbol).1
  | ListenerTurn =>
    match RTrader.rtrader_client self with
    | Some client =>
      let '(client', store') :=
        RTrader.listen_turn json_loads client (RTrader.store self) in
      {| RTrader.store := store';
         RTrader.redis_queue := RTrader.redis_queue self;
         RTrader.rtrader_client := Some client';
         RTrader.symbols := RTrader.symbols self;
         RTrader.subscribed_symbols := RTrader.subscribed_symbols self |}
    | None => self
    end
  | Publish m =>
    RTrader.with_queue self (RTrader.redis_queue self ++ [m])
  | Arrive r =>
    match RTrader.rtrader_client self with
    | Some client =>
      RTrader.with_client self
        (RTrader.with_socket client (RTrader.socket client ++ [r]))
    | None => self
    end
  end.

Definition plugin_run (json_loads : string -> option pyval)
    (ops : list plugin_op) (self : RTrader.RTraderProDataCollector)
    : RTrader.RTraderProDataCollector :=
  foldl (fun s o => plugin_step json_loads o s) self ops.

(** The same for the binary collector: a poll of the control queue, a
    producer publishing a request, the read loop advancing by at most
    [fuel] frames, and the start-up part of [run]. *)
Inductive binary_op :=
| BPoll
| BPublish (m : queue_msg)
| BReadLoop (fuel : nat)
| BStart (env : Binary.Env).

Definition binary_step (decimal_syntax : string -> bool) (now : Z)
    (o : binary_op) (self : Binary.RithmicCollector)
    : Binary.RithmicCollector :=
  match o with
  | BPoll => Binary.check_new_subscriptions self
  | BPublish m =>
    Binary.with_queue self (Binary.redis_queue self ++ [m])
  | BReadLoop fuel =>
    match Binary.protocol self with
    | Some p => (Binary.process_messages decimal_syntax now fuel self p).1
    | None => self
    end
  | BStart env => (Binary.run env self).1
  end.

Definition binary_run (decimal_syntax : string -> bool) (now : Z)
    (ops : list binary_op) (self : Binary.RithmicCollector)
    : Binary.RithmicCollector :=
  foldl (fun s o => binary_step decimal_syntax now o s) self ops.

(** The bytes the binary collector has written to its transport. *)
Definition written (self : Binary.RithmicCollector) : list byte :=
  match Binary.protocol self with
  | Some p => Binary.writer p
  | None => []
  end.

(** The JSON objects the plugin collector has written to its socket. *)
Definition sent_by (self : RTrader.RTraderProDataCollector)
    : list (gmap string pyval) :=
  match RTrader.rtrader_client self with
  | Some client => RTrader.sent client
  | None => []
  end.

(** The attempts to connect recorded in a trace, and the sleeps. *)
Definition attempts (tr : list event) : list bool :=
  omap (fun e => match e with Connect ok => Some ok | _ => None end) tr.

Definition sleeps (tr : list event) : list Z :=
  omap (fun e => match e with Sleep s => Some s | _ => None end) tr.

(** All characters of [s] are among [chars]. *)
Fixpoint all_in (chars s : string) : Prop :=
  match s with
  | EmptyString => True
  | String c s' => PyStr.contains c chars = true /\ all_in chars s'
  end.

(** The last character of [s], if any. *)
Fixpoint last_char (s : string) : option ascii :=
  match s with
  | EmptyString => None
  | String c EmptyString => Some c
  | String _ s' => last_char s'
  end.

(** What one failed attempt of the retry loop leaves in the trace. *)
Definition failed_attempt : list event :=
  [ Connect false;
    Logged WARNING "Connection attempt failed, retrying in 5 seconds...";
    Sleep 5 ].

Definition emit_each (self : Binary.RithmicCollector) (evs : list event)
    : Binary.RithmicCollector :=
  foldl Binary.emit self evs.

(** The log lines [run] writes before it tries to connect. *)
Definition preamble : list event :=
  [ Logged INFO "Starting Rithmic Binary Protocol Collector...";
    Logged INFO "Connected to PostgreSQL database";
    Logged INFO "Connected to Redis" ].


(** The subscribe request of the plugin protocol for a symbol on an
    exchange. *)
Definition subscribe_request (symbol exchange : string) : gmap string pyval :=
  <["data_types" := PList [PStr "TRADE"; PStr "QUOTE"; PStr "DEPTH"]]>
  (<["exchange" := PStr exchange]>
   (<["symbol" := PStr symbol]>
    (<["type" := PStr "MARKET_DATA"]>
     {[ "action" := PStr "SUBSCRIBE" ]}))).

(** The payload of the binary subscribe frame for a symbol: the symbol
    and the exchange the resolver gives for it, each with its length, and
    the subscribe flag. *)
Definition subscribe_bytes (symbol : string) : list byte :=
  let exchange := Binary.get_exchange_for_symbol symbol in
  Struct.be_bytes 4 (PyStr.len symbol) ++ PyStr.encode symbol
  ++ Struct.be_bytes 4 (PyStr.len exchange) ++ PyStr.encode exchange
  ++ Struct.be_bytes 4 1.

(** *** Encoders and observations for the further properties *)

(** A message [send_message] can frame: what [struct.pack('>IH', ...)]
    accepts. *)
Definition sendable (m : Z * list byte) : Prop :=
  0 <= m.1 < 65536 /\ Z.of_nat (length m.2) + 2 < 2 ^ 32.

(** The frames of a sequence of messages, one after the other. *)
Definition frames (msgs : list (Z * list byte)) : list byte :=
  concat (map (fun m => frame_layout m.1 m.2) msgs).

(** [send_message] called on each message in turn. *)
Definition send_each (tx : Binary.RithmicBinaryProtocol)
    (msgs : list (Z * list byte)) : Binary.RithmicBinaryProtocol :=
  foldl (fun tx m => (Binary.send_message tx m.1 m.2).1) tx msgs.

(** The payload layout [parse_market_data] reads for LAST_TRADE: the
    symbol with its length in bytes, the price (a double), the size and
    the timestamp in milliseconds. *)
Definition last_trade_bytes (symbol : string) (price size timestamp : Z)
    : list byte :=
  Struct.be_bytes 4 (Z.of_nat (length (PyStr.encode symbol)))
  ++ PyStr.encode symbol
  ++ Struct.be_bytes 8 price ++ Struct.be_bytes 4 size
  ++ Struct.be_bytes 8 timestamp.

(** The payload layout it reads for BID_OFFER. *)
Definition bid_offer_bytes (symbol : string)
    (bid_price bid_size ask_price ask_size : Z) : list byte :=
  Struct.be_bytes 4 (Z.of_nat (length (PyStr.encode symbol)))
  ++ PyStr.encode symbol
  ++ Struct.be_bytes 8 bid_price ++ Struct.be_bytes 4 bid_size
  ++ Struct.be_bytes 8 ask_price ++ Struct.be_bytes 4 ask_size.

(** A trade as the upstream reports it. *)
Record trade := {
  tr_symbol : string;
  tr_price : Z;
  tr_size : Z;
  tr_timestamp : Z
}.

(** The instants, in milliseconds since the epoch, that survive the
    division by [1000.0] unchanged: below [2^33] seconds a double still
    tells microseconds apart. *)
Definition exact_instants : Z := 8589934592000.

(** The trade can be put on the wire and read back: the symbol is
    well-formed text, the fields fit their widths, the instant is one
    [datetime.fromtimestamp] renders exactly. *)
Definition reportable (t : trade) : Prop :=
  PyStr.utf8_valid (PyStr.codes (tr_symbol t)) = true
  /\ Z.of_nat (length (PyStr.encode (tr_symbol t))) < 2 ^ 31
  /\ 0 <= tr_price t < 2 ^ 64
  /\ 0 <= tr_size t < 2 ^ 32
  /\ 0 <= tr_timestamp t < exact_instants.

Definition trade_frame (t : trade) : list byte :=
  frame_layout 102
    (last_trade_bytes (tr_symbol t) (tr_price t) (tr_size t)
       (tr_timestamp t)).

(** The row the binary collector stores for a trade. *)
Definition row_of_trade (t : trade) : tick_row :=
  {| t_timestamp := PDatetime (tr_timestamp t);
     t_symbol := PStr (tr_symbol t);
     t_exchange := PStr (Binary.get_exchange_for_symbol (tr_symbol t));
     t_price := Dec (PFloat (tr_price t));
     t_size := PInt (tr_size t);
     t_bid_price := None; t_ask_price := None;
     t_bid_size := PNone; t_ask_size := PNone;
     t_aggressor_side := None; t_trade_id := PNone |}.

(** A row that holds a trade and nothing else: no quote column, no
    aggressor, no trade id, and the exchange the resolver gives for the
    symbol. *)
Definition trade_only (r : tick_row) : Prop :=
  exists t, r = row_of_trade t.

(** What [parse_market_data] returns for a LAST_TRADE payload it reads. *)
Definition trade_fields (symbol : string) (price size timestamp : Z)
    : gmap string pyval :=
  <["timestamp" := PDatetime timestamp]>
  (<["size" := PInt size]>
   (<["price" := PFloat price]>
    (<["symbol" := PStr symbol]> {[ "type" := PStr "LAST_TRADE" ]}))).

(** A price level the depth store of the binary collector can insert: a
    dictionary with a [price] that converts to a decimal and a [size]. *)
Definition storable_level (decimal_syntax : string -> bool) (b : pyval)
    : Prop :=
  exists price size,
    bind (Binary.item b "price") (to_decimal decimal_syntax) = Ok price
    /\ Binary.item b "size" = Ok size.

(** Side and rank of the rows of one side of the book: ranks from 1, one
    for each level. *)
Definition ranked (side : string) (n : nat) : list (string * Z) :=
  map (fun i => (side, i)) (seqZ 1 (Z.of_nat n)).

(** A step of a run other than the start-up part of [run], which is
    executed once, before the two tasks exist. *)
Definition after_startup (o : binary_op) : Prop :=
  match o with
  | BStart _ => False
  | _ => True
  end.

(** The subscribe frames of a list of symbols, one after the other. *)
Definition subscribe_frames (symbols : list string) : list byte :=
  concat (map (fun s => frame_layout 100 (subscribe_bytes s)) symbols).

(** A symbol short enough for its subscribe frame to be packed. *)
Definition packable (symbol : string) : Prop :=
  Z.of_nat (length (PyStr.encode symbol)) < 2 ^ 31.

(** What the listener leaves alone in the client: the flags, the
    callbacks, the messages sent and the reads still to come. *)
Definition untouched {S : Type} (a b : RTrader.RTraderProPlugin S) : Prop :=
  RTrader.connected b = RTrader.connected a
  /\ RTrader.running b = RTrader.running a
  /\ RTrader.callbacks b = RTrader.callbacks a
  /\ RTrader.sent b = RTrader.sent a
  /\ RTrader.socket b = RTrader.socket a.

(** A line the listener gets over: an empty one, one that is no JSON
    text, or one that holds a JSON object. *)
Definition passable (json_loads : string -> option pyval) (line : string)
    : Prop :=
  line = EmptyString \/ json_loads line = None
  \/ exists m, json_loads line = Some (PDict m).

(** A result of [recv] the listener gets over: a time-out, or bytes that
    are well-formed text made of such lines. *)
Definition readable (json_loads : string -> option pyval)
    (r : RTrader.recv_result) : Prop :=
  match r with
  | RTrader.RecvData data =>
    data <> []
    /\ exists text,
         PyStr.decode data = Ok text
         /\ Forall (passable json_loads)
                   (PyStr.split newline (PyStr.strip text))
  | RTrader.RecvTimeout => True
  | RTrader.RecvError => False
  end.

(** The lines of one result of [recv] that are handed to [json.loads]:
    those that are not empty. *)
Definition nonempty_lines (r : RTrader.recv_result) : list string :=
  List.filter (fun s => negb (String.eqb s EmptyString)) (lines_of r).


(** The client [connect_rtrader_pro] leaves behind when the peer accepts
    the connection. *)
Definition registered_client (decimal_syntax : string -> bool)
    (fromisoformat : string -> option Z) (now : Z)
    (script : list RTrader.recv_result)
    : RTrader.RTraderProPlugin RTrader.Store :=
  {| RTrader.connected := true; RTrader.running := true;
     RTrader.callbacks :=
       <["level2_callback" :=
           RTrader._handle_level2_data decimal_syntax fromisoformat now]>
       (<["quote_callback" :=
            RTrader._handle_quote_data decimal_syntax fromisoformat now]>
        (<["tick_callback" :=
             RTrader._handle_tick_data decimal_syntax fromisoformat now]> ∅));
     RTrader.socket := script;
     RTrader.sent := [];
     RTrader.trace := [Logged INFO "Connected to R|Trader Pro at"] |}.

(** The subscribe message the start-up loop sends for a token. *)
Definition token_request (token : string) : gmap string pyval :=
  match RTrader.parse_token token with
  | Ok (sym, exchange) => subscribe_request sym exchange
  | Raised _ => ∅
  end.

(** A token the start-up loop can unpack. *)
Definition well_formed_token (token : string) : Prop :=
  exists sym exchange, RTrader.parse_token token = Ok (sym, exchange).

(** What [run] of the plug-in collector logs before it contacts the
    plug-in port. *)
Definition plugin_preamble : list event :=
  [ Logged INFO "Starting R|Trader Pro Data Collector...";
    Logged INFO "Connected to PostgreSQL database";
    Logged INFO "Connected to Redis";
    Logged INFO "Connecting to R|Trader Pro at" ].

(** A plug-in collector that has lost its connection: the client is marked
    disconnected and has sent [sent0], the tracked set is [tracked] and
    the tables are [db]. *)
Definition lost (sent0 : list (gmap string pyval)) (tracked : gset string)
    (db : Database) (self : RTrader.RTraderProDataCollector) : Prop :=
  (exists client,
     RTrader.rtrader_client self = Some client
     /\ RTrader.connected client = false
     /\ RTrader.sent client = sent0)
  /\ RTrader.subscribed_symbols self = tracked
  /\ RTrader.db_conn (RTrader.store self) = db.

(** The results of [recv] that are not time-outs. *)
Definition answered (script : list RTrader.recv_result)
    : list RTrader.recv_result :=
  List.filter
    (fun r => match r with RTrader.RecvTimeout => false | _ => true end)
    script.

(** Two clients that differ at most in the reads still to come. *)
Definition same_but_socket {S : Type} (a b : RTrader.RTraderProPlugin S)
    : Prop :=
  RTrader.with_socket a [] = RTrader.with_socket b [].

(** How often a character occurs in a string. *)
Fixpoint occurrences (c : ascii) (s : string) : nat :=
  match s with
  | EmptyString => O
  | String d s' =>
    if Ascii.eqb d c then S (occurrences c s') else occurrences c s'
  end.

(** A price level as the level-2 handler of the plug-in collector stores
    it: a missing price or size counts as 0. *)
Definition stored_as (decimal_syntax : string -> bool) (b : pyval)
    (r : level2_row) : Prop :=
  bind (RTrader.field b "price") (to_decimal decimal_syntax) = Ok (l_price r)
  /\ RTrader.field b "size" = Ok (l_size r).

(** The plug-in collector still has its connection: its client is marked
    connected. *)
Definition alive (self : RTrader.RTraderProDataCollector) : Prop :=
  exists client,
    RTrader.rtrader_client self = Some client
    /\ RTrader.connected client = true.

(** A schedule in which the listener thread takes no turn. *)
Definition silent (turns : RTrader.point -> nat) : Prop :=
  forall pt, turns pt = 0%nat.

(** The four start-up calls as [run] makes them, after its first line of
    log. *)
Definition started_by_run (json_loads : string -> option pyval)
    (decimal_syntax : string -> bool) (fromisoformat : string -> option Z)
    (now : Z) (env : RTrader.Env) (self : RTrader.RTraderProDataCollector)
    : RTrader.RTraderProDataCollector * option RTrader.failure :=
  RTrader.connect_services json_loads decimal_syntax fromisoformat now env
    (RTrader.log self
       (Logged INFO "Starting R|Trader Pro Data Collector...")).

(** Bytes that are white-space characters and nothing else, read from the
    left one character at a time. *)
Inductive blank : list byte -> Prop :=
| blank_nil : blank []
| blank_cons (n : nat) (bs : list byte) :
    PyStr.space_at_head (map Struct.Z_of_byte bs) = S n ->
    blank (drop (S n) bs) ->
    blank bs.

Import Struct.

Lemma Z_of_byte_of_Z z : Z_of_byte (byte_of_Z z) = z `mod` 256.
Proof.
  unfold Z_of_byte, byte_of_Z.
  pose proof (Z.mod_pos_bound z 256 ltac:(lia)) as Hb.
  destruct (Byte.of_N (Z.to_N (z `mod` 256))) as [b|] eqn:E.
  - apply Byte.to_of_N in E. rewrite E. lia.
  - apply Byte.of_N_None_iff in E. lia.
Qed.

Lemma length_be_bytes n z : length (be_bytes n z) = n.
Proof. induction n; simpl; congruence. Qed.

Lemma fold_be_bytes n z acc :
  fold_left (fun a b => a * 256 + Z_of_byte b) (be_bytes n z) acc
  = acc * 256 ^ Z.of_nat n + z `mod` 256 ^ Z.of_nat n.
Proof.
  revert acc. induction n as [|k IH]; intros acc.
  - simpl. rewrite Z.mod_1_r. lia.
  - cbn [be_bytes fold_left]. rewrite IH, Z_of_byte_of_Z.
    rewrite Z.shiftr_div_pow2 by lia.
    replace (2 ^ (8 * Z.of_nat k)) with (256 ^ Z.of_nat k)
      by (rewrite Z.pow_mul_r by lia; reflexivity).
    rewrite Nat2Z.inj_succ, Z.pow_succ_r by lia.
    assert (0 < 256 ^ Z.of_nat k) by (apply Z.pow_pos_nonneg; lia).
    rewrite (Z.mul_comm 256), Z.rem_mul_r by lia. lia.
Qed.

Lemma be_value_be_bytes n z :
  0 <= z < 2 ^ (8 * Z.of_nat n) -> be_value (be_bytes n z) = z.
Proof.
  intros Hz. unfold be_value. rewrite fold_be_bytes.
  replace (256 ^ Z.of_nat n) with (2 ^ (8 * Z.of_nat n))
    by (rewrite Z.pow_mul_r by lia; reflexivity).
  rewrite Z.mod_small by lia. lia.
Qed.

Lemma readexactly_from_enough n buf chunks lost :
  (n <= length (buf ++ concat chunks))%nat ->
  exists r', readexactly_from n buf chunks lost
             = (Ok (take n (buf ++ concat chunks)), r')
             /\ pending r' = drop n (buf ++ concat chunks)
             /\ reset r' = lost.
Proof.
  revert buf. induction chunks as [|c cs IH]; intros buf Hn; simpl in *.
  - rewrite app_nil_r in *.
    destruct (Nat.leb_spec n (length buf)); [|lia].
    eexists; split; [reflexivity|]. split; [|done].
    unfold pending; simpl. apply app_nil_r.
  - destruct (Nat.leb_spec n (length buf)) as [Hle|Hgt].
    + eexists; split; [rewrite take_app_le by lia; reflexivity|].
      split; [|done].
      unfold pending; simpl. rewrite drop_app_le by lia. reflexivity.
    + rewrite app_assoc in *. apply IH. exact Hn.
Qed.

Lemma readexactly_from_short n buf chunks lost :
  (length (buf ++ concat chunks) < n)%nat ->
  readexactly_from n buf chunks lost
  = (Raised (if lost then ConnectionResetError else IncompleteReadError),
     {| buffer := []; incoming := []; reset := lost |}).
Proof.
  revert buf. induction chunks as [|c cs IH]; intros buf Hn; simpl in *.
  - rewrite app_nil_r in Hn. destruct (Nat.leb_spec n (length buf)); [lia|done].
  - destruct (Nat.leb_spec n (length buf)) as [Hle|Hgt].
    + rewrite length_app in Hn. lia.
    + apply IH. rewrite <- app_assoc. exact Hn.
Qed.

(** A reader with its exception set has nothing left to deliver. *)
Lemma exception_set_spec r :
  exception_set r = true
  <-> r = {| buffer := []; incoming := []; reset := true |}.
Proof.
  destruct r as [[|b buf] [|c chunks] [|]]; cbn; split; congruence.
Qed.

Lemma readexactly_enough n r :
  (0 < n <= length (pending r))%nat ->
  exists r', readexactly n r = (Ok (take n (pending r)), r')
             /\ pending r' = drop n (pending r)
             /\ reset r' = reset r.
Proof.
  intros [Hpos Hn]. unfold readexactly.
  destruct (exception_set r) eqn:E.
  - apply exception_set_spec in E. subst r. cbn in Hn. lia.
  - by apply readexactly_from_enough.
Qed.

Lemma readexactly_short n r :
  (length (pending r) < n)%nat ->
  readexactly n r
  = (Raised (if reset r then ConnectionResetError else IncompleteReadError),
     {| buffer := []; incoming := []; reset := reset r |}).
Proof.
  intros Hn. unfold readexactly.
  destruct (exception_set r) eqn:E.
  - apply exception_set_spec in E. by subst r.
  - by apply readexactly_from_short.
Qed.

Lemma unpack_uint_take n bs :
  (n <= length bs)%nat ->
  unpack_uint n (take n bs) = Some (be_value (take n bs)).
Proof.
  intros H. unfold unpack_uint. rewrite length_take.
  replace (n `min` length bs)%nat with n by lia. by rewrite Nat.eqb_refl.
Qed.

(** How a read that fails leaves the protocol object: marked closed at
    the end of the stream, as it was after a reset. *)
Lemma read_failed_stopped p (r : StreamReader) :
  Binary.read_failed p
    (if reset r then ConnectionResetError else IncompleteReadError)
    {| buffer := []; incoming := []; reset := reset r |}
  = {| Binary.connected := Binary.connected p && reset r;
       Binary.reader := {| buffer := []; incoming := []; reset := reset r |};
       Binary.writer := Binary.writer p |}.
Proof.
  destruct r as [? ? [|]]; cbn; by rewrite ?andb_true_r, ?andb_false_r.
Qed.

(** [receive_message] reads as the one-shot decoder does: the result and
    the bytes left over are those of [decode_at_once] on everything the
    reader holds or will hold.  When a frame comes out the connection
    stays up; when none does, it is marked closed if the peer closed the
    stream and left as it was if the transport failed. *)
Lemma receive_message_at_once p :
  Binary.connected p = true ->
  let '(m, p') := Binary.receive_message p in
  let '(m0, rest) := decode_at_once (pending (Binary.reader p)) in
  m = m0 /\ pending (Binary.reader p') = rest
  /\ Binary.writer p' = Binary.writer p
  /\ Binary.connected p'
     = match m with Some _ => true | None => reset (Binary.reader p) end
  /\ reset (Binary.reader p') = reset (Binary.reader p)
  /\ (m = None -> buffer (Binary.reader p') = []
                  /\ incoming (Binary.reader p') = []).
Proof.
  intros Hc. unfold Binary.receive_message, decode_at_once. rewrite Hc. simpl.
  unfold unpack_I, unpack_H.
  set (bs := pending (Binary.reader p)).
  destruct (Nat.ltb_spec (length bs) 6) as [Hlt|Hge].
  - destruct (Nat.le_gt_cases 4 (length bs)) as [H4|H4].
    + destruct (readexactly_enough 4 (Binary.reader p))
        as (r1 & -> & Hr1 & Hl1); [fold bs; lia|].
      fold bs in Hr1 |- *. rewrite unpack_uint_take by lia.
      rewrite (readexactly_short 2 r1)
        by (rewrite Hr1, length_drop; lia).
      rewrite read_failed_stopped, Hl1, Hc. done.
    + rewrite (readexactly_short 4) by (fold bs; lia).
      rewrite read_failed_stopped, Hc. done.
  - destruct (readexactly_enough 4 (Binary.reader p))
      as (r1 & -> & Hr1 & Hl1); [fold bs; lia|].
    fold bs in Hr1 |- *. rewrite unpack_uint_take by lia.
    destruct (readexactly_enough 2 r1) as (r2 & -> & Hr2 & Hl2);
      [rewrite Hr1, length_drop; lia|].
    rewrite Hr1 in Hr2 |- *. rewrite drop_drop in Hr2. simpl in Hr2.
    rewrite unpack_uint_take by (rewrite length_drop; lia).
    set (L := be_value (take 4 bs)) in *.
    destruct (Z.ltb_spec 0 (L - 2)) as [Hpos|Hneg].
    + destruct (Nat.leb_spec (Z.to_nat (L - 2)) (length (drop 6 bs))) as [Hb|Hb].
      * destruct (readexactly_enough (Z.to_nat (L - 2)) r2)
          as (r3 & -> & Hr3 & Hl3); [rewrite Hr2; lia|].
        rewrite Hr2 in Hr3 |- *. simpl. repeat split; try done; congruence.
      * rewrite (readexactly_short (Z.to_nat (L - 2)) r2) by (rewrite Hr2; lia).
        rewrite read_failed_stopped, Hc, Hl2, Hl1. done.
    + replace (Z.to_nat (L - 2)) with 0%nat by lia. simpl.
      rewrite drop_0. repeat split; try done; congruence.
Qed.

(** *** Sending and receiving one frame *)

Lemma send_message_frame tx msg_type data :
  Binary.connected tx = true ->
  0 <= msg_type < 65536 ->
  Z.of_nat (length data) + 2 < 2 ^ 32 ->
  Binary.send_message tx msg_type data
  = ({| Binary.connected := true; Binary.reader := Binary.reader tx;
        Binary.writer := Binary.writer tx ++ frame_layout msg_type data |},
     true).
Proof.
  intros Hc Ht Hl. unfold Binary.send_message, pack_IH, pack_I, pack_H, pack_uint.
  rewrite Hc. simpl negb. cbv iota.
  destruct (Z.leb_spec 0 (Z.of_nat (length data) + 2)); [|lia].
  destruct (Z.ltb_spec (Z.of_nat (length data) + 2) (2 ^ (8 * Z.of_nat 4)));
    [|simpl in *; lia].
  destruct (Z.leb_spec 0 msg_type); [|lia].
  destruct (Z.ltb_spec msg_type (2 ^ (8 * Z.of_nat 2))); [|simpl in *; lia].
  simpl andb. cbv iota. unfold frame_layout. by rewrite <- app_assoc.
Qed.

Lemma decode_at_once_frame msg_length msg_type body :
  0 <= msg_length < 2 ^ 32 ->
  0 <= msg_type < 65536 ->
  (Z.to_nat (msg_length - 2) <= length body)%nat ->
  decode_at_once (be_bytes 4 msg_length ++ be_bytes 2 msg_type ++ body)
  = (Some (msg_type, take (Z.to_nat (msg_length - 2)) body),
     drop (Z.to_nat (msg_length - 2)) body).
Proof.
  intros HL HT Hn. unfold decode_at_once.
  rewrite !length_app, !length_be_bytes.
  destruct (Nat.ltb_spec (4 + (2 + length body)) 6); [lia|].
  rewrite (take_app_length' _ _ 4) by (by rewrite length_be_bytes).
  rewrite (drop_app_length' _ _ 4) by (by rewrite length_be_bytes).
  rewrite (take_app_length' _ _ 2) by (by rewrite length_be_bytes).
  rewrite !be_value_be_bytes by (simpl; lia).
  replace (drop 6 (be_bytes 4 msg_length ++ be_bytes 2 msg_type ++ body))
    with body.
  - destruct (Nat.leb_spec (Z.to_nat (msg_length - 2)) (length body)); [done|lia].
  - rewrite app_assoc. symmetry. apply drop_app_length'.
    rewrite length_app, !length_be_bytes. done.
Qed.

Lemma decode_at_once_truncated msg_length msg_type body :
  0 <= msg_length < 2 ^ 32 ->
  0 <= msg_type < 65536 ->
  (length body < Z.to_nat (msg_length - 2))%nat ->
  decode_at_once (be_bytes 4 msg_length ++ be_bytes 2 msg_type ++ body)
  = (None, []).
Proof.
  intros HL HT Hn. unfold decode_at_once.
  rewrite !length_app, !length_be_bytes.
  destruct (Nat.ltb_spec (4 + (2 + length body)) 6); [lia|].
  rewrite (take_app_length' _ _ 4) by (by rewrite length_be_bytes).
  rewrite !be_value_be_bytes by (simpl; lia).
  replace (drop 6 (be_bytes 4 msg_length ++ be_bytes 2 msg_type ++ body))
    with body.
  - destruct (Nat.leb_spec (Z.to_nat (msg_length - 2)) (length body)); [lia|done].
  - rewrite app_assoc. symmetry. apply drop_app_length'.
    rewrite length_app, !length_be_bytes. done.
Qed.

Lemma receive_message_frame rx msg_type data rest :
  Binary.connected rx = true ->
  0 <= msg_type < 65536 ->
  Z.of_nat (length data) + 2 < 2 ^ 32 ->
  pending (Binary.reader rx) = frame_layout msg_type data ++ rest ->
  exists rx',
    Binary.receive_message rx = (Some (msg_type, data), rx')
    /\ pending (Binary.reader rx') = rest
    /\ Binary.connected rx' = true
    /\ Binary.writer rx' = Binary.writer rx.
Proof.
  intros Hc Ht Hl Hp.
  pose proof (receive_message_at_once rx Hc) as H.
  destruct (Binary.receive_message rx) as [m rx'].
  rewrite Hp in H. unfold frame_layout in H. rewrite <- !app_assoc in H.
  rewrite decode_at_once_frame in H;
    [| lia | lia | rewrite length_app; lia].
  replace (Z.to_nat (Z.of_nat (length data) + 2 - 2)) with (length data) in H
    by lia.
  rewrite take_app_length, drop_app_length in H.
  destruct H as (-> & Hr & Hw & Hcn & _). exists rx'. done.
Qed.

(** C1. Framing round trip: for a message type that fits 16 bits and a
    payload whose length plus 2 fits 32 bits, [send_message] writes exactly
    the frame [[length][type][payload]] with [length] the payload size plus
    2, and [receive_message] on a stream that starts with that frame,
    however it is cut into chunks, returns the same type and payload and
    leaves exactly the bytes after the frame. *)
Theorem framing_round_trip tx rx msg_type data rest :
  0 <= msg_type < 65536 ->
  Z.of_nat (length data) + 2 < 2 ^ 32 ->
  Binary.connected tx = true ->
  Binary.connected rx = true ->
  pending (Binary.reader rx) = frame_layout msg_type data ++ rest ->
  Binary.send_message tx msg_type data
  = ({| Binary.connected := true; Binary.reader := Binary.reader tx;
        Binary.writer := Binary.writer tx ++ frame_layout msg_type data |},
     true)
  /\ exists rx',
       Binary.receive_message rx = (Some (msg_type, data), rx')
       /\ pending (Binary.reader rx') = rest
       /\ Binary.connected rx' = true
       /\ Binary.writer rx' = Binary.writer rx.
Proof.
  intros Ht Hl Htx Hrx Hp. split.
  - by apply send_message_frame.
  - by apply receive_message_frame.
Qed.

Lemma framing_round_trip_witness :
  let tx := {| Binary.connected := true;
               Binary.reader := {| buffer := []; incoming := [];
                                   reset := false |};
               Binary.writer := [] |} in
  let rx := {| Binary.connected := true;
               Binary.reader :=
                 {| buffer := [x00; x00; x00];
                    incoming := [[x05; x00]; [x66; x41; x42]; [x43; x09]];
                    reset := false |};
               Binary.writer := [] |} in
  Binary.send_message tx 102 [x41; x42; x43]
  = ({| Binary.connected := true; Binary.reader := Binary.reader tx;
        Binary.writer := Binary.writer tx ++ frame_layout 102 [x41; x42; x43] |},
     true)
  /\ exists rx',
       Binary.receive_message rx = (Some (102, [x41; x42; x43]), rx')
       /\ pending (Binary.reader rx') = [x09]
       /\ Binary.connected rx' = true
       /\ Binary.writer rx' = Binary.writer rx.
Proof.
  intros tx rx.
  apply (framing_round_trip tx rx 102 [x41; x42; x43] [x09]);
    [lia | simpl; lia | reflexivity | reflexivity | reflexivity].
Defined.

(** *** Reading across chunk boundaries (binary transport) *)

Lemma receive_message_disconnected p :
  Binary.connected p = false -> Binary.receive_message p = (None, p).
Proof. intros H. unfold Binary.receive_message. by rewrite H. Qed.

Lemma received_pending fuel p1 p2 :
  Binary.connected p1 = Binary.connected p2 ->
  pending (Binary.reader p1) = pending (Binary.reader p2) ->
  received fuel p1 = received fuel p2.
Proof.
  revert p1 p2. induction fuel as [|fuel IH]; intros p1 p2 Hc Hp; [done|].
  simpl. destruct (Binary.connected p1) eqn:Hc1.
  - pose proof (receive_message_at_once p1 Hc1) as H1.
    pose proof (receive_message_at_once p2 (eq_sym Hc)) as H2.
    destruct (Binary.receive_message p1) as [m1 q1].
    destruct (Binary.receive_message p2) as [m2 q2].
    rewrite <- Hp in H2.
    destruct (decode_at_once (pending (Binary.reader p1))) as [m0 rest].
    destruct H1 as (-> & Hr1 & _ & Hk1 & _).
    destruct H2 as (-> & Hr2 & _ & Hk2 & _).
    destruct m0 as [m|]; [|done].
    f_equal. apply IH; congruence.
  - rewrite !receive_message_disconnected by congruence. done.
Qed.

(** The binary read path is indifferent to how the transport cuts the
    stream: the frames obtained from any sequence of chunks are those
    obtained when the same bytes arrive as one chunk. *)
Lemma binary_frames_independent_of_chunking fuel c w chunks lost :
  received fuel {| Binary.connected := c;
                   Binary.reader := {| buffer := []; incoming := chunks;
                                       reset := lost |};
                   Binary.writer := w |}
  = received fuel {| Binary.connected := c;
                     Binary.reader :=
                       {| buffer := []; incoming := [concat chunks];
                          reset := lost |};
                     Binary.writer := w |}.
Proof.
  apply received_pending; [done|].
  unfold pending. simpl. by rewrite app_nil_r.
Qed.

Lemma decode_at_once_consumes bs m rest :
  decode_at_once bs = (Some m, rest) -> (length rest + 6 <= length bs)%nat.
Proof.
  unfold decode_at_once.
  destruct (Nat.ltb_spec (length bs) 6); [discriminate|].
  destruct (Nat.leb_spec (Z.to_nat (be_value (take 4 bs) - 2))
                         (length (drop 6 bs))); [|discriminate].
  intros [= _ <-]. rewrite !length_drop. lia.
Qed.

(** A budget of one call per six bytes, plus one, reaches the end of the
    stream: a larger budget yields no further frame. *)
Lemma received_complete fuel extra p :
  (length (pending (Binary.reader p)) < 6 * fuel)%nat ->
  received (fuel + extra) p = received fuel p.
Proof.
  revert p. induction fuel as [|fuel IH]; intros p Hlen; [lia|].
  simpl. destruct (Binary.connected p) eqn:Hc.
  - pose proof (receive_message_at_once p Hc) as H.
    destruct (Binary.receive_message p) as [m q].
    destruct (decode_at_once (pending (Binary.reader p))) as [m0 rest] eqn:E.
    destruct H as (-> & Hr & _ & _ & _).
    destruct m0 as [m|]; [|done].
    apply decode_at_once_consumes in E.
    f_equal. apply IH. rewrite Hr. lia.
  - by rewrite receive_message_disconnected.
Qed.

(** *** Frames of any size *)

Lemma receive_message_truncated p msg_length msg_type body :
  Binary.connected p = true ->
  0 <= msg_length < 2 ^ 32 ->
  0 <= msg_type < 65536 ->
  pending (Binary.reader p)
  = be_bytes 4 msg_length ++ be_bytes 2 msg_type ++ body ->
  (length body < Z.to_nat (msg_length - 2))%nat ->
  exists p', Binary.receive_message p = (None, p')
             /\ Binary.connected p' = reset (Binary.reader p)
             /\ pending (Binary.reader p') = [].
Proof.
  intros Hc HL HT Hp Hn.
  pose proof (receive_message_at_once p Hc) as H.
  destruct (Binary.receive_message p) as [m p'].
  rewrite Hp, decode_at_once_truncated in H by done.
  destruct H as (-> & Hr & _ & Hk & _). by exists p'.
Qed.

Lemma receive_message_complete p msg_length msg_type body :
  Binary.connected p = true ->
  0 <= msg_length < 2 ^ 32 ->
  0 <= msg_type < 65536 ->
  pending (Binary.reader p)
  = be_bytes 4 msg_length ++ be_bytes 2 msg_type ++ body ->
  (Z.to_nat (msg_length - 2) <= length body)%nat ->
  exists p', Binary.receive_message p
             = (Some (msg_type, take (Z.to_nat (msg_length - 2)) body), p')
             /\ Binary.connected p' = true
             /\ pending (Binary.reader p')
                = drop (Z.to_nat (msg_length - 2)) body.
Proof.
  intros Hc HL HT Hp Hn.
  pose proof (receive_message_at_once p Hc) as H.
  destruct (Binary.receive_message p) as [m p'].
  rewrite Hp, decode_at_once_frame in H by done.
  destruct H as (-> & Hr & _ & Hk & _). by exists p'.
Qed.

(** C3, as stated, fails: a frame whose payload is one byte longer than
    16 MiB is not classified as corrupt; [receive_message] reads the whole
    payload and returns the frame, and the connection stays up. *)
Lemma oversized_frame_is_delivered :
  let data := repeat x00 (Z.to_nat (sixteen_MiB + 1)) in
  let rx := {| Binary.connected := true;
               Binary.reader :=
                 {| buffer := []; incoming := [frame_layout 109 data];
                    reset := false |};
               Binary.writer := [] |} in
  sixteen_MiB < Z.of_nat (length data)
  /\ exists rx', Binary.receive_message rx = (Some (109, data), rx')
                 /\ Binary.connected rx' = true.
Proof.
  intros data rx.
  assert (Hlen : Z.of_nat (length data) = sixteen_MiB + 1).
  { unfold data. rewrite repeat_length. apply Z2Nat.id. unfold sixteen_MiB. lia. }
  assert (Hrx : pending (Binary.reader rx) = frame_layout 109 data ++ []).
  { unfold pending, rx. cbn [Binary.reader buffer incoming concat app].
    reflexivity. }
  assert (Hc : Binary.connected rx = true) by reflexivity.
  clearbody rx. clearbody data.
  split; [lia|].
  destruct (receive_message_frame rx 109 data [] Hc) as (rx' & Hr & _ & Hc' & _).
  - lia.
  - rewrite Hlen. unfold sixteen_MiB. lia.
  - exact Hrx.
  - exists rx'. split; assumption.
Qed.

(** C3, amended.  The decoder has no maximum frame size.  For every
    length field [msg_length] below 2^32 it reads exactly
    [msg_length - 2] payload bytes: when the stream holds them the frame is
    returned, whatever its size, and the connection stays up; when the
    stream stops first it returns [(None, None)] and discards what it had
    read, so no resynchronisation is attempted, and it marks the
    connection closed if the peer closed the stream ([reset] is [false]),
    while a failure of the transport leaves the flag set. *)
Theorem frame_size_is_unbounded p msg_length msg_type body :
  Binary.connected p = true ->
  0 <= msg_length < 2 ^ 32 ->
  0 <= msg_type < 65536 ->
  pending (Binary.reader p)
  = be_bytes 4 msg_length ++ be_bytes 2 msg_type ++ body ->
  let n := Z.to_nat (msg_length - 2) in
  ((n <= length body)%nat ->
   exists p', Binary.receive_message p = (Some (msg_type, take n body), p')
              /\ Binary.connected p' = true
              /\ pending (Binary.reader p') = drop n body)
  /\ ((length body < n)%nat ->
      exists p', Binary.receive_message p = (None, p')
                 /\ Binary.connected p' = reset (Binary.reader p)
                 /\ pending (Binary.reader p') = []).
Proof.
  intros Hc HL HT Hp n. split; intros Hn.
  - by apply receive_message_complete.
  - by apply (receive_message_truncated p msg_length msg_type body).
Qed.

Lemma frame_size_is_unbounded_witness :
  let p := {| Binary.connected := true;
              Binary.reader :=
                {| buffer := [x00; x00];
                   incoming := [[x00; x05; x00]; [x6d; x01; x02; x03; x04]];
                   reset := false |};
              Binary.writer := [] |} in
  let body := [x01; x02; x03; x04] in
  ((3 <= length body)%nat ->
   exists p', Binary.receive_message p = (Some (109, take 3 body), p')
              /\ Binary.connected p' = true
              /\ pending (Binary.reader p') = drop 3 body)
  /\ ((length body < 3)%nat ->
      exists p', Binary.receive_message p = (None, p')
                 /\ Binary.connected p' = false
                 /\ pending (Binary.reader p') = []).
Proof.
  intros p body.
  apply (frame_size_is_unbounded p 5 109 body);
    [reflexivity | lia | lia | reflexivity].
Defined.

(** *** Reading across chunk boundaries (text transport) *)

Section ListenTrace.
Context {S : Type}.
Variable json_loads : string -> option pyval.

Lemma process_message_trace (self self' : RTrader.RTraderProPlugin S)
    (st st' : S) message :
  RTrader._process_message self st message = Ok (self', st') ->
  exists tl, RTrader.trace self' = RTrader.trace self ++ tl.
Proof.
  unfold RTrader._process_message. destruct message; try discriminate.
  repeat match goal with
         | |- context [if ?c then _ else _] => destruct c
         end;
    intros [= <- <-]; simpl;
    first [ by exists []; rewrite app_nil_r | by eexists ].
Qed.

Lemma each_line_trace messages (self : RTrader.RTraderProPlugin S) st :
  exists tl,
    RTrader.trace (RTrader.each_line json_loads self st messages).1.1
    = RTrader.trace self ++ tl.
Proof.
  revert self st. induction messages as [|m ms IH]; intros self st; simpl.
  - exists []. by rewrite app_nil_r.
  - destruct (String.eqb m EmptyString); [apply IH|].
    destruct (json_loads m) as [message|].
    + destruct (RTrader._process_message _ st message) as [[self' st']|e] eqn:E.
      * apply process_message_trace in E as [tl1 E1].
        destruct (IH self' st') as [tl2 E2]. rewrite E2, E1. simpl.
        rewrite <- !app_assoc. by eexists.
      * simpl. by eexists.
    + destruct (IH (RTrader.emit (RTrader.emit self (Decode m))
                      (Logged ERROR "Invalid JSON message")) st) as [tl E].
      rewrite E. simpl. rewrite <- !app_assoc. by eexists.
Qed.

Lemma listen_once_trace r (self : RTrader.RTraderProPlugin S) st :
  exists tl,
    RTrader.trace (RTrader.listen_once json_loads r self st).1.1
    = RTrader.trace self ++ tl.
Proof.
  assert (Hnil : exists tl, RTrader.trace self = RTrader.trace self ++ tl)
    by (exists []; by rewrite app_nil_r).
  destruct r as [data| |]; simpl; [|done|by eexists].
  destruct data as [|b data]; [done|].
  destruct (PyStr.decode (b :: data)) as [text|e]; [|simpl; by eexists].
  destruct (each_line_trace (PyStr.split newline (PyStr.strip text)) self st)
    as [tl1 E1].
  destruct (RTrader.each_line _ _ _ _) as [[self' st'] [e|]]; simpl in *.
  - rewrite E1, <- app_assoc. by eexists.
  - by eexists.
Qed.

Lemma listen_loop_trace todo (self : RTrader.RTraderProPlugin S) st :
  exists tl,
    RTrader.trace (RTrader.listen_loop json_loads todo self st).1
    = RTrader.trace self ++ tl.
Proof.
  revert self st. induction todo as [|r rest IH]; intros self st; simpl.
  - destruct (_ && _); simpl; by eexists.
  - destruct (_ && _); [|simpl; by eexists].
    destruct (listen_once_trace r (RTrader.with_socket self rest) st)
      as [tl1 E1].
    destruct (RTrader.listen_once _ _ _ _) as [[self' st'] [|]]; simpl in E1.
    + destruct (IH self' st') as [tl2 E2]. rewrite E2, E1, <- app_assoc.
      by eexists.
    + simpl. rewrite E1, <- app_assoc. by eexists.
Qed.

(** The first line of the first chunk is what the decoder sees first. *)
Lemma listen_first_call data rest (self : RTrader.RTraderProPlugin S) st
    text line lines :
  RTrader.running self = true ->
  RTrader.connected self = true ->
  data <> [] ->
  PyStr.decode data = Ok text ->
  PyStr.split newline (PyStr.strip text) = line :: lines ->
  line <> EmptyString ->
  exists tl,
    RTrader.trace (RTrader.listen_loop json_loads (RTrader.RecvData data :: rest)
                     self st).1
    = RTrader.trace self ++ Decode line :: tl.
Proof.
  intros Hr Hc Hd Ht Hs Hl. simpl. rewrite Hr, Hc. simpl.
  destruct data as [|b data]; [done|]. rewrite Ht, Hs.
  set (self0 := RTrader.with_socket self rest).
  assert (exists tl,
    RTrader.trace (RTrader.each_line json_loads self0 st (line :: lines)).1.1
    = RTrader.trace self ++ Decode line :: tl) as [tl1 E1].
  { simpl. destruct (String.eqb_spec line EmptyString); [done|].
    destruct (json_loads line) as [message|].
    - destruct (RTrader._process_message _ st message) as [[self' st']|e] eqn:E.
      + apply process_message_trace in E as [tl1 E1].
        destruct (each_line_trace lines self' st') as [tl2 E2].
        rewrite E2, E1. simpl. rewrite <- !app_assoc. by eexists.
      + simpl. by eexists.
    - destruct (each_line_trace lines
                  (RTrader.emit (RTrader.emit self0 (Decode line))
                     (Logged ERROR "Invalid JSON message")) st) as [tl E].
      rewrite E. simpl. rewrite <- !app_assoc. by eexists. }
  destruct (RTrader.each_line _ _ _ _) as [[self' st'] [e|]]; simpl in E1.
  - simpl. rewrite E1, <- !app_assoc. simpl. by eexists.
  - destruct (listen_loop_trace rest self' st') as [tl2 E2].
    rewrite E2, E1, <- app_assoc. simpl. by eexists.
Qed.

Lemma calls_emit (self : RTrader.RTraderProPlugin S) e :
  decoder_calls (RTrader.trace (RTrader.emit self e))
  = decoder_calls (RTrader.trace self) ++ decoder_calls [e].
Proof. unfold decoder_calls. cbn [RTrader.trace RTrader.emit]. apply omap_app. Qed.

Lemma process_message_calls (self self' : RTrader.RTraderProPlugin S)
    (st st' : S) message :
  RTrader._process_message self st message = Ok (self', st') ->
  decoder_calls (RTrader.trace self') = decoder_calls (RTrader.trace self).
Proof.
  unfold RTrader._process_message. destruct message; try discriminate.
  repeat match goal with
         | |- context [if ?c then _ else _] => destruct c
         end;
    intros [= <- <-]; rewrite ?calls_emit; cbn [decoder_calls omap];
    by rewrite ?app_nil_r.
Qed.

(** Every text the decoder is given is a line of some result of [recv],
    taken on its own. *)
Lemma each_line_calls messages : forall (self : RTrader.RTraderProPlugin S) st t,
  t ∈ decoder_calls
        (RTrader.trace (RTrader.each_line json_loads self st messages).1.1) ->
  t ∈ decoder_calls (RTrader.trace self) \/ t ∈ messages.
Proof.
  induction messages as [|m ms IH]; intros self st t;
    cbn [RTrader.each_line]; [by left|].
  destruct (String.eqb m EmptyString).
  { intros H. destruct (IH _ _ _ H); [by left|right; by constructor]. }
  assert (Hm : forall u, u ∈ decoder_calls
                 (RTrader.trace (RTrader.emit self (Decode m))) ->
               u ∈ decoder_calls (RTrader.trace self) \/ u ∈ m :: ms).
  { intros u. rewrite calls_emit. intros [Hu|Hu]%elem_of_app; [by left|].
    right. cbn [decoder_calls omap] in Hu.
    apply list_elem_of_singleton in Hu as ->. by constructor. }
  destruct (json_loads m) as [message|].
  - destruct (RTrader._process_message _ st message) as [[self' st']|e] eqn:E;
      cbn [fst]; [|apply Hm].
    apply process_message_calls in E.
    intros H. destruct (IH _ _ _ H) as [H'|H']; [|right; by constructor].
    rewrite E in H'. by apply Hm.
  - intros H. destruct (IH _ _ _ H) as [H'|H']; [|right; by constructor].
    rewrite calls_emit in H'. cbn [decoder_calls omap] in H'.
    rewrite app_nil_r in H'. by apply Hm.
Qed.

Lemma listen_once_calls r (self : RTrader.RTraderProPlugin S) st t :
  t ∈ decoder_calls
        (RTrader.trace (RTrader.listen_once json_loads r self st).1.1) ->
  t ∈ decoder_calls (RTrader.trace self) \/ t ∈ lines_of r.
Proof.
  destruct r as [data| |]; cbn [RTrader.listen_once lines_of].
  - destruct data as [|b data]; [by left|].
    destruct (PyStr.decode (b :: data)) as [text|e].
    + pose proof (each_line_calls (PyStr.split newline (PyStr.strip text))
                    self st t) as H.
      destruct (RTrader.each_line _ _ _ _) as [[self' st'] [e|]];
        cbn [fst] in *; [|done].
      rewrite calls_emit. cbn [decoder_calls omap]. by rewrite app_nil_r.
    + cbn [fst]. rewrite calls_emit. cbn [decoder_calls omap].
      rewrite app_nil_r. by left.
  - by left.
  - cbn [fst]. rewrite calls_emit. cbn [decoder_calls omap].
    rewrite app_nil_r. by left.
Qed.

Lemma listen_loop_calls todo : forall (self : RTrader.RTraderProPlugin S) st t,
  t ∈ decoder_calls
        (RTrader.trace (RTrader.listen_loop json_loads todo self st).1) ->
  t ∈ decoder_calls (RTrader.trace self)
  \/ exists r, r ∈ todo /\ t ∈ lines_of r.
Proof.
  assert (Hstop : forall (p : RTrader.RTraderProPlugin S),
    decoder_calls (RTrader.trace (RTrader.stop_listening p))
    = decoder_calls (RTrader.trace p)).
  { intros p. unfold RTrader.stop_listening. rewrite calls_emit.
    cbn [decoder_calls omap]. by rewrite app_nil_r. }
  induction todo as [|r rest IH]; intros self st t;
    cbn [RTrader.listen_loop].
  - destruct (_ && _); cbn [fst]; rewrite Hstop; by left.
  - destruct (_ && _); [|cbn [fst]; rewrite Hstop; by left].
    pose proof (listen_once_calls r (RTrader.with_socket self rest) st t) as H1.
    destruct (RTrader.listen_once _ _ _ _) as [[self' st'] [|]];
      cbn [fst] in *.
    + intros H. destruct (IH _ _ _ H) as [H'|(r' & Hr' & Ht)].
      * destruct (H1 H') as [?|?]; [by left|].
        right. exists r. split; [by constructor|done].
      * right. exists r'. split; [by constructor|done].
    + rewrite Hstop. intros H. destruct (H1 H) as [?|?]; [by left|].
      right. exists r. split; [by constructor|done].
Qed.

End ListenTrace.

(** C2 at its failing input.  The text read loop hands each result of
    [recv] to the decoder on its own.  When the depth message of the
    specification's scenario arrives in one read, the first text decoded is
    the whole line; when the same bytes arrive in two reads, cut after the
    twentieth byte, the first text decoded is the first twenty bytes, and
    the line itself is never decoded: nothing is buffered until the
    newline. *)
Theorem text_frame_split_across_reads (S : Type)
    (json_loads : string -> option pyval)
    (cbs : gmap string (gmap string pyval -> S -> S)) (st : S) :
  let fragment := string_of_list_byte (take 20 depth_frame) in
  let whole := [RTrader.RecvData depth_frame] in
  let split := [RTrader.RecvData (take 20 depth_frame);
                RTrader.RecvData (drop 20 depth_frame)] in
  take 20 depth_frame ++ drop 20 depth_frame = depth_frame
  /\ head (decoder_calls (RTrader.trace
       (RTrader._listen json_loads (listening cbs whole) st).1))
     = Some depth_line
  /\ head (decoder_calls (RTrader.trace
       (RTrader._listen json_loads (listening cbs split) st).1))
     = Some fragment
  /\ depth_line ∉ decoder_calls (RTrader.trace
       (RTrader._listen json_loads (listening cbs split) st).1).
Proof.
  intros fragment whole split. split; [apply take_drop|]. split; [|split].
  - destruct (listen_first_call json_loads depth_frame [] (listening cbs whole)
                st (string_of_list_byte depth_frame) depth_line [])
      as [tl E].
    + reflexivity.
    + reflexivity.
    + by vm_compute.
    + by vm_compute.
    + by vm_compute.
    + by vm_compute.
    + unfold RTrader._listen, listening, whole in *.
      cbn [RTrader.socket] in *. rewrite E. reflexivity.
  - destruct (listen_first_call json_loads (take 20 depth_frame)
                [RTrader.RecvData (drop 20 depth_frame)]
                (listening cbs split) st fragment fragment [])
      as [tl E].
    + reflexivity.
    + reflexivity.
    + by vm_compute.
    + by vm_compute.
    + by vm_compute.
    + by vm_compute.
    + unfold RTrader._listen, listening, split in *.
      cbn [RTrader.socket] in *. rewrite E. reflexivity.
  - intros Hin. unfold RTrader._listen in Hin.
    apply listen_loop_calls in Hin as [Hin|(r & Hr & Hin)].
    + by apply elem_of_nil in Hin.
    + unfold listening, split in Hr. cbn [RTrader.socket] in Hr.
      apply elem_of_cons in Hr as [->|Hr].
      { vm_compute in Hin. apply list_elem_of_singleton in Hin. discriminate. }
      apply list_elem_of_singleton in Hr as ->.
      vm_compute in Hin. apply list_elem_of_singleton in Hin. discriminate.
Qed.

(** *** The dispatcher of the binary collector *)

Lemma Ok_inj {A} (a b : A) : Ok a = Ok b -> a = b.
Proof. intros H. by injection H. Qed.

(** A frame of a type other than 102, 103 and 109 is parsed without
    error, logged at debug level and not stored; the loop goes on with the
    next frame. *)
Lemma unknown_type_is_skipped ds now fuel self p p' msg_type data :
  Binary.running self = true ->
  Binary.connected p = true ->
  Binary.receive_message p = (Some (msg_type, data), p') ->
  msg_type <> 102 -> msg_type <> 103 -> msg_type <> 109 ->
  Binary.process_messages ds now (S fuel) self p
  = Binary.process_messages ds now fuel
      (Binary.emit self (Logged DEBUG "Received message type")) p'.
Proof.
  intros Hr Hc Hm H2 H3 H9. cbn [Binary.process_messages].
  rewrite Hr, Hc, Hm. cbn [andb]. unfold Binary.parse_market_data.
  destruct (Z.eqb_spec msg_type 102); [done|].
  destruct (Z.eqb_spec msg_type 103); [done|].
  destruct (Z.eqb_spec msg_type 109); [done|]. reflexivity.
Qed.

(** What [parse_market_data] returns for a BID_OFFER frame never has a
    [price] key. *)
Lemma bid_offer_has_no_price data parsed :
  Binary.parse_market_data 103 data = Ok parsed -> parsed !! "price" = None.
Proof.
  unfold Binary.parse_market_data.
  change (103 =? 102) with false. change (103 =? 103) with true. cbv iota.
  destruct (32 <=? Z.of_nat (length data)).
  - step_binds; try discriminate. intros <-%Ok_inj.
    rewrite !lookup_insert_ne by done. by rewrite lookup_singleton_ne.
  - intros <-%Ok_inj. by rewrite lookup_singleton_ne.
Qed.

(** Hence [store_tick_data] returns at its guard for every parsed
    BID_OFFER frame: no row, no log line. *)
Lemma bid_offer_is_not_stored ds now self data parsed :
  Binary.parse_market_data 103 data = Ok parsed ->
  Binary.store_tick_data ds now self parsed = self.
Proof.
  intros H. apply bid_offer_has_no_price in H.
  unfold Binary.store_tick_data. rewrite H.
  rewrite (bool_decide_eq_false_2 (is_Some None)) by (by intros [? ?]).
  by rewrite orb_true_r.
Qed.

(** C4 at its failing input.  A well-formed BID_OFFER frame (32 payload
    bytes, symbol [ESU5], bid and ask price and size) is parsed into a
    dictionary with the four quote fields and no [price]; the read loop
    hands it to [store_tick_data], which returns at its guard: when the
    stream ends the table [tick_data] is still empty and nothing was
    logged. *)
Theorem bid_offer_frame_inserts_no_row (ds : string -> bool) (now : Z) :
  Binary.parse_market_data 103 bid_offer_payload
  = Ok (<["ask_size" := PInt 12]>
        (<["ask_price" := PFloat 0x40B1948000000000]>
         (<["bid_size" := PInt 10]>
          (<["bid_price" := PFloat 0x40B1944000000000]>
           (<["symbol" := PStr "ESU5"]> {[ "type" := PStr "BID_OFFER" ]})))))
  /\ Binary.process_messages ds now 2 idle_collector
       (connected_to (frame_layout 103 bid_offer_payload))
     = ({| Binary.db_conn := {| tick_data := []; level2_data := [] |};
           Binary.redis_queue := [];
           Binary.protocol :=
             Some {| Binary.connected := false;
                     Binary.reader := {| buffer := []; incoming := [];
                                         reset := false |};
                     Binary.writer := [] |};
           Binary.running := true;
           Binary.symbols := [];
           Binary.trace := [] |}, Binary.Returned).
Proof. split; by vm_compute. Qed.

(** The same loop stores a LAST_TRADE frame: one row, with the exchange
    resolved from the symbol. *)
Lemma last_trade_frame_inserts_one_row (ds : string -> bool) (now : Z) :
  tick_data (Binary.db_conn
    (Binary.process_messages ds now 2 idle_collector
       (connected_to (frame_layout 102 last_trade_payload))).1)
  = [ {| t_timestamp := PDatetime 1700000000000;
         t_symbol := PStr "ESU5";
         t_exchange := PStr "CME";
         t_price := Dec (PFloat 0x40B1944000000000);
         t_size := PInt 3;
         t_bid_price := None; t_ask_price := None;
         t_bid_size := PNone; t_ask_size := PNone;
         t_aggressor_side := None; t_trade_id := PNone |} ].
Proof. by vm_compute. Qed.

(** C6 at its failing input.  A LAST_TRADE payload of 24 bytes whose
    symbol-length field says 100 passes the length guard; the slice for the
    price is then empty and [struct.unpack] raises.  Nothing in
    [parse_market_data] or in the read loop catches the error: it leaves
    [process_messages] without a log line, and the well-formed frame that
    follows stays unread in the stream. *)
Theorem short_last_trade_escapes_dispatcher (ds : string -> bool) (now : Z) :
  Z.of_nat (length short_last_trade_payload) = 24
  /\ Binary.parse_market_data 102 short_last_trade_payload
     = Raised StructError
  /\ Binary.process_messages ds now 3 idle_collector
       (connected_to (frame_layout 102 short_last_trade_payload
                      ++ frame_layout 102 last_trade_payload))
     = ({| Binary.db_conn := {| tick_data := []; level2_data := [] |};
           Binary.redis_queue := [];
           Binary.protocol :=
             Some {| Binary.connected := true;
                     Binary.reader :=
                       {| buffer := frame_layout 102 last_trade_payload;
                          incoming := []; reset := false |};
                     Binary.writer := [] |};
           Binary.running := true;
           Binary.symbols := [];
           Binary.trace := [] |}, Binary.Propagated StructError).
Proof. repeat split; by vm_compute. Qed.

(** *** Depth levels *)

Section DepthRows.
Variable decimal_syntax : string -> bool.

(** The plugin collector numbers the rows of one side from the index
    after [level], one row per level it is given, in the order given. *)
Lemma level_rows_ranked timestamp data side levels : forall level rows,
  RTrader.level_rows decimal_syntax timestamp data side level levels
  = Ok rows ->
  map l_level rows = seqZ (level + 1) (Z.of_nat (length levels))
  /\ Forall (fun r => l_side r = side) rows
  /\ Forall2 (fun b r =>
                bind (RTrader.field b "price") (to_decimal decimal_syntax)
                = Ok (l_price r)
                /\ RTrader.field b "size" = Ok (l_size r)) levels rows.
Proof.
  induction levels as [|b rest IH]; intros level rows; cbn [RTrader.level_rows].
  - intros <-%Ok_inj. by repeat split.
  - destruct (RTrader.field b "price") as [raw|] eqn:E1; cbn [bind];
      [|discriminate].
    destruct (to_decimal decimal_syntax raw) as [price|] eqn:E2; cbn [bind];
      [|discriminate].
    destruct (RTrader.field b "size") as [size|] eqn:E3; cbn [bind];
      [|discriminate].
    destruct (RTrader.level_rows _ _ _ _ (level + 1) rest) as [rows'|] eqn:E4;
      cbn [bind]; [|discriminate].
    intros <-%Ok_inj. destruct (IH _ _ E4) as (Hl & Hs & Hp).
    cbn [map length l_level]. rewrite Hl.
    split; [|split].
    + rewrite (seqZ_cons (level + 1)) by lia. f_equal. f_equal; lia.
    + by constructor.
    + constructor; [|done]. cbn [l_price l_size]. rewrite E1. cbn [bind].
      by split.
Qed.

Lemma top_levels_at_most_ten v levels :
  RTrader.top_levels v = Ok levels ->
  (length levels <= 10)%nat
  /\ forall l, v = PList l -> levels = take 10 l.
Proof.
  destruct v; simpl; try discriminate.
  - destruct (String.eqb s EmptyString); [|discriminate].
    intros <-%Ok_inj. split; [simpl; lia|]. discriminate.
  - intros <-%Ok_inj. split; [rewrite length_take; lia|].
    by intros ? [= <-].
Qed.

(** The plugin collector persists at most ten levels per side: a
    committed transaction leaves the rows that were not pruned, then the
    bid rows, then the ask rows; each side has at most ten rows, ranked
    from 1 in the order of the input, and when the input is a list they
    are its first ten elements. *)
Lemma plugin_depth_at_most_ten fromisoformat now data table table' :
  RTrader.level2_transaction decimal_syntax fromisoformat now data table
  = Ok table' ->
  exists kept bid_rows ask_rows,
    table' = kept ++ bid_rows ++ ask_rows
    /\ (length bid_rows <= 10)%nat /\ (length ask_rows <= 10)%nat
    /\ map l_level bid_rows = seqZ 1 (Z.of_nat (length bid_rows))
    /\ map l_level ask_rows = seqZ 1 (Z.of_nat (length ask_rows))
    /\ Forall (fun r => l_side r = "B") bid_rows
    /\ Forall (fun r => l_side r = "S") ask_rows
    /\ forall l, data !! "bids" = Some (PList l) ->
         Forall2 (fun b r =>
                    bind (RTrader.field b "price")
                         (to_decimal decimal_syntax) = Ok (l_price r)
                    /\ RTrader.field b "size" = Ok (l_size r))
                 (take 10 l) bid_rows.
Proof.
  unfold RTrader.level2_transaction.
  destruct (RTrader.timestamp_of _ _ _) as [timestamp|]; cbn [bind];
    [|discriminate].
  destruct (RTrader.symbol_key _) as [key|]; cbn [bind]; [|discriminate].
  destruct (RTrader.cutoff_of _) as [cutoff|]; cbn [bind]; [|discriminate].
  destruct (RTrader.top_levels (default (PList []) (data !! "bids")))
    as [bids|] eqn:Eb; cbn [bind]; [|discriminate].
  destruct (RTrader.level_rows _ _ _ "B" 0 bids) as [bid_rows|] eqn:Ebr;
    cbn [bind]; [|discriminate].
  destruct (RTrader.top_levels (default (PList []) (data !! "asks")))
    as [asks|] eqn:Ea; cbn [bind]; [|discriminate].
  destruct (RTrader.level_rows _ _ _ "S" 0 asks) as [ask_rows|] eqn:Ear;
    cbn [bind]; [|discriminate].
  intros <-%Ok_inj.
  apply level_rows_ranked in Ebr as (Hbl & Hbs & Hbp).
  apply level_rows_ranked in Ear as (Hal & Has & _).
  apply top_levels_at_most_ten in Eb as (Hb10 & Hbt).
  apply top_levels_at_most_ten in Ea as (Ha10 & _).
  assert (length bid_rows = length bids) as Lb
    by (by rewrite <- (length_map l_level), Hbl, length_seqZ, Nat2Z.id).
  assert (length ask_rows = length asks) as La
    by (by rewrite <- (length_map l_level), Hal, length_seqZ, Nat2Z.id).
  eexists _, bid_rows, ask_rows. split; [reflexivity|].
  rewrite Lb, La. repeat split; try done.
  intros l Hl. rewrite Hl in Hbt. simpl in Hbt. by rewrite <- (Hbt l eq_refl).
Qed.

(** The binary collector's [store_depth_data] numbers from [level] and
    emits one row per level it is given: it has no bound. *)
Lemma depth_rows_ranked timestamp data side levels : forall level rows,
  Binary.depth_rows decimal_syntax timestamp data side level levels = Ok rows ->
  map l_level rows = seqZ level (Z.of_nat (length levels)).
Proof.
  induction levels as [|b rest IH]; intros level rows; cbn [Binary.depth_rows].
  - by intros <-%Ok_inj.
  - step_binds; try discriminate. intros <-%Ok_inj.
    cbn [map length l_level]. erewrite IH by eassumption.
    rewrite (seqZ_cons level) by lia. f_equal. f_equal; lia.
Qed.

End DepthRows.

(** The depth store of the binary collector has no limit of ten levels:
    called on its own with a depth update of fifteen bid levels, it
    commits fifteen bid rows, ranked 1 to 15.  The read loop never calls
    it with such an update. *)
Lemma binary_depth_store_keeps_fifteen_levels (ds : string -> bool)
    (now : Z) :
  length fifteen_bids = 15%nat
  /\ depth_update !! "bids" = Some (PList fifteen_bids)
  /\ map (fun r => (l_side r, l_level r, l_price r))
         (level2_data (Binary.db_conn
            (Binary.store_depth_data ds now idle_collector depth_update)))
     = map (fun i => ("B", i + 1, Dec (PInt (1950 - i)))) (seqZ 0 15).
Proof. repeat split; by vm_compute. Qed.

(** On the same update the plugin collector commits the first ten bid
    levels, ranked 1 to 10 in the order of the input. *)
Lemma plugin_depth_handler_keeps_ten_levels (ds : string -> bool)
    (fromisoformat : string -> option Z) (now : Z) :
  map (fun r => (l_side r, l_level r, l_price r))
      (level2_data (RTrader.db_conn
         (RTrader._handle_level2_data ds fromisoformat now depth_update
            empty_store)))
  = map (fun i => ("B", i + 1, Dec (PInt (1950 - i)))) (seqZ 0 10).
Proof. by vm_compute. Qed.

(** C5 at its failing input.  A MARKET_DEPTH_UPDATE frame that carries
    fifteen bid levels reaches the read loop of the binary collector.
    [parse_market_data] has no parser for this type and returns the type
    name alone, whatever the payload, so [store_depth_data] finds no
    symbol and returns.  The loop reads the frame, ends normally when
    the stream does, and not one level has been persisted: neither ten
    bid rows nor fifteen.  On an update with the same fifteen levels the
    level-2 handler of the plug-in collector commits the first ten,
    ranked 1 to 10 in the order of the input. *)
Theorem binary_depth_frame_persists_no_level (ds : string -> bool)
    (fromisoformat : string -> option Z) (now : Z) :
  let upstream := connected_to (frame_layout 109 depth_update_payload) in
  let result := Binary.process_messages ds now 2 idle_collector upstream in
  received 2 upstream = [(109, depth_update_payload)]
  /\ (forall payload,
        Binary.parse_market_data 109 payload
        = Ok {[ "type" := PStr "MARKET_DEPTH_UPDATE" ]})
  /\ result.2 = Binary.Returned
  /\ Binary.db_conn result.1 = {| tick_data := []; level2_data := [] |}
  /\ map (fun r => (l_side r, l_level r, l_price r))
         (level2_data (RTrader.db_conn
            (RTrader._handle_level2_data ds fromisoformat now depth_update
               empty_store)))
     = map (fun i => ("B", i + 1, Dec (PInt (1950 - i)))) (seqZ 0 10).
Proof.
  intros upstream result. split; [by vm_compute|]. split; [done|].
  split; [by vm_compute|]. split; [by vm_compute|].
  apply plugin_depth_handler_keeps_ten_levels.
Qed.

(** *** The exchange resolver *)

Lemma append_nil_l (t : string) : EmptyString +:+ t = t.
Proof. reflexivity. Qed.

Lemma append_cons (a : ascii) (s t : string) :
  String a s +:+ t = String a (s +:+ t).
Proof. reflexivity. Qed.

Lemma rstrip_spec chars s :
  exists tail,
    s = PyStr.rstrip chars s +:+ tail
    /\ all_in chars tail
    /\ match last_char (PyStr.rstrip chars s) with
       | Some c => PyStr.contains c chars = false
       | None => True
       end.
Proof.
  induction s as [|a s' (tail' & Heq & Hall & Hlast)].
  - by exists EmptyString.
  - cbn [PyStr.rstrip]. destruct (PyStr.rstrip chars s') as [|x r] eqn:Er.
    + rewrite append_nil_l in Heq. subst tail'.
      destruct (PyStr.contains a chars) eqn:Ea.
      * by exists (String a s').
      * exists s'. rewrite append_cons, append_nil_l. cbn [last_char].
        by rewrite Ea.
    + exists tail'. rewrite append_cons. split; [by f_equal|]. split; [done|].
      exact Hlast.
Qed.

Lemma exchange_loop_first_match base items : forall i prefix exchange,
  items !! i = Some (prefix, exchange) ->
  PyStr.startswith base prefix = true ->
  (forall j p e, (j < i)%nat -> items !! j = Some (p, e) ->
                 PyStr.startswith base p = false) ->
  Binary.exchange_loop base items = exchange.
Proof.
  induction items as [|[p0 e0] rest IH]; intros i prefix exchange Hi Hp Hbefore.
  - done.
  - destruct i as [|i]; simpl in *.
    + injection Hi as -> ->. by rewrite Hp.
    + rewrite (Hbefore 0%nat p0 e0) by (done || lia).
      apply (IH i prefix); [done..|].
      intros j p e Hj Hl. apply (Hbefore (S j) p e); [lia|done].
Qed.

Lemma exchange_loop_no_match base items :
  (forall p e, (p, e) ∈ items -> PyStr.startswith base p = false) ->
  Binary.exchange_loop base items = "CME".
Proof.
  induction items as [|[p0 e0] rest IH]; intros H; simpl; [done|].
  rewrite (H p0 e0) by apply list_elem_of_here.
  apply IH. intros p e Hin. apply (H p e). by apply list_elem_of_further.
Qed.

Lemma exchange_loop_range base items :
  Binary.exchange_loop base items = "CME"
  \/ exists p, (p, Binary.exchange_loop base items) ∈ items.
Proof.
  induction items as [|[p0 e0] rest IH]; simpl; [by left|].
  destruct (PyStr.startswith base p0).
  - right. exists p0. apply list_elem_of_here.
  - destruct IH as [IH|[p IH]]; [by left|].
    right. exists p. by apply list_elem_of_further.
Qed.

Lemma exchange_names symbol :
  Binary.get_exchange_for_symbol symbol ∈ ["COMEX"; "NYMEX"; "CME"; "CBOT"].
Proof.
  unfold Binary.get_exchange_for_symbol.
  destruct (exchange_loop_range (PyStr.rstrip "0123456789" symbol)
              Binary.SYMBOL_EXCHANGE_MAP) as [->|[p Hin]].
  - set_solver.
  - revert Hin. generalize (Binary.exchange_loop
                              (PyStr.rstrip "0123456789" symbol)
                              Binary.SYMBOL_EXCHANGE_MAP).
    intros e Hin. unfold Binary.SYMBOL_EXCHANGE_MAP in Hin.
    repeat (apply elem_of_cons in Hin as [[= _ ->]|Hin]; [set_solver|]).
    by apply elem_of_nil in Hin.
Qed.

(** C9. The exchange resolver is a total function of the symbol.  It
    removes the trailing characters that are decimal digits (what is left
    does not end in a digit), returns the exchange of the first entry of
    the table, in the table's order, whose prefix starts the remaining
    root, and returns [CME] when no entry matches; its value is always one
    of the four exchange names, and [ESU5] resolves through [ES] to
    [CME]. *)
Theorem exchange_resolver_total (symbol : string) :
  let base := PyStr.rstrip "0123456789" symbol in
  (exists digits,
     symbol = base +:+ digits /\ all_in "0123456789" digits
     /\ match last_char base with
        | Some c => PyStr.contains c "0123456789" = false
        | None => True
        end)
  /\ (forall i prefix exchange,
        Binary.SYMBOL_EXCHANGE_MAP !! i = Some (prefix, exchange) ->
        PyStr.startswith base prefix = true ->
        (forall j p e, (j < i)%nat ->
           Binary.SYMBOL_EXCHANGE_MAP !! j = Some (p, e) ->
           PyStr.startswith base p = false) ->
        Binary.get_exchange_for_symbol symbol = exchange)
  /\ ((forall p e, (p, e) ∈ Binary.SYMBOL_EXCHANGE_MAP ->
         PyStr.startswith base p = false) ->
      Binary.get_exchange_for_symbol symbol = "CME")
  /\ Binary.get_exchange_for_symbol symbol
     ∈ ["COMEX"; "NYMEX"; "CME"; "CBOT"]
  /\ PyStr.rstrip "0123456789" "ESU5" = "ESU"
  /\ Binary.SYMBOL_EXCHANGE_MAP !! 7%nat = Some ("ES", "CME")
  /\ Binary.get_exchange_for_symbol "ESU5" = "CME".
Proof.
  intros base. split; [apply rstrip_spec|].
  split; [intros i prefix exchange; apply exchange_loop_first_match|].
  split; [apply exchange_loop_no_match|].
  split; [apply exchange_names|]. done.
Qed.

(** *** Connecting at start-up *)

Section Startup.
Variable env : Binary.Env.

Lemma emit_each_app self evs1 evs2 :
  emit_each self (evs1 ++ evs2) = emit_each (emit_each self evs1) evs2.
Proof. apply foldl_app. Qed.


Lemma symbols_emit_each self evs :
  Binary.symbols (emit_each self evs) = Binary.symbols self.
Proof.
  revert self. induction evs as [|e evs IH]; intros self; simpl; [done|].
  by rewrite IH.
Qed.


Lemma connect_loop_first_success j : forall fuel retry_count self p k,
  (j < fuel)%nat -> 0 <= retry_count ->
  k = (Z.to_nat retry_count + j)%nat -> (k < 5)%nat ->
  Binary.connect_ok env k = true ->
  (forall i, (Z.to_nat retry_count <= i < k)%nat ->
             Binary.connect_ok env i = false) ->
  Binary.connect_loop fuel env retry_count self p
  = Some (Binary.emit (emit_each self (concat (repeat failed_attempt j)))
                      (Connect true),
          {| Binary.connected := true;
             Binary.reader := Binary.upstream env;
             Binary.writer := Binary.writer p |}).
Proof.
  induction j as [|j IH]; intros fuel rc self p k Hf Hrc Hk H5 Hok Hfail.
  - destruct fuel as [|fuel]; [lia|]. cbn [Binary.connect_loop].
    destruct (Z.ltb_spec rc 5); [|lia].
    replace (Z.to_nat rc) with k by lia. rewrite Hok. done.
  - destruct fuel as [|fuel]; [lia|]. cbn [Binary.connect_loop].
    destruct (Z.ltb_spec rc 5); [|lia].
    rewrite Hfail by lia. cbn [Binary.connect].
    rewrite (IH fuel (rc + 1) _ p k); [done|lia|lia|lia|lia|done|].
    intros i Hi. apply Hfail. lia.
Qed.



End Startup.



Lemma attempts_app a b : attempts (a ++ b) = attempts a ++ attempts b.
Proof. apply omap_app. Qed.

Lemma sleeps_app a b : sleeps (a ++ b) = sleeps a ++ sleeps b.
Proof. apply omap_app. Qed.






Lemma run_first_success_eq env self k :
  Binary.database_up env = true -> Binary.redis_up env = true ->
  (k < 5)%nat -> Binary.connect_ok env k = true ->
  (forall j, (j < k)%nat -> Binary.connect_ok env j = false) ->
  let connected_collector :=
    Binary.with_protocol
      (emit_each self
         (preamble ++ concat (repeat failed_attempt k) ++ [Connect true]))
      {| Binary.connected := true; Binary.reader := Binary.upstream env;
         Binary.writer := [] |} in
  Binary.run env self =
  match Binary.subscribe_each connected_collector (Binary.symbols self) with
  | (self', Some e) => (self', Binary.SubscribeRaised e)
  | (self', None) =>
    (Binary.emit self' (Logged INFO "Subscribed to symbols"), Binary.Started)
  end.
Proof.
  intros Hdb Hredis Hk Hok Hfail cc. unfold Binary.run. rewrite Hdb, Hredis.
  cbn [negb]. cbv iota.
  rewrite (connect_loop_first_success env k 5 0 _ _ k)
    by (done || lia || intros; apply Hfail; lia).
  cbn [Binary.connected negb]. cbv iota.
  replace (Binary.with_protocol _ _) with cc.
  - replace (Binary.symbols cc) with (Binary.symbols self); [done|].
    unfold cc. cbn [Binary.with_protocol Binary.symbols].
    by rewrite symbols_emit_each.
  - unfold cc, preamble. rewrite !emit_each_app. reflexivity.
Qed.





(** *** The tracked subscriptions only grow *)

Section PluginRuns.
Variable json_loads : string -> option pyval.

Lemma plugin_send_connected (c : RTrader.RTraderProPlugin RTrader.Store)
    symbol exchange :
  RTrader.connected c = true ->
  exists c', RTrader.subscribe_market_data c symbol exchange = (c', true)
             /\ RTrader.sent c'
                = RTrader.sent c ++ [subscribe_request symbol exchange]
             /\ RTrader.connected c' = true.
Proof.
  intros Hc. unfold RTrader.subscribe_market_data, RTrader.send_message.
  rewrite Hc. simpl negb. cbv iota. by eexists.
Qed.

Lemma plugin_send_disconnected (c : RTrader.RTraderProPlugin RTrader.Store)
    symbol exchange :
  RTrader.connected c = false ->
  RTrader.subscribe_market_data c symbol exchange = (c, false).
Proof.
  intros Hc. unfold RTrader.subscribe_market_data, RTrader.send_message.
  by rewrite Hc.
Qed.

Lemma plugin_poll_grows self :
  RTrader.subscribed_symbols (RTrader.check_new_subscriptions self)
  = RTrader.subscribed_symbols self
  \/ exists key,
       RTrader.subscribed_symbols (RTrader.check_new_subscriptions self)
       = {[ key ]} ∪ RTrader.subscribed_symbols self.
Proof.
  unfold RTrader.check_new_subscriptions.
  destruct (RTrader.redis_queue self) as [|[| |symbol requested] rest];
    try by left.
  case_bool_decide; [by left|].
  cbn [RTrader.rtrader_client RTrader.with_queue].
  destruct (RTrader.rtrader_client self) as [c|]; [|by left].
  destruct (RTrader.subscribe_market_data c symbol _) as [c' [|]].
  - right. by eexists.
  - by left.
Qed.

Lemma plugin_token_grows self symbol :
  RTrader.subscribed_symbols (RTrader.subscribe_token self symbol).1
  = RTrader.subscribed_symbols self
  \/ RTrader.subscribed_symbols (RTrader.subscribe_token self symbol).1
     = {[ symbol ]} ∪ RTrader.subscribed_symbols self.
Proof.
  unfold RTrader.subscribe_token.
  destruct (RTrader.parse_token symbol) as [[sym exchange]|]; [|by left].
  destruct (RTrader.rtrader_client self) as [c|]; [|by left].
  destruct (RTrader.subscribe_market_data c sym exchange) as [c' [|]].
  - by right.
  - by left.
Qed.

(** The start-up loop as a whole only adds entries. *)
Lemma plugin_subscribe_symbols_grows self :
  RTrader.subscribed_symbols self
  ⊆ RTrader.subscribed_symbols (RTrader.subscribe_symbols self).1.
Proof.
  clear json_loads.
  unfold RTrader.subscribe_symbols.
  change (RTrader.subscribed_symbols self)
    with (RTrader.subscribed_symbols
            (RTrader.log self (Logged INFO "Subscribing to symbols"))).
  generalize (RTrader.log self (Logged INFO "Subscribing to symbols")).
  generalize (RTrader.symbols self).
  induction l as [|symbol rest IH]; intros r; cbn [RTrader.subscribe_each];
    [done|].
  pose proof (plugin_token_grows r symbol) as H.
  destruct (RTrader.subscribe_token r symbol) as [r' [e|]]; cbn [fst] in *.
  - destruct H as [->| ->]; set_solver.
  - etrans; [|apply IH]. destruct H as [->| ->]; set_solver.
Qed.

Lemma plugin_step_grows o self :
  RTrader.subscribed_symbols (plugin_step json_loads o self)
  = RTrader.subscribed_symbols self
  \/ exists key,
       RTrader.subscribed_symbols (plugin_step json_loads o self)
       = {[ key ]} ∪ RTrader.subscribed_symbols self.
Proof.
  destruct o as [|symbol| |m|r]; unfold plugin_step.
  - apply plugin_poll_grows.
  - destruct (plugin_token_grows self symbol) as [H|H]; [by left|].
    right. by eexists.
  - destruct (RTrader.rtrader_client self) as [c|]; [|by left].
    destruct (RTrader.listen_turn json_loads c (RTrader.store self)).
    by left.
  - by left.
  - destruct (RTrader.rtrader_client self); by left.
Qed.

Lemma plugin_run_grows ops : forall self,
  RTrader.subscribed_symbols self
  ⊆ RTrader.subscribed_symbols (plugin_run json_loads ops self).
Proof.
  unfold plugin_run.
  induction ops as [|o ops IH]; intros self; simpl; [done|].
  etrans; [|apply IH].
  destruct (plugin_step_grows o self) as [->|[key ->]]; set_solver.
Qed.

End PluginRuns.

Section BinaryRuns.
Variable decimal_syntax : string -> bool.
Variable now : Z.

Lemma symbols_subscribe_symbol self p symbol :
  Binary.symbols (Binary.subscribe_symbol self p symbol).1
  = Binary.symbols self.
Proof.
  unfold Binary.subscribe_symbol.
  destruct (Binary.subscribe_payload _ _); [|done].
  by destruct (Binary.send_message _ _ _).
Qed.

Lemma symbols_subscribe_each todo : forall self,
  Binary.symbols (Binary.subscribe_each self todo).1 = Binary.symbols self.
Proof.
  induction todo as [|symbol rest IH]; intros self; simpl; [done|].
  destruct (Binary.protocol self) as [p|]; [|done].
  pose proof (symbols_subscribe_symbol self p symbol) as H.
  destruct (Binary.subscribe_symbol self p symbol) as [self' [e|]];
    simpl in *; [done|].
  by rewrite IH.
Qed.

Lemma symbols_store_tick_data self data :
  Binary.symbols (Binary.store_tick_data decimal_syntax now self data)
  = Binary.symbols self.
Proof.
  unfold Binary.store_tick_data. destruct (_ || _); [done|].
  by destruct (Binary.tick_parameters _ _ _).
Qed.

Lemma symbols_store_depth_data self data :
  Binary.symbols (Binary.store_depth_data decimal_syntax now self data)
  = Binary.symbols self.
Proof.
  unfold Binary.store_depth_data. destruct (negb _); [done|].
  by destruct (Binary.depth_parameters _ _ _).
Qed.

Lemma symbols_process_messages fuel : forall self p,
  Binary.symbols (Binary.process_messages decimal_syntax now fuel self p).1
  = Binary.symbols self.
Proof.
  induction fuel as [|fuel IH]; intros self p; [done|].
  cbn [Binary.process_messages]. destruct (_ && _); [|done].
  destruct (Binary.receive_message p) as [[[msg_type data]|] p']; [|done].
  destruct (Binary.parse_market_data msg_type data) as [parsed|]; [|done].
  rewrite IH.
  destruct (msg_type =? 102); [apply symbols_store_tick_data|].
  destruct (msg_type =? 103); [apply symbols_store_tick_data|].
  destruct (msg_type =? 109); [apply symbols_store_depth_data|done].
Qed.

Lemma symbols_connect_loop env fuel : forall retry_count self p self' p',
  Binary.connect_loop fuel env retry_count self p = Some (self', p') ->
  Binary.symbols self' = Binary.symbols self.
Proof.
  induction fuel as [|fuel IH]; intros rc self p self' p'; simpl.
  - destruct (rc <? 5); [done|]. by intros [= <- _].
  - destruct (rc <? 5); [|by intros [= <- _]].
    destruct (Binary.connect_ok env (Z.to_nat rc)); simpl.
    + by intros [= <- _].
    + intros H. by apply IH in H.
Qed.

Lemma symbols_run env self :
  Binary.symbols (Binary.run env self).1 = Binary.symbols self.
Proof.
  unfold Binary.run.
  destruct (negb (Binary.database_up env)); [done|].
  destruct (negb (Binary.redis_up env)); [done|].
  destruct (Binary.connect_loop 5 env 0 _ _) as [[self' p]|] eqn:E; [|done].
  apply symbols_connect_loop in E.
  destruct (negb (Binary.connected p)); [done|].
  pose proof (symbols_subscribe_each
                (Binary.symbols (Binary.with_protocol self' p))
                (Binary.with_protocol self' p)) as H.
  destruct (Binary.subscribe_each _ _) as [self'' [e|]]; simpl in *;
    by rewrite H.
Qed.

Lemma binary_poll_grows self :
  Binary.symbols (Binary.check_new_subscriptions self) = Binary.symbols self
  \/ exists symbol,
       Binary.symbols (Binary.check_new_subscriptions self)
       = Binary.symbols self ++ [symbol]
       /\ symbol ∉ Binary.symbols self.
Proof.
  unfold Binary.check_new_subscriptions.
  destruct (Binary.redis_queue self) as [|[| |symbol requested] rest];
    try by left.
  cbn [Binary.symbols Binary.with_queue].
  case_bool_decide as Hin; [by left|].
  right. exists symbol. split; [|done].
  cbn [Binary.protocol Binary.emit Binary.with_symbols Binary.with_queue].
  destruct (Binary.protocol self) as [p|]; [|done].
  destruct (Binary.connected p); [|done].
  match goal with
  | |- context [Binary.subscribe_symbol ?s ?q ?x] =>
    pose proof (symbols_subscribe_symbol s q x) as H;
    destruct (Binary.subscribe_symbol s q x) as [self' [e|]]
  end; simpl in *; by rewrite H.
Qed.

Lemma binary_step_grows o self :
  Binary.symbols (binary_step decimal_syntax now o self)
  = Binary.symbols self
  \/ exists symbol,
       Binary.symbols (binary_step decimal_syntax now o self)
       = Binary.symbols self ++ [symbol]
       /\ symbol ∉ Binary.symbols self.
Proof.
  destruct o as [|m|fuel|env]; unfold binary_step.
  - apply binary_poll_grows.
  - by left.
  - destruct (Binary.protocol self) as [p|]; [|by left].
    left. apply symbols_process_messages.
  - left. apply symbols_run.
Qed.

Lemma binary_run_grows ops : forall self,
  Binary.symbols self
  `prefix_of` Binary.symbols (binary_run decimal_syntax now ops self).
Proof.
  unfold binary_run.
  induction ops as [|o ops IH]; intros self; simpl; [done|].
  etrans; [|apply IH].
  destruct (binary_step_grows o self) as [->|[symbol [-> _]]];
    [done|by apply prefix_app_r].
Qed.

End BinaryRuns.

(** C10. The tracked subscriptions only grow.  In the plugin collector
    every step of a run (a poll of the control queue, one iteration of the
    start-up subscription loop, a turn of the listener thread, a request
    published, data arriving) leaves [subscribed_symbols] as it was or adds
    one entry to it, so the set at any later point of a run includes the
    set at any earlier point, and the start-up loop as a whole only adds
    entries.  In the binary collector every step leaves
    the list [symbols] as it was or appends one new symbol, so the list at
    any earlier point is a prefix of the list at any later point.  The
    unsubscribe routine of the plugin client is not among the steps; it
    only writes a request and has no access to the set. *)
Theorem subscription_state_only_grows :
  (forall json_loads o self,
     RTrader.subscribed_symbols (plugin_step json_loads o self)
     = RTrader.subscribed_symbols self
     \/ exists key,
          RTrader.subscribed_symbols (plugin_step json_loads o self)
          = {[ key ]} ∪ RTrader.subscribed_symbols self)
  /\ (forall json_loads ops self,
        RTrader.subscribed_symbols self
        ⊆ RTrader.subscribed_symbols (plugin_run json_loads ops self))
  /\ (forall self,
        RTrader.subscribed_symbols self
        ⊆ RTrader.subscribed_symbols (RTrader.subscribe_symbols self).1)
  /\ (forall decimal_syntax now o self,
        Binary.symbols (binary_step decimal_syntax now o self)
        = Binary.symbols self
        \/ exists symbol,
             Binary.symbols (binary_step decimal_syntax now o self)
             = Binary.symbols self ++ [symbol]
             /\ symbol ∉ Binary.symbols self)
  /\ (forall decimal_syntax now ops self,
        Binary.symbols self
        `prefix_of` Binary.symbols (binary_run decimal_syntax now ops self))
  /\ (forall self c symbol exchange,
        RTrader.subscribed_symbols
          (RTrader.with_client self
             (RTrader.unsubscribe_market_data c symbol exchange).1)
        = RTrader.subscribed_symbols self).
Proof.
  split; [apply plugin_step_grows|].
  split; [intros; apply plugin_run_grows|].
  split; [apply plugin_subscribe_symbols_grows|].
  split; [apply binary_step_grows|].
  split; [intros; apply binary_run_grows|].
  reflexivity.
Qed.

(** *** Repeated subscription requests *)

Lemma plugin_tracked_request_is_noop self symbol requested rest :
  RTrader.redis_queue self = MsgRequest symbol requested :: rest ->
  symbol +:+ ":" +:+ default "CME" requested
    ∈ RTrader.subscribed_symbols self ->
  RTrader.check_new_subscriptions self = RTrader.with_queue self rest.
Proof.
  intros Hq Hin. unfold RTrader.check_new_subscriptions. rewrite Hq.
  cbn [RTrader.subscribed_symbols RTrader.with_queue].
  by rewrite bool_decide_eq_true_2.
Qed.

Lemma plugin_first_request self symbol requested rest c :
  RTrader.redis_queue self = MsgRequest symbol requested :: rest ->
  symbol +:+ ":" +:+ default "CME" requested
    ∉ RTrader.subscribed_symbols self ->
  RTrader.rtrader_client self = Some c ->
  let first := RTrader.check_new_subscriptions self in
  (RTrader.connected c = true ->
   sent_by first
   = RTrader.sent c ++ [subscribe_request symbol (default "CME" requested)]
   /\ RTrader.subscribed_symbols first
      = {[ symbol +:+ ":" +:+ default "CME" requested ]}
        ∪ RTrader.subscribed_symbols self)
  /\ (RTrader.connected c = false ->
      sent_by first = RTrader.sent c
      /\ RTrader.subscribed_symbols first = RTrader.subscribed_symbols self).
Proof.
  intros Hq Hin Hc first. unfold first, RTrader.check_new_subscriptions.
  rewrite Hq. cbn [RTrader.subscribed_symbols RTrader.with_queue
                   RTrader.rtrader_client].
  rewrite bool_decide_eq_false_2 by done. rewrite Hc. split; intros Hconn.
  - destruct (plugin_send_connected c symbol (default "CME" requested) Hconn)
      as (c' & -> & Hs & _).
    unfold sent_by. cbn [RTrader.rtrader_client RTrader.log
                         RTrader.add_subscribed RTrader.with_client
                         RTrader.subscribed_symbols].
    by rewrite Hs.
  - rewrite plugin_send_disconnected by done. done.
Qed.

Lemma binary_tracked_request_is_noop self symbol requested rest :
  Binary.redis_queue self = MsgRequest symbol requested :: rest ->
  symbol ∈ Binary.symbols self ->
  Binary.check_new_subscriptions self = Binary.with_queue self rest.
Proof.
  intros Hq Hin. unfold Binary.check_new_subscriptions. rewrite Hq.
  cbn [Binary.symbols Binary.with_queue].
  by rewrite bool_decide_eq_true_2.
Qed.

Lemma len_le_bytes s : 0 <= PyStr.len s <= Z.of_nat (length (PyStr.encode s)).
Proof.
  unfold PyStr.len, PyStr.codes, PyStr.encode.
  pose proof (length_filter (fun b => negb (PyStr.is_cont b))
                (map Z_of_byte (list_byte_of_string s))) as H.
  rewrite length_map in H. lia.
Qed.

Lemma subscribe_payload_ok symbol :
  Z.of_nat (length (PyStr.encode symbol)) < 2 ^ 31 ->
  Binary.subscribe_payload symbol (Binary.get_exchange_for_symbol symbol)
  = Ok (subscribe_bytes symbol)
  /\ Z.of_nat (length (subscribe_bytes symbol)) + 2 < 2 ^ 32.
Proof.
  intros Hlen. pose proof (len_le_bytes symbol) as Hs.
  unfold Binary.subscribe_payload, subscribe_bytes, pack_I, pack_uint.
  assert (He : 0 <= PyStr.len (Binary.get_exchange_for_symbol symbol) < 6
               /\ (length (PyStr.encode (Binary.get_exchange_for_symbol symbol))
                   <= 5)%nat).
  { pose proof (exchange_names symbol) as Hn.
    repeat (apply elem_of_cons in Hn as [->|Hn];
            [split; [by vm_compute | vm_compute; lia]|]).
    by apply elem_of_nil in Hn. }
  destruct He as [He1 He2].
  destruct (Z.leb_spec 0 (PyStr.len symbol)); [|lia].
  destruct (Z.ltb_spec (PyStr.len symbol) (2 ^ (8 * Z.of_nat 4)));
    [|simpl in *; lia].
  destruct (Z.leb_spec 0 (PyStr.len (Binary.get_exchange_for_symbol symbol)));
    [|lia].
  destruct (Z.ltb_spec (PyStr.len (Binary.get_exchange_for_symbol symbol))
                       (2 ^ (8 * Z.of_nat 4))); [|simpl in *; lia].
  split; [reflexivity|].
  rewrite !length_app, !length_be_bytes. lia.
Qed.

Lemma binary_first_request self symbol requested rest p :
  Binary.redis_queue self = MsgRequest symbol requested :: rest ->
  symbol ∉ Binary.symbols self ->
  Binary.protocol self = Some p ->
  let first := Binary.check_new_subscriptions self in
  Binary.symbols first = Binary.symbols self ++ [symbol]
  /\ (Binary.connected p = true ->
      Z.of_nat (length (PyStr.encode symbol)) < 2 ^ 31 ->
      written first
      = Binary.writer p ++ frame_layout 100 (subscribe_bytes symbol))
  /\ (Binary.connected p = false -> written first = Binary.writer p).
Proof.
  intros Hq Hin Hp first. unfold first, Binary.check_new_subscriptions.
  rewrite Hq. cbn [Binary.symbols Binary.with_queue].
  rewrite bool_decide_eq_false_2 by done.
  cbn [Binary.protocol Binary.emit Binary.with_symbols Binary.with_queue].
  rewrite Hp. destruct (Binary.connected p) eqn:Hc.
  - unfold Binary.subscribe_symbol.
    split; [|split; [|done]].
    + destruct (Binary.subscribe_payload _ _); [|done].
      by destruct (Binary.send_message _ _ _).
    + intros _ Hlen. destruct (subscribe_payload_ok symbol Hlen) as [-> Hb].
      rewrite send_message_frame by (done || lia). reflexivity.
  - split; [done|]. split; [done|]. intros _. unfold written.
    cbn [Binary.protocol Binary.emit Binary.with_symbols Binary.with_queue].
    by rewrite Hp.
Qed.

(** What one poll does with a request.  A request whose key is already
    tracked is dropped in both collectors: nothing is sent and only the
    queue changes; since keys are never removed this holds at every later
    poll of a run.  The key is the string [symbol:exchange] in the plugin
    collector and the symbol alone in the binary collector.  A request
    whose key is not tracked sends one subscribe frame when the
    connection is up, and none when it is down.  The plugin collector
    records the key only after a successful send; the binary collector
    records the symbol in either case. *)
Lemma request_by_key :
  (forall json_loads self symbol requested rest,
     RTrader.redis_queue self = MsgRequest symbol requested :: rest ->
     let key := symbol +:+ ":" +:+ default "CME" requested in
     let first := RTrader.check_new_subscriptions self in
     (key ∈ RTrader.subscribed_symbols self ->
      first = RTrader.with_queue self rest)
     /\ (key ∉ RTrader.subscribed_symbols self ->
         forall c, RTrader.rtrader_client self = Some c ->
           (RTrader.connected c = true ->
            sent_by first
            = RTrader.sent c
              ++ [subscribe_request symbol (default "CME" requested)]
            /\ RTrader.subscribed_symbols first
               = {[ key ]} ∪ RTrader.subscribed_symbols self)
           /\ (RTrader.connected c = false ->
               sent_by first = RTrader.sent c
               /\ RTrader.subscribed_symbols first
                  = RTrader.subscribed_symbols self))
     /\ (key ∈ RTrader.subscribed_symbols first ->
         forall ops rest',
           let later := plugin_run json_loads ops first in
           RTrader.redis_queue later = MsgRequest symbol requested :: rest' ->
           RTrader.check_new_subscriptions later
           = RTrader.with_queue later rest'))
  /\ (forall decimal_syntax now self symbol requested rest,
        Binary.redis_queue self = MsgRequest symbol requested :: rest ->
        let first := Binary.check_new_subscriptions self in
        (symbol ∈ Binary.symbols self ->
         first = Binary.with_queue self rest)
        /\ (symbol ∉ Binary.symbols self ->
            forall p, Binary.protocol self = Some p ->
              Binary.symbols first = Binary.symbols self ++ [symbol]
              /\ (Binary.connected p = true ->
                  Z.of_nat (length (PyStr.encode symbol)) < 2 ^ 31 ->
                  written first
                  = Binary.writer p
                    ++ frame_layout 100 (subscribe_bytes symbol))
              /\ (Binary.connected p = false ->
                  written first = Binary.writer p))
        /\ (symbol ∈ Binary.symbols first ->
            forall ops rest',
              let later := binary_run decimal_syntax now ops first in
              Binary.redis_queue later
              = MsgRequest symbol requested :: rest' ->
              Binary.check_new_subscriptions later
              = Binary.with_queue later rest')).
Proof.
  split.
  - intros json_loads self symbol requested rest Hq key first.
    split; [by apply (plugin_tracked_request_is_noop self symbol requested)|].
    split; [intros Hin c Hc;
            by apply (plugin_first_request self symbol requested rest)|].
    intros Hin ops rest' later Hq'.
    apply (plugin_tracked_request_is_noop later symbol requested rest' Hq').
    by apply (plugin_run_grows json_loads ops first).
  - intros ds now self symbol requested rest Hq first.
    split; [by apply (binary_tracked_request_is_noop self symbol requested)|].
    split; [intros Hin p Hp;
            by apply (binary_first_request self symbol requested rest)|].
    intros Hin ops rest' later Hq'.
    apply (binary_tracked_request_is_noop later symbol requested rest' Hq').
    destruct (binary_run_grows ds now ops first) as [tail Ht].
    unfold later. rewrite Ht. apply elem_of_app. by left.
Qed.

(** C7 at its failing input.  The plug-in collector starts with its
    default symbols, [GCQ5] and [MGCQ5], and its connection stays up; the
    control queue then delivers the request for [GCQ5] on [CME] twice.
    The start-up loop has subscribed [GCQ5] on [CME] and recorded the
    token as it is written, [GCQ5]; the poll looks for [GCQ5:CME], does
    not find it, and sends the same subscribe message again.  Only the
    second delivery is a no-op: over the run two messages are sent for
    the pair, not one.  The binary collector misses the claim the other
    way: it records a requested symbol before it tries to send, so a
    request that arrives while the connection is down is recorded, both
    deliveries are taken off the queue, and no frame is ever written for
    the pair. *)
Theorem startup_symbol_is_subscribed_twice
    (json_loads : string -> option pyval) (ds : string -> bool)
    (iso : string -> option Z) (now : Z)
    (script : list RTrader.recv_result) :
  (let request := MsgRequest "GCQ5" (Some "CME") in
   let env := {| RTrader.database_up := true; RTrader.redis_up := true;
                 RTrader.upstream := Some script;
                 RTrader.interrupt_after := 2;
                 RTrader.listener := fun _ => 0%nat |} in
   let self := {| RTrader.store := empty_store;
                  RTrader.redis_queue := [request; request];
                  RTrader.rtrader_client := None;
                  RTrader.symbols := RTrader.init_symbols None;
                  RTrader.subscribed_symbols := ∅ |} in
   let result := RTrader.run json_loads ds iso now env self in
   RTrader.symbols self = ["GCQ5"; "MGCQ5"]
   /\ result.2 = None
   /\ RTrader.redis_queue result.1 = []
   /\ sent_by result.1
      = [ subscribe_request "GCQ5" "CME"; subscribe_request "MGCQ5" "CME";
          subscribe_request "GCQ5" "CME" ]
   /\ RTrader.subscribed_symbols result.1
      = {[ "GCQ5"; "MGCQ5"; "GCQ5:CME" ]})
  /\ (let request := MsgRequest "NQU5" (Some "CME") in
      let env := {| Binary.database_up := true; Binary.redis_up := true;
                    Binary.connect_ok := fun _ => true;
                    Binary.upstream := {| buffer := []; incoming := [];
                                          reset := false |} |} in
      let final :=
        binary_run ds now
          [BStart env; BReadLoop 1; BPublish request; BPublish request;
           BPoll; BPoll] idle_collector in
      Binary.symbols final = ["NQU5"]
      /\ Binary.redis_queue final = []
      /\ written final = []).
Proof. repeat split; reflexivity. Qed.

(** The plugin collector stores a quote through the tick handler: one row,
    whose trade price and size are 0, not null. *)
Lemma plugin_quote_row_has_zero_price (ds : string -> bool)
    (fromisoformat : string -> option Z) (now : Z) :
  let quote : gmap string pyval :=
    <["ask_size" := PInt 12]>
    (<["ask_price" := PFloat 0x40B1948000000000]>
     (<["bid_size" := PInt 10]>
      (<["bid_price" := PFloat 0x40B1944000000000]>
       (<["symbol" := PStr "ESU5"]> {[ "type" := PStr "QUOTE" ]})))) in
  map (fun r => (t_price r, t_size r, t_bid_price r, t_ask_price r))
      (tick_data (RTrader.db_conn
         (RTrader._handle_quote_data ds fromisoformat now quote empty_store)))
  = [ (Dec (PInt 0), PInt 0,
       Some (Dec (PFloat 0x40B1944000000000)),
       Some (Dec (PFloat 0x40B1948000000000))) ].
Proof. by vm_compute. Qed.

(** * Further properties of the two collectors *)

(** ** Framing *)



Lemma send_each_writer msgs : forall tx,
  Forall sendable msgs ->
  Binary.connected tx = true ->
  Binary.writer (send_each tx msgs) = Binary.writer tx ++ frames msgs
  /\ Binary.connected (send_each tx msgs) = true.
Proof.
  induction msgs as [|[msg_type data] msgs IH]; intros tx Hok Hc.
  - unfold frames. cbn. by rewrite app_nil_r.
  - apply Forall_cons in Hok as [[Ht Hl] Hok]. cbn [fst snd] in Ht, Hl.
    unfold send_each. cbn [foldl fst snd].
    rewrite (send_message_frame tx msg_type data Hc Ht Hl). cbn [fst].
    destruct (IH {| Binary.connected := true;
                    Binary.reader := Binary.reader tx;
                    Binary.writer := Binary.writer tx
                                     ++ frame_layout msg_type data |}
                 Hok eq_refl) as [Hw Hc'].
    unfold send_each in Hw, Hc'. rewrite Hw, Hc'. cbn [Binary.writer].
    unfold frames. cbn [map concat fst snd]. by rewrite <- app_assoc.
Qed.

Lemma receive_message_drained p :
  Binary.connected p = true ->
  pending (Binary.reader p) = [] ->
  exists p', Binary.receive_message p = (None, p')
             /\ Binary.connected p' = reset (Binary.reader p).
Proof.
  intros Hc Hp. pose proof (receive_message_at_once p Hc) as H.
  destruct (Binary.receive_message p) as [m p']. rewrite Hp in H.
  cbn in H. destruct H as (-> & _ & _ & Hc' & _). by exists p'.
Qed.

Lemma receive_message_keeps_reset p m p' :
  Binary.receive_message p = (m, p') ->
  reset (Binary.reader p') = reset (Binary.reader p).
Proof.
  intros E. destruct (Binary.connected p) eqn:Hc.
  - pose proof (receive_message_at_once p Hc) as H. rewrite E in H.
    destruct (decode_at_once (pending (Binary.reader p))) as [m0 rest].
    by destruct H as (_ & _ & _ & _ & Hl & _).
  - rewrite (receive_message_disconnected p Hc) in E. by injection E as _ <-.
Qed.

(** A protocol object whose reader has the exception of the transport
    set: every call fails as the one before and changes nothing. *)
Lemma receive_message_after_reset p :
  Binary.connected p = true ->
  Binary.reader p = {| buffer := []; incoming := []; reset := true |} ->
  Binary.receive_message p = (None, p).
Proof.
  intros Hc Hr. unfold Binary.receive_message. rewrite Hc, Hr. cbn.
  unfold Binary.with_reader. rewrite <- Hr. by destruct p.
Qed.

Lemma received_frames msgs : forall rx extra,
  Forall sendable msgs ->
  Binary.connected rx = true ->
  pending (Binary.reader rx) = frames msgs ->
  received (S (length msgs) + extra) rx = msgs.
Proof.
  induction msgs as [|[msg_type data] msgs IH]; intros rx extra Hok Hc Hp.
  - destruct (receive_message_drained rx Hc Hp) as (p' & E & _).
    cbn [length Nat.add received]. by rewrite E.
  - apply Forall_cons in Hok as [[Ht Hl] Hok]. cbn [fst snd] in Ht, Hl.
    destruct (receive_message_frame rx msg_type data (frames msgs) Hc Ht Hl Hp)
      as (rx' & E & Hp' & Hc' & _).
    cbn [length Nat.add received]. rewrite E. f_equal.
    apply (IH rx' extra Hok Hc' Hp').
Qed.

(** X2. Messages sent one after the other arrive one after the other: the
    bytes [send_message] writes for a sequence of messages it accepts are
    the frames of the messages in order, and a receiver whose stream
    delivers exactly these bytes, cut into chunks in any way, gets the
    same messages in the same order from successive calls of
    [receive_message], the call after the last one returning
    [(None, None)]. *)
Theorem frames_are_received_in_order tx rx msgs extra :
  Forall sendable msgs ->
  Binary.connected tx = true ->
  Binary.connected rx = true ->
  pending (Binary.reader rx) = frames msgs ->
  Binary.writer (send_each tx msgs) = Binary.writer tx ++ frames msgs
  /\ received (S (length msgs) + extra) rx = msgs.
Proof.
  intros Hok Htx Hrx Hp. split.
  - by apply send_each_writer.
  - by apply received_frames.
Qed.

Lemma frames_are_received_in_order_witness :
  let msgs := [(102, [x41; x42]); (100, []); (109, [x01])] in
  let tx := {| Binary.connected := true;
               Binary.reader := {| buffer := []; incoming := [];
                                   reset := false |};
               Binary.writer := [] |} in
  let rx := {| Binary.connected := true;
               Binary.reader :=
                 {| buffer := take 5 (frames msgs);
                    incoming := [take 9 (drop 5 (frames msgs));
                                 drop 14 (frames msgs)]; reset := false |};
               Binary.writer := [] |} in
  Binary.writer (send_each tx msgs) = Binary.writer tx ++ frames msgs
  /\ received (S (length msgs) + 2) rx = msgs.
Proof.
  intros msgs tx rx.
  apply (frames_are_received_in_order tx rx msgs 2).
  - repeat constructor; cbn; lia.
  - reflexivity.
  - reflexivity.
  - by vm_compute.
Defined.

(** X3. What a [(None, None)] result means.  [receive_message] returns
    it when the connection is already marked closed, when the peer closes
    the stream before a whole frame has arrived, and when the transport
    fails before a whole frame has arrived.  In each case the bytes
    written are as before and the result is final: the next call returns
    [(None, None)] again and changes nothing, so no frame is ever
    delivered after it.  The flag does not tell a failure from a live
    connection: the end of the stream marks the connection closed, a
    failure of the transport leaves it marked open. *)
Theorem receive_none_is_final p p' :
  Binary.receive_message p = (None, p') ->
  Binary.writer p' = Binary.writer p
  /\ Binary.connected p' = Binary.connected p && reset (Binary.reader p)
  /\ Binary.receive_message p' = (None, p')
  /\ forall fuel, received fuel p' = [].
Proof.
  intros E.
  assert (Binary.writer p' = Binary.writer p
          /\ Binary.connected p'
             = Binary.connected p && reset (Binary.reader p)
          /\ Binary.receive_message p' = (None, p')) as (Hw & Hc & Hn).
  { destruct (Binary.connected p) eqn:Hc.
    - pose proof (receive_message_at_once p Hc) as H. rewrite E in H.
      destruct (decode_at_once (pending (Binary.reader p))) as [m0 rest].
      destruct H as (_ & _ & Hw & Hc' & Hl & Hnil).
      destruct (Hnil eq_refl) as [Hbuf Hinc].
      split; [exact Hw|]. split; [exact Hc'|].
      destruct (Binary.connected p') eqn:Hk.
      + apply receive_message_after_reset; [exact Hk|].
        destruct (Binary.reader p') as [buf inc lost]. cbn in *. congruence.
      + by apply receive_message_disconnected.
    - rewrite (receive_message_disconnected p Hc) in E. injection E as <-.
      rewrite Hc. repeat split. by apply receive_message_disconnected. }
  repeat split; [done..|]. intros [|fuel]; [done|]. cbn. by rewrite Hn.
Qed.

Lemma receive_none_is_final_witness :
  let p := {| Binary.connected := true;
              Binary.reader :=
                {| buffer := [x00; x00];
                   incoming := [[x00; x09; x00; x66; x41]];
                   reset := true |};
              Binary.writer := [x07] |} in
  let p' := {| Binary.connected := true;
               Binary.reader := {| buffer := []; incoming := [];
                                   reset := true |};
               Binary.writer := [x07] |} in
  Binary.writer p' = Binary.writer p
  /\ Binary.connected p' = Binary.connected p && reset (Binary.reader p)
  /\ Binary.receive_message p' = (None, p')
  /\ forall fuel, received fuel p' = [].
Proof.
  intros p p'. apply (receive_none_is_final p p'). reflexivity.
Defined.

(** ** Payloads of the binary protocol *)

Lemma slice_app_middle {A} (pre x post : list A) a b :
  a = Z.of_nat (length pre) ->
  b = a + Z.of_nat (length x) ->
  slice a b (pre ++ x ++ post) = x.
Proof.
  intros -> ->. unfold slice.
  replace (Z.to_nat (Z.of_nat (length pre) + Z.of_nat (length x)
                     - Z.of_nat (length pre))) with (length x) by lia.
  rewrite Nat2Z.id, drop_app_length. by rewrite take_app_length.
Qed.

Lemma slice_app_head {A} (x post : list A) b :
  b = Z.of_nat (length x) -> slice 0 b (x ++ post) = x.
Proof. intros ->. by apply (slice_app_middle [] x post). Qed.

Lemma unpack_be_bytes f n z :
  f = unpack_uint n ->
  0 <= z < 2 ^ (8 * Z.of_nat n) ->
  Binary.unpack f (be_bytes n z) = Ok z.
Proof.
  intros -> Hz. unfold Binary.unpack, unpack_uint.
  rewrite length_be_bytes, Nat.eqb_refl. cbn [or_raise].
  by rewrite be_value_be_bytes.
Qed.

Lemma decode_encode symbol :
  PyStr.utf8_valid (PyStr.codes symbol) = true ->
  PyStr.decode (PyStr.encode symbol) = Ok symbol.
Proof.
  intros H. unfold PyStr.decode, PyStr.encode. unfold PyStr.codes in H.
  by rewrite H, string_of_list_byte_of_string.
Qed.

Lemma type_name_102 : Binary.RITHMIC_MSG_TYPES !! 102 = Some "LAST_TRADE".
Proof. by vm_compute. Qed.

Lemma type_name_103 : Binary.RITHMIC_MSG_TYPES !! 103 = Some "BID_OFFER".
Proof. by vm_compute. Qed.

Lemma parse_last_trade symbol price size timestamp trailing :
  PyStr.utf8_valid (PyStr.codes symbol) = true ->
  Z.of_nat (length (PyStr.encode symbol)) < 2 ^ 32 ->
  0 <= price < 2 ^ 64 ->
  0 <= size < 2 ^ 32 ->
  0 <= timestamp <= Binary.max_timestamp_ms ->
  Binary.parse_market_data 102
    (last_trade_bytes symbol price size timestamp ++ trailing)
  = Ok (<["timestamp" := PDatetime timestamp]>
        (<["size" := PInt size]>
         (<["price" := PFloat price]>
          (<["symbol" := PStr symbol]> {[ "type" := PStr "LAST_TRADE" ]})))).
Proof.
  intros Hv Hn Hp Hs Ht.
  set (sb := PyStr.encode symbol) in *.
  set (n := Z.of_nat (length sb)) in *.
  unfold Binary.parse_market_data. rewrite type_name_102.
  change (102 =? 102) with true. cbn [default].
  assert (Z.of_nat (length (last_trade_bytes symbol price size timestamp
                            ++ trailing))
          = 24 + n + Z.of_nat (length trailing)) as Hlen.
  { unfold last_trade_bytes. fold sb.
    rewrite !length_app, !length_be_bytes. fold n. lia. }
  rewrite Hlen.
  replace (24 <=? 24 + n + Z.of_nat (length trailing)) with true
    by (symmetry; apply Z.leb_le; lia).
  unfold last_trade_bytes. fold sb. fold n.
  rewrite <- !app_assoc.
  (* symbol_len *)
  rewrite (slice_app_head (be_bytes 4 n)) by (by rewrite length_be_bytes).
  rewrite (unpack_be_bytes unpack_I 4 n eq_refl) by (cbn; lia).
  cbn [bind].
  (* symbol *)
  rewrite (slice_app_middle (be_bytes 4 n) sb)
    by (rewrite ?length_be_bytes; lia).
  fold sb in Hv. unfold sb. rewrite (decode_encode symbol Hv). cbn [bind].
  fold sb.
  (* price *)
  rewrite (app_assoc (be_bytes 4 n) sb).
  rewrite (slice_app_middle (be_bytes 4 n ++ sb) (be_bytes 8 price))
    by (rewrite ?length_app, ?length_be_bytes; lia).
  rewrite (unpack_be_bytes unpack_d 8 price eq_refl) by (cbn; lia).
  cbn [bind].
  (* size *)
  rewrite (app_assoc (be_bytes 4 n ++ sb) (be_bytes 8 price)).
  rewrite (slice_app_middle ((be_bytes 4 n ++ sb) ++ be_bytes 8 price)
             (be_bytes 4 size))
    by (rewrite ?length_app, ?length_be_bytes; lia).
  rewrite (unpack_be_bytes unpack_I 4 size eq_refl) by (cbn; lia).
  cbn [bind].
  (* timestamp *)
  rewrite (app_assoc ((be_bytes 4 n ++ sb) ++ be_bytes 8 price)
             (be_bytes 4 size)).
  rewrite (slice_app_middle
             (((be_bytes 4 n ++ sb) ++ be_bytes 8 price) ++ be_bytes 4 size)
             (be_bytes 8 timestamp))
    by (rewrite ?length_app, ?length_be_bytes; lia).
  rewrite (unpack_be_bytes unpack_Q 8 timestamp eq_refl)
    by (unfold Binary.max_timestamp_ms in Ht; cbn; lia).
  cbn [bind].
  unfold Binary.fromtimestamp_ms.
  replace (timestamp <=? Binary.max_timestamp_ms) with true
    by (symmetry; apply Z.leb_le; lia).
  reflexivity.
Qed.

(** X4. Parsing undoes the LAST_TRADE layout.  For a symbol that is
    well-formed text and fields that fit their widths, the payload
    [[len][symbol][price:double][size:uint32][timestamp:uint64]], followed
    by any further bytes, is parsed into exactly the symbol, the price, the
    size and the instant it was built from, under the type name
    [LAST_TRADE].  The instants are those a double holds to the
    microsecond once divided by 1000. *)
Theorem last_trade_payload_round_trip symbol price size timestamp trailing :
  PyStr.utf8_valid (PyStr.codes symbol) = true ->
  Z.of_nat (length (PyStr.encode symbol)) < 2 ^ 32 ->
  0 <= price < 2 ^ 64 ->
  0 <= size < 2 ^ 32 ->
  0 <= timestamp < exact_instants ->
  Binary.parse_market_data 102
    (last_trade_bytes symbol price size timestamp ++ trailing)
  = Ok (<["timestamp" := PDatetime timestamp]>
        (<["size" := PInt size]>
         (<["price" := PFloat price]>
          (<["symbol" := PStr symbol]> {[ "type" := PStr "LAST_TRADE" ]})))).
Proof.
  intros Hv Hn Hp Hs Ht. apply parse_last_trade; try done.
  unfold exact_instants, Binary.max_timestamp_ms in *. lia.
Qed.

Lemma last_trade_payload_round_trip_witness :
  Binary.parse_market_data 102
    (last_trade_bytes "GCQ5" 0x409E786666666666 7 1700000000123 ++ [xff; x00])
  = Ok (<["timestamp" := PDatetime 1700000000123]>
        (<["size" := PInt 7]>
         (<["price" := PFloat 0x409E786666666666]>
          (<["symbol" := PStr "GCQ5"]> {[ "type" := PStr "LAST_TRADE" ]})))).
Proof.
  apply (last_trade_payload_round_trip "GCQ5" 0x409E786666666666 7
           1700000000123 [xff; x00]).
  - reflexivity.
  - cbn. lia.
  - lia.
  - lia.
  - unfold exact_instants. lia.
Defined.

(** X5. A quote is parsed only if its symbol has at least four bytes.  The
    BID_OFFER layout is 28 bytes plus the symbol, and the parser reads a
    payload only when it has 32 bytes or more: for a symbol of four bytes
    or more the payload is parsed into the symbol and the four quote
    fields, for a shorter one (a bare root such as [ES]) the result holds
    the type name alone and the quote is ignored without an error. *)
Theorem bid_offer_needs_four_symbol_bytes symbol bid_price bid_size
    ask_price ask_size :
  PyStr.utf8_valid (PyStr.codes symbol) = true ->
  Z.of_nat (length (PyStr.encode symbol)) < 2 ^ 32 ->
  0 <= bid_price < 2 ^ 64 -> 0 <= bid_size < 2 ^ 32 ->
  0 <= ask_price < 2 ^ 64 -> 0 <= ask_size < 2 ^ 32 ->
  Binary.parse_market_data 103
    (bid_offer_bytes symbol bid_price bid_size ask_price ask_size)
  = if (4 <=? length (PyStr.encode symbol))%nat
    then Ok (<["ask_size" := PInt ask_size]>
             (<["ask_price" := PFloat ask_price]>
              (<["bid_size" := PInt bid_size]>
               (<["bid_price" := PFloat bid_price]>
                (<["symbol" := PStr symbol]>
                 {[ "type" := PStr "BID_OFFER" ]})))))
    else Ok {[ "type" := PStr "BID_OFFER" ]}.
Proof.
  intros Hv Hn Hbp Hbs Hap Has.
  set (sb := PyStr.encode symbol) in *.
  set (n := Z.of_nat (length sb)) in *.
  unfold Binary.parse_market_data. rewrite type_name_103.
  change (103 =? 102) with false. change (103 =? 103) with true.
  cbn [default].
  assert (Z.of_nat (length (bid_offer_bytes symbol bid_price bid_size
                              ask_price ask_size)) = 28 + n) as Hlen.
  { unfold bid_offer_bytes. fold sb.
    rewrite !length_app, !length_be_bytes. fold n. lia. }
  rewrite Hlen.
  destruct (4 <=? length sb)%nat eqn:E.
  2: { apply Nat.leb_gt in E.
       replace (32 <=? 28 + n) with false; [done|].
       symmetry. apply Z.leb_gt. lia. }
  apply Nat.leb_le in E.
  replace (32 <=? 28 + n) with true by (symmetry; apply Z.leb_le; lia).
  unfold bid_offer_bytes. fold sb. fold n.
  rewrite (slice_app_head (be_bytes 4 n)) by (by rewrite length_be_bytes).
  rewrite (unpack_be_bytes unpack_I 4 n eq_refl) by (cbn; lia).
  cbn [bind].
  rewrite (slice_app_middle (be_bytes 4 n) sb)
    by (rewrite ?length_be_bytes; lia).
  fold sb in Hv. unfold sb. rewrite (decode_encode symbol Hv). cbn [bind].
  fold sb.
  rewrite (app_assoc (be_bytes 4 n) sb).
  rewrite (slice_app_middle (be_bytes 4 n ++ sb) (be_bytes 8 bid_price))
    by (rewrite ?length_app, ?length_be_bytes; lia).
  rewrite (unpack_be_bytes unpack_d 8 bid_price eq_refl) by (cbn; lia).
  cbn [bind].
  rewrite (app_assoc (be_bytes 4 n ++ sb) (be_bytes 8 bid_price)).
  rewrite (slice_app_middle ((be_bytes 4 n ++ sb) ++ be_bytes 8 bid_price)
             (be_bytes 4 bid_size))
    by (rewrite ?length_app, ?length_be_bytes; lia).
  rewrite (unpack_be_bytes unpack_I 4 bid_size eq_refl) by (cbn; lia).
  cbn [bind].
  rewrite (app_assoc ((be_bytes 4 n ++ sb) ++ be_bytes 8 bid_price)
             (be_bytes 4 bid_size)).
  rewrite (slice_app_middle
             (((be_bytes 4 n ++ sb) ++ be_bytes 8 bid_price)
              ++ be_bytes 4 bid_size)
             (be_bytes 8 ask_price))
    by (rewrite ?length_app, ?length_be_bytes; lia).
  rewrite (unpack_be_bytes unpack_d 8 ask_price eq_refl) by (cbn; lia).
  cbn [bind].
  rewrite (app_assoc (((be_bytes 4 n ++ sb) ++ be_bytes 8 bid_price)
                      ++ be_bytes 4 bid_size) (be_bytes 8 ask_price)).
  rewrite <- (app_nil_r (be_bytes 4 ask_size)) at 1.
  rewrite (slice_app_middle
             ((((be_bytes 4 n ++ sb) ++ be_bytes 8 bid_price)
               ++ be_bytes 4 bid_size) ++ be_bytes 8 ask_price)
             (be_bytes 4 ask_size) [])
    by (rewrite ?length_app, ?length_be_bytes; lia).
  rewrite (unpack_be_bytes unpack_I 4 ask_size eq_refl) by (cbn; lia).
  reflexivity.
Qed.

Lemma bid_offer_needs_four_symbol_bytes_witness :
  Binary.parse_market_data 103
    (bid_offer_bytes "ES" 0x40B1944000000000 10 0x40B1948000000000 12)
  = if (4 <=? length (PyStr.encode "ES"))%nat
    then Ok (<["ask_size" := PInt 12]>
             (<["ask_price" := PFloat 0x40B1948000000000]>
              (<["bid_size" := PInt 10]>
               (<["bid_price" := PFloat 0x40B1944000000000]>
                (<["symbol" := PStr "ES"]>
                 {[ "type" := PStr "BID_OFFER" ]})))))
    else Ok {[ "type" := PStr "BID_OFFER" ]}.
Proof.
  apply (bid_offer_needs_four_symbol_bytes "ES" 0x40B1944000000000 10
           0x40B1948000000000 12).
  - reflexivity.
  - cbn. lia.
  - lia.
  - lia.
  - lia.
  - lia.
Defined.

(** ** What the read loop of the binary collector stores *)

Lemma trade_fields_lookup symbol price size timestamp :
  let data := trade_fields symbol price size timestamp in
  data !! "symbol" = Some (PStr symbol)
  /\ data !! "price" = Some (PFloat price)
  /\ data !! "size" = Some (PInt size)
  /\ data !! "timestamp" = Some (PDatetime timestamp)
  /\ data !! "aggressor" = None
  /\ data !! "bid_price" = None /\ data !! "ask_price" = None
  /\ data !! "bid_size" = None /\ data !! "ask_size" = None
  /\ data !! "trade_id" = None.
Proof. repeat split; by vm_compute. Qed.

Lemma store_trade ds now self symbol price size timestamp :
  Binary.store_tick_data ds now self
    (trade_fields symbol price size timestamp)
  = Binary.emit
      (Binary.with_db self
         {| tick_data :=
              tick_data (Binary.db_conn self)
              ++ [row_of_trade {| tr_symbol := symbol; tr_price := price;
                                  tr_size := size;
                                  tr_timestamp := timestamp |}];
            level2_data := level2_data (Binary.db_conn self) |})
      (Logged DEBUG "Stored tick for").
Proof.
  destruct (trade_fields_lookup symbol price size timestamp)
    as (Hs & Hp & Hz & Ht & Ha & Hbp & Hap & Hbs & Has & Hid).
  unfold Binary.store_tick_data, Binary.tick_parameters,
    Binary.optional_decimal.
  rewrite Hs, Hp, Hz, Ht, Ha, Hbp, Hap, Hbs, Has, Hid.
  rewrite !bool_decide_eq_true_2 by eauto.
  reflexivity.
Qed.

Lemma type_only_is_not_a_tick ds now self name :
  Binary.store_tick_data ds now self {[ "type" := PStr name ]} = self.
Proof.
  unfold Binary.store_tick_data.
  replace (({[ "type" := PStr name ]} : gmap string pyval) !! "symbol")
    with (@None pyval) by (by vm_compute).
  rewrite bool_decide_eq_false_2; [done|]. by intros [? ?].
Qed.

Lemma type_only_is_not_a_depth ds now self name :
  Binary.store_depth_data ds now self {[ "type" := PStr name ]} = self.
Proof.
  unfold Binary.store_depth_data.
  replace (({[ "type" := PStr name ]} : gmap string pyval) !! "symbol")
    with (@None pyval) by (by vm_compute).
  rewrite bool_decide_eq_false_2; [done|]. by intros [? ?].
Qed.

Lemma parse_last_trade_cases data parsed :
  Binary.parse_market_data 102 data = Ok parsed ->
  parsed = {[ "type" := PStr "LAST_TRADE" ]}
  \/ exists symbol price size timestamp,
       parsed = trade_fields symbol price size timestamp.
Proof.
  unfold Binary.parse_market_data. rewrite type_name_102.
  change (102 =? 102) with true. cbn [default].
  destruct (24 <=? Z.of_nat (length data)); [|intros <-%Ok_inj; by left].
  step_binds; try discriminate.
  intros <-%Ok_inj. right.
  match goal with
  | H : Binary.fromtimestamp_ms _ = Ok ?w |- _ =>
    unfold Binary.fromtimestamp_ms in H;
    destruct (_ <=? Binary.max_timestamp_ms) in H; [|discriminate];
    apply Ok_inj in H; subst w
  end.
  by eexists _, _, _, _.
Qed.

Lemma parse_other_types msg_type data :
  msg_type <> 102 -> msg_type <> 103 ->
  Binary.parse_market_data msg_type data
  = Ok {[ "type" :=
            PStr (default "UNKNOWN" (Binary.RITHMIC_MSG_TYPES !! msg_type)) ]}.
Proof.
  intros H2 H3. unfold Binary.parse_market_data.
  destruct (msg_type =? 102) eqn:E2; [apply Z.eqb_eq in E2; done|].
  destruct (msg_type =? 103) eqn:E3; [apply Z.eqb_eq in E3; done|].
  by destruct (msg_type =? 109).
Qed.

(** The tables after the read loop: trades appended to [tick_data], at
    most one for each frame read, and [level2_data] as it was. *)
Lemma process_messages_db ds now fuel : forall self p,
  exists trades,
    Binary.db_conn (Binary.process_messages ds now fuel self p).1
    = {| tick_data := tick_data (Binary.db_conn self)
                      ++ map row_of_trade trades;
         level2_data := level2_data (Binary.db_conn self) |}
    /\ (length trades <= fuel)%nat.
Proof.
  assert (forall self : Binary.RithmicCollector,
            Binary.db_conn self
            = {| tick_data := tick_data (Binary.db_conn self) ++ map row_of_trade [];
                 level2_data := level2_data (Binary.db_conn self) |}) as Hnil.
  { intros self. cbn [map]. rewrite app_nil_r. by destruct (Binary.db_conn self). }
  induction fuel as [|fuel IH]; intros self p; cbn [Binary.process_messages].
  { exists []. split; [apply (Hnil self)|done]. }
  destruct (Binary.running self && Binary.connected p).
  2: { exists []. split; [apply (Hnil self)|cbn; lia]. }
  destruct (Binary.receive_message p) as [[[msg_type data]|] p'].
  2: { exists []. split; [apply (Hnil self)|cbn; lia]. }
  destruct (Binary.parse_market_data msg_type data) as [parsed|e] eqn:Ep.
  2: { exists []. split; [apply (Hnil self)|cbn; lia]. }
  destruct (msg_type =? 102) eqn:E2.
  { apply Z.eqb_eq in E2. subst msg_type.
    destruct (parse_last_trade_cases data parsed Ep)
      as [->|(symbol & price & size & timestamp & ->)].
    - rewrite type_only_is_not_a_tick.
      destruct (IH self p') as (trades & -> & Hl). exists trades.
      split; [done|lia].
    - rewrite store_trade.
      destruct (IH (Binary.emit
                      (Binary.with_db self
                         {| tick_data :=
                              tick_data (Binary.db_conn self)
                              ++ [row_of_trade
                                    {| tr_symbol := symbol; tr_price := price;
                                       tr_size := size;
                                       tr_timestamp := timestamp |}];
                            level2_data := level2_data (Binary.db_conn self) |})
                      (Logged DEBUG "Stored tick for")) p')
        as (trades & -> & Hl).
      exists ({| tr_symbol := symbol; tr_price := price; tr_size := size;
                 tr_timestamp := timestamp |} :: trades).
      split; [|cbn; lia].
      cbn [Binary.db_conn Binary.emit Binary.with_db tick_data level2_data map].
      by rewrite <- app_assoc. }
  destruct (msg_type =? 103) eqn:E3.
  { apply Z.eqb_eq in E3. subst msg_type.
    rewrite (bid_offer_is_not_stored ds now self data parsed Ep).
    destruct (IH self p') as (trades & -> & Hl). exists trades.
    split; [done|lia]. }
  apply Z.eqb_neq in E2, E3.
  rewrite (parse_other_types msg_type data E2 E3) in Ep.
  apply Ok_inj in Ep. subst parsed.
  destruct (msg_type =? 109).
  - rewrite type_only_is_not_a_depth.
    destruct (IH self p') as (trades & -> & Hl). exists trades.
    split; [done|lia].
  - destruct (IH (Binary.emit self (Logged DEBUG "Received message type")) p')
      as (trades & -> & Hl).
    exists trades. split; [done|lia].
Qed.

Lemma db_subscribe_symbol self p symbol :
  Binary.db_conn (Binary.subscribe_symbol self p symbol).1
  = Binary.db_conn self.
Proof.
  unfold Binary.subscribe_symbol.
  destruct (Binary.subscribe_payload _ _); [|done].
  by destruct (Binary.send_message _ _ _).
Qed.

Lemma db_subscribe_each todo : forall self,
  Binary.db_conn (Binary.subscribe_each self todo).1 = Binary.db_conn self.
Proof.
  induction todo as [|symbol rest IH]; intros self; [done|].
  cbn [Binary.subscribe_each].
  destruct (Binary.protocol self) as [p|]; [|done].
  pose proof (db_subscribe_symbol self p symbol) as H.
  destruct (Binary.subscribe_symbol self p symbol) as [self' [e|]];
    cbn [fst] in *; [done|].
  by rewrite IH.
Qed.

Lemma db_connect_loop env fuel : forall retry_count self p self' p',
  Binary.connect_loop fuel env retry_count self p = Some (self', p') ->
  Binary.db_conn self' = Binary.db_conn self.
Proof.
  induction fuel as [|fuel IH]; intros retry_count self p self' p';
    cbn [Binary.connect_loop]; destruct (retry_count <? 5);
    try (by intros [= <- <-]); try done.
  destruct (Binary.connect _ _ p) as [p1 [|]].
  - by intros [= <- <-].
  - intros Hl. by rewrite (IH _ _ _ _ _ Hl).
Qed.

Lemma db_run env self :
  Binary.db_conn (Binary.run env self).1 = Binary.db_conn self.
Proof.
  unfold Binary.run.
  destruct (negb (Binary.database_up env)); [done|].
  destruct (negb (Binary.redis_up env)); [done|].
  destruct (Binary.connect_loop 5 env 0 _ _) as [[self1 p1]|] eqn:E; [|done].
  apply db_connect_loop in E. cbn [Binary.db_conn Binary.emit] in E.
  destruct (negb (Binary.connected p1)); [by cbn|].
  pose proof (db_subscribe_each (Binary.symbols (Binary.with_protocol self1 p1))
                (Binary.with_protocol self1 p1)) as H.
  destruct (Binary.subscribe_each _ _) as [self2 [e|]]; cbn [fst] in *.
  - by rewrite H.
  - cbn [Binary.db_conn Binary.emit]. by rewrite H.
Qed.

Lemma db_check_new_subscriptions self :
  Binary.db_conn (Binary.check_new_subscriptions self) = Binary.db_conn self.
Proof.
  unfold Binary.check_new_subscriptions.
  destruct (Binary.redis_queue self) as [|[| |symbol requested] rest];
    try done.
  case_bool_decide; [done|].
  cbn [Binary.protocol Binary.emit Binary.with_symbols Binary.with_queue].
  destruct (Binary.protocol self) as [p|]; [|done].
  destruct (Binary.connected p); [|done].
  match goal with
  | |- context [Binary.subscribe_symbol ?s ?q ?y] =>
    pose proof (db_subscribe_symbol s q y) as Hdb;
    destruct (Binary.subscribe_symbol s q y) as [self' [e|]]
  end; cbn [fst] in Hdb; by rewrite ?Hdb.
Qed.

Lemma binary_step_db ds now o self :
  exists trades,
    Binary.db_conn (binary_step ds now o self)
    = {| tick_data := tick_data (Binary.db_conn self)
                      ++ map row_of_trade trades;
         level2_data := level2_data (Binary.db_conn self) |}.
Proof.
  assert (Binary.db_conn self
          = {| tick_data := tick_data (Binary.db_conn self) ++ map row_of_trade [];
               level2_data := level2_data (Binary.db_conn self) |}) as Hnil.
  { cbn [map]. rewrite app_nil_r. by destruct (Binary.db_conn self). }
  destruct o as [| m | fuel | env]; cbn [binary_step].
  - exists []. by rewrite db_check_new_subscriptions.
  - by exists [].
  - destruct (Binary.protocol self) as [p|]; [|by exists []].
    destruct (process_messages_db ds now fuel self p) as (trades & H & _).
    by exists trades.
  - exists []. by rewrite db_run.
Qed.

Lemma binary_run_db ds now ops : forall self,
  exists trades,
    Binary.db_conn (binary_run ds now ops self)
    = {| tick_data := tick_data (Binary.db_conn self)
                      ++ map row_of_trade trades;
         level2_data := level2_data (Binary.db_conn self) |}.
Proof.
  unfold binary_run.
  induction ops as [|o ops IH]; intros self; cbn [foldl].
  - exists []. cbn [map]. rewrite app_nil_r. by destruct (Binary.db_conn self).
  - destruct (binary_step_db ds now o self) as (t1 & H1).
    destruct (IH (binary_step ds now o self)) as (t2 & H2).
    exists (t1 ++ t2). rewrite H2, H1. cbn [tick_data level2_data].
    by rewrite map_app, app_assoc.
Qed.

(** X6. The binary collector never writes to [level2_data].  A frame of
    type MARKET_DEPTH_UPDATE is parsed into its type name alone, so the
    depth store finds no symbol and returns; no other step of a run
    touches the table.  Whatever the stream delivers and however the
    steps of a run interleave, the table is as it was. *)
Theorem binary_collector_never_stores_depth ds now :
  (forall fuel self p,
     level2_data (Binary.db_conn
                    (Binary.process_messages ds now fuel self p).1)
     = level2_data (Binary.db_conn self))
  /\ (forall ops self,
        level2_data (Binary.db_conn (binary_run ds now ops self))
        = level2_data (Binary.db_conn self)).
Proof.
  split.
  - intros fuel self p.
    destruct (process_messages_db ds now fuel self p) as (trades & -> & _).
    reflexivity.
  - intros ops self.
    destruct (binary_run_db ds now ops self) as (trades & ->).
    reflexivity.
Qed.

(** X7. The binary collector stores trades and nothing else.  Every run
    leaves the rows [tick_data] held in place and appends rows that each
    hold one trade: symbol, price, size and instant from a LAST_TRADE
    payload, the exchange the resolver gives for the symbol, and null in
    the bid, ask, aggressor and trade-id columns.  The read loop appends
    at most one row for each frame it reads. *)
Theorem binary_collector_stores_only_trades ds now :
  (forall fuel self p,
     exists rows,
       tick_data (Binary.db_conn
                    (Binary.process_messages ds now fuel self p).1)
       = tick_data (Binary.db_conn self) ++ rows
       /\ Forall trade_only rows /\ (length rows <= fuel)%nat)
  /\ (forall ops self,
        exists rows,
          tick_data (Binary.db_conn (binary_run ds now ops self))
          = tick_data (Binary.db_conn self) ++ rows
          /\ Forall trade_only rows).
Proof.
  assert (forall trades, Forall trade_only (map row_of_trade trades)) as Hall.
  { intros trades. induction trades as [|t trades IH]; cbn [map];
      constructor; [by exists t|done]. }
  split.
  - intros fuel self p.
    destruct (process_messages_db ds now fuel self p) as (trades & -> & Hl).
    exists (map row_of_trade trades). rewrite length_map. by repeat split.
  - intros ops self.
    destruct (binary_run_db ds now ops self) as (trades & ->).
    exists (map row_of_trade trades). by split.
Qed.

Lemma length_last_trade_bytes symbol price size timestamp :
  Z.of_nat (length (last_trade_bytes symbol price size timestamp))
  = 24 + Z.of_nat (length (PyStr.encode symbol)).
Proof.
  unfold last_trade_bytes. rewrite !length_app, !length_be_bytes. lia.
Qed.

(** X8. Every trade the upstream reports is stored, in the order
    reported.  When the stream delivers the LAST_TRADE frames of a
    sequence of well-formed trades and then ends, the read loop returns
    normally, [tick_data] has gained exactly one row for each trade, in
    order, each with the symbol, price, size and instant of its trade and
    the exchange the resolver gives, and [level2_data] is as it was.  The
    connection is then marked closed if the peer closed the stream, and
    left marked open if the transport failed. *)
Theorem trades_are_stored_in_order ds now self p trades extra :
  Forall reportable trades ->
  Binary.running self = true ->
  Binary.connected p = true ->
  pending (Binary.reader p) = concat (map trade_frame trades) ->
  let result :=
    Binary.process_messages ds now (S (length trades) + extra) self p in
  result.2 = Binary.Returned
  /\ Binary.db_conn result.1
     = {| tick_data := tick_data (Binary.db_conn self)
                       ++ map row_of_trade trades;
          level2_data := level2_data (Binary.db_conn self) |}
  /\ exists p', Binary.protocol result.1 = Some p'
                /\ Binary.connected p' = reset (Binary.reader p)
                /\ Binary.writer p' = Binary.writer p.
Proof.
  revert ds now self p extra.
  induction trades as [|t trades IH]; intros ds now self p extra Hok Hr Hc Hp;
    cbn [length Nat.add Binary.process_messages]; rewrite Hr, Hc;
    cbn [andb].
  - pose proof (receive_message_at_once p Hc) as H.
    destruct (Binary.receive_message p) as [m p']. rewrite Hp in H.
    cbn in H. destruct H as (-> & _ & Hw & Hc' & _).
    cbn [fst snd Binary.db_conn Binary.with_protocol Binary.protocol map].
    rewrite app_nil_r. repeat split; [by destruct (Binary.db_conn self)|].
    by exists p'.
  - apply Forall_cons in Hok as [(Hv & Hn & Hpr & Hsz & Hts) Hok].
    cbn [map concat] in Hp. unfold trade_frame at 1 in Hp.
    destruct (receive_message_frame p 102
                (last_trade_bytes (tr_symbol t) (tr_price t) (tr_size t)
                   (tr_timestamp t))
                (concat (map trade_frame trades)) Hc ltac:(lia)
                ltac:(rewrite length_last_trade_bytes; lia) Hp)
      as (p' & E & Hp' & Hc' & Hw').
    rewrite E.
    rewrite <- (app_nil_r (last_trade_bytes _ _ _ _)).
    rewrite (parse_last_trade (tr_symbol t) (tr_price t) (tr_size t)
               (tr_timestamp t) [] Hv ltac:(lia) Hpr Hsz
               ltac:(unfold exact_instants, Binary.max_timestamp_ms in *;
                     lia)).
    change (102 =? 102) with true. cbv iota.
    fold (trade_fields (tr_symbol t) (tr_price t) (tr_size t)
            (tr_timestamp t)).
    rewrite store_trade.
    set (s := Binary.emit _ _).
    destruct (IH ds now s p' extra Hok Hr Hc' Hp')
      as (He & Hdb & q & Hq & Hqc & Hqw).
    cbv zeta.
    split; [exact He|]. split.
    + etrans; [exact Hdb|]. unfold s.
      cbn [Binary.db_conn Binary.emit Binary.with_db tick_data level2_data map].
      rewrite <- app_assoc. by destruct t.
    + exists q. split; [exact Hq|].
      rewrite (receive_message_keeps_reset p _ p' E) in Hqc.
      split; [done|]. congruence.
Qed.

Lemma trades_are_stored_in_order_witness :
  let trades :=
    [ {| tr_symbol := "ESU5"; tr_price := 0x40B1944000000000; tr_size := 3;
         tr_timestamp := 1700000000000 |};
      {| tr_symbol := "GCQ5"; tr_price := 0x409E786666666666; tr_size := 1;
         tr_timestamp := 1700000000250 |} ] in
  let p := {| Binary.connected := true;
              Binary.reader :=
                {| buffer := [];
                   incoming := [take 11 (concat (map trade_frame trades));
                                drop 11 (concat (map trade_frame trades))];
                   reset := false |};
              Binary.writer := [] |} in
  let result :=
    Binary.process_messages (fun _ => false) 0 (S (length trades) + 1)
      idle_collector p in
  result.2 = Binary.Returned
  /\ Binary.db_conn result.1
     = {| tick_data := tick_data (Binary.db_conn idle_collector)
                       ++ map row_of_trade trades;
          level2_data := level2_data (Binary.db_conn idle_collector) |}
  /\ exists p', Binary.protocol result.1 = Some p'
                /\ Binary.connected p' = false
                /\ Binary.writer p' = Binary.writer p.
Proof.
  intros trades p.
  apply (trades_are_stored_in_order (fun _ => false) 0 idle_collector p
           trades 1).
  - repeat constructor; cbn; unfold exact_instants; lia.
  - reflexivity.
  - reflexivity.
  - by vm_compute.
Defined.

(** ** The depth store of the binary collector *)

Lemma depth_rows_shape ds timestamp data side levels : forall level rows,
  Binary.depth_rows ds timestamp data side level levels = Ok rows ->
  map (fun r => (l_side r, l_level r)) rows
  = map (fun i => (side, i)) (seqZ level (Z.of_nat (length levels)))
  /\ Forall (storable_level ds) levels.
Proof.
  induction levels as [|b rest IH]; intros level rows; cbn [Binary.depth_rows].
  - intros <-%Ok_inj. by split.
  - step_binds; try discriminate. intros <-%Ok_inj.
    match goal with
    | H : Binary.depth_rows _ _ _ _ _ rest = Ok _ |- _ =>
      destruct (IH _ _ H) as [Hm Hf]
    end.
    split.
    + cbn [map l_side l_level length].
      rewrite Nat2Z.inj_succ, seqZ_cons by lia. cbn [map].
      rewrite Z.pred_succ, Hm.
      by replace (Z.succ level) with (level + 1) by lia.
    + constructor; [|done].
      match goal with
      | Hp : Binary.item b "price" = Ok ?rp,
        Hd : to_decimal ds ?rp = Ok ?d,
        Hs : Binary.item b "size" = Ok ?sz |- _ =>
        exists d, sz; rewrite Hp; by split
      end.
Qed.

(** X9. The depth store of the binary collector writes a whole update or
    nothing.  Whatever dictionary it is given, it leaves [tick_data]
    alone, and [level2_data] is afterwards either as it was or longer by
    one row for every bid level followed by one row for every ask level of
    the update, ranked from 1 on each side in the order given: no level is
    left out, whatever their number, and no update is stored in part. *)
Theorem depth_store_is_all_or_nothing ds now self data :
  let self' := Binary.store_depth_data ds now self data in
  tick_data (Binary.db_conn self') = tick_data (Binary.db_conn self)
  /\ (level2_data (Binary.db_conn self') = level2_data (Binary.db_conn self)
      \/ exists bids asks rows,
           Binary.levels_of (default (PList []) (data !! "bids")) = Ok bids
           /\ Binary.levels_of (default (PList []) (data !! "asks")) = Ok asks
           /\ level2_data (Binary.db_conn self')
              = level2_data (Binary.db_conn self) ++ rows
           /\ map (fun r => (l_side r, l_level r)) rows
              = ranked "B" (length bids) ++ ranked "S" (length asks)
           /\ Forall (storable_level ds) (bids ++ asks)).
Proof.
  unfold Binary.store_depth_data.
  destruct (negb (bool_decide (is_Some (data !! "symbol")))).
  { cbv zeta. split; [done|by left]. }
  destruct (Binary.depth_parameters ds now data) as [rows|e] eqn:E.
  2: { cbv zeta. split; [done|by left]. }
  cbv zeta. cbn [Binary.db_conn Binary.emit Binary.with_db tick_data level2_data].
  split; [done|]. right.
  unfold Binary.depth_parameters in E. revert E.
  step_binds; try discriminate. intros <-%Ok_inj.
  repeat match goal with
  | H : Binary.depth_rows _ _ _ _ _ _ = Ok _ |- _ =>
    apply depth_rows_shape in H; destruct H as [? ?]
  end.
  eexists _, _, _. split; [done|]. split; [done|]. split; [done|].
  split.
  - rewrite map_app. unfold ranked. congruence.
  - by apply Forall_app.
Qed.

Lemma depth_rows_need_storable ds timestamp data side level levels :
  Exists (fun b => ~ storable_level ds b) levels ->
  exists e, Binary.depth_rows ds timestamp data side level levels = Raised e.
Proof.
  intros Hbad.
  destruct (Binary.depth_rows ds timestamp data side level levels)
    as [rows|e] eqn:E; [|by exists e].
  apply depth_rows_shape in E as [_ Hall].
  apply Exists_exists in Hbad as (b & Hin & Hb).
  rewrite Forall_forall in Hall. destruct (Hb (Hall b Hin)).
Qed.

(** X10. One level that cannot be stored voids the whole depth update of
    the binary collector.  If the update names a symbol and one of its
    bid or ask levels lacks a price or a size, or has a price that is no
    number, then nothing of the update is stored, the levels before the
    faulty one included: the tables are as they were and the failure is
    logged as an error. *)
Theorem faulty_level_voids_depth_update ds now self data bids asks :
  is_Some (data !! "symbol") ->
  data !! "bids" = Some (PList bids) ->
  data !! "asks" = Some (PList asks) ->
  Exists (fun b => ~ storable_level ds b) (bids ++ asks) ->
  Binary.store_depth_data ds now self data
  = Binary.emit self (Logged ERROR "Failed to store depth data").
Proof.
  intros Hs Hb Ha Hbad. unfold Binary.store_depth_data.
  rewrite bool_decide_eq_true_2 by done. cbn [negb].
  assert (exists e, Binary.depth_parameters ds now data = Raised e)
    as [e ->]; [|done].
  unfold Binary.depth_parameters. rewrite Hb, Ha.
  change (default (PList []) (Some (PList bids))) with (PList bids).
  change (default (PList []) (Some (PList asks))) with (PList asks).
  cbn [Binary.levels_of bind].
  apply Exists_app in Hbad as [Hbad|Hbad].
  - destruct (depth_rows_need_storable ds
                (default (PDatetime now) (data !! "timestamp")) data "B" 1
                bids Hbad) as [e ->]. by exists e.
  - destruct (Binary.depth_rows ds _ data "B" 1 bids) as [bid_rows|e];
      [|by exists e]. cbn [bind].
    destruct (depth_rows_need_storable ds
                (default (PDatetime now) (data !! "timestamp")) data "S" 1
                asks Hbad) as [e ->]. by exists e.
Qed.

Lemma faulty_level_voids_depth_update_witness :
  let data : gmap string pyval :=
    <["asks" := PList []]>
    (<["bids" := PList [price_level 1950 5;
                        PDict {[ "size" := PInt 3 ]}]]>
     {[ "symbol" := PStr "GCQ5" ]}) in
  Binary.store_depth_data (fun _ => false) 0 idle_collector data
  = Binary.emit idle_collector (Logged ERROR "Failed to store depth data").
Proof.
  intros data.
  apply (faulty_level_voids_depth_update (fun _ => false) 0 idle_collector
           data [price_level 1950 5; PDict {[ "size" := PInt 3 ]}] []).
  - exists (PStr "GCQ5"). by vm_compute.
  - by vm_compute.
  - by vm_compute.
  - apply Exists_cons_tl, Exists_cons_hd.
    intros (price & size & Hp & _). vm_compute in Hp. discriminate.
Defined.

(** ** The binary collector after the connection is lost *)

Lemma process_messages_closed ds now fuel self p :
  Binary.connected p = false ->
  (Binary.process_messages ds now fuel self p).1 = Binary.with_protocol self p.
Proof.
  intros Hc. destruct fuel; cbn [Binary.process_messages]; [done|].
  by rewrite Hc, andb_false_r.
Qed.

Lemma check_new_subscriptions_closed self p :
  Binary.protocol self = Some p ->
  Binary.connected p = false ->
  let self' := Binary.check_new_subscriptions self in
  Binary.protocol self' = Some p
  /\ Binary.db_conn self' = Binary.db_conn self.
Proof.
  intros Hp Hc. unfold Binary.check_new_subscriptions.
  destruct (Binary.redis_queue self) as [|[| |symbol requested] rest];
    cbv zeta; try done.
  case_bool_decide; [done|].
  cbn [Binary.protocol Binary.emit Binary.with_symbols Binary.with_queue].
  by rewrite Hp, Hc.
Qed.

Lemma binary_step_closed ds now o self p :
  Binary.protocol self = Some p ->
  Binary.connected p = false ->
  after_startup o ->
  Binary.protocol (binary_step ds now o self) = Some p
  /\ Binary.db_conn (binary_step ds now o self) = Binary.db_conn self.
Proof.
  intros Hp Hc Ho. destruct o as [| m | fuel | env]; cbn [binary_step].
  - by apply check_new_subscriptions_closed.
  - done.
  - rewrite Hp, (process_messages_closed ds now fuel self p Hc). done.
  - destruct Ho.
Qed.

Lemma process_messages_after_reset ds now fuel self q :
  Binary.protocol self = Some q ->
  Binary.connected q = true ->
  exception_set (Binary.reader q) = true ->
  Binary.process_messages ds now (S fuel) self q = (self, Binary.Returned).
Proof.
  intros Hp Hc Hx. apply exception_set_spec in Hx.
  assert (Binary.with_protocol self q = self) as Hself.
  { unfold Binary.with_protocol. rewrite <- Hp. by destruct self. }
  cbn [Binary.process_messages].
  destruct (Binary.running self && Binary.connected q); [|by rewrite Hself].
  by rewrite (receive_message_after_reset q Hc Hx), Hself.
Qed.

(** X11. The binary collector never reconnects, and only a connection it
    has marked closed stops it from writing.  Once the protocol object is
    marked closed, by the end of the stream or by [disconnect], no later
    poll of the queue and no later turn of the read loop changes it: the
    connection stays closed, nothing more is handed to the writer and
    nothing more is stored.  A failure of the transport is no such end:
    the read loop returns, and returns at once whenever it is entered
    again, but the connection stays marked open, so that a poll that
    finds a request for a new symbol still hands the subscribe frame to
    the writer of the lost connection. *)
Theorem closed_connection_is_never_reopened ds now ops self p failed q
    symbol requested rest :
  Binary.protocol self = Some p ->
  Binary.connected p = false ->
  Forall after_startup ops ->
  Binary.protocol failed = Some q ->
  Binary.connected q = true ->
  exception_set (Binary.reader q) = true ->
  Binary.redis_queue failed = MsgRequest symbol requested :: rest ->
  symbol ∉ Binary.symbols failed ->
  packable symbol ->
  (let final := binary_run ds now ops self in
   Binary.protocol final = Some p
   /\ written final = Binary.writer p
   /\ Binary.db_conn final = Binary.db_conn self)
  /\ (forall fuel,
        Binary.process_messages ds now (S fuel) failed q
        = (failed, Binary.Returned))
  /\ written (Binary.check_new_subscriptions failed)
     = Binary.writer q ++ frame_layout 100 (subscribe_bytes symbol).
Proof.
  intros Hp Hc Hops Hq Hqc Hx Hqueue Hnew Hpack. split; [|split].
  - cbv zeta. unfold written, binary_run.
    clear Hq Hqueue Hnew. revert self Hp.
    induction Hops as [|o ops Ho Hops IH]; intros self Hp; cbn [foldl].
    + by rewrite Hp.
    + destruct (binary_step_closed ds now o self p Hp Hc Ho) as [Hp' Hdb].
      destruct (IH _ Hp') as (H1 & H2 & H3).
      split; [exact H1|]. split; [exact H2|]. by rewrite H3.
  - intros fuel. by apply process_messages_after_reset.
  - destruct (binary_first_request failed symbol requested rest q
                Hqueue Hnew Hq) as (_ & Hw & _).
    by apply Hw.
Qed.

Lemma closed_connection_is_never_reopened_witness :
  let p := Binary.disconnect (connected_to [x00; x00; x00; x02; x00; x66]) in
  let self := Binary.with_protocol idle_collector p in
  let ops :=
    [BPublish (MsgRequest "NQU5" (Some "CME")); BPoll; BReadLoop 3; BPoll] in
  let q :=
    (Binary.receive_message
       {| Binary.connected := true;
          Binary.reader := {| buffer := [x00; x00; x00]; incoming := [];
                              reset := true |};
          Binary.writer := [] |}).2 in
  let failed :=
    Binary.with_queue (Binary.with_protocol idle_collector q)
      [MsgRequest "NQU5" (Some "CME")] in
  (let final := binary_run (fun _ => false) 0 ops self in
   Binary.protocol final = Some p
   /\ written final = Binary.writer p
   /\ Binary.db_conn final = Binary.db_conn self)
  /\ (forall fuel,
        Binary.process_messages (fun _ => false) 0 (S fuel) failed q
        = (failed, Binary.Returned))
  /\ written (Binary.check_new_subscriptions failed)
     = Binary.writer q ++ frame_layout 100 (subscribe_bytes "NQU5").
Proof.
  intros p self ops q failed.
  apply (closed_connection_is_never_reopened (fun _ => false) 0 ops self p
           failed q "NQU5" (Some "CME") []).
  - reflexivity.
  - reflexivity.
  - repeat constructor.
  - reflexivity.
  - reflexivity.
  - reflexivity.
  - reflexivity.
  - apply not_elem_of_nil.
  - unfold packable. cbn. lia.
Defined.

(** ** The subscription checker of the binary collector *)

Lemma check_new_subscriptions_pops self :
  Binary.redis_queue (Binary.check_new_subscriptions self)
  = drop 1 (Binary.redis_queue self)
  /\ Binary.running (Binary.check_new_subscriptions self)
     = Binary.running self
  /\ sleeps (Binary.trace (Binary.check_new_subscriptions self))
     = sleeps (Binary.trace self).
Proof.
  assert (forall tr l text,
            sleeps (tr ++ [Logged l text]) = sleeps tr) as Hlog.
  { intros tr l text. by rewrite sleeps_app, app_nil_r. }
  unfold Binary.check_new_subscriptions.
  destruct (Binary.redis_queue self) as [|[| |symbol requested] rest] eqn:Hq;
    cbn [drop].
  - by rewrite Hq.
  - done.
  - cbn [Binary.redis_queue Binary.running Binary.trace Binary.emit
         Binary.with_queue].
    by rewrite Hlog.
  - case_bool_decide; [done|].
    cbn [Binary.protocol Binary.emit Binary.with_symbols Binary.with_queue].
    destruct (Binary.protocol self) as [p|].
    2: { cbn [Binary.redis_queue Binary.running Binary.trace Binary.emit
              Binary.with_symbols Binary.with_queue].
         by rewrite Hlog. }
    destruct (Binary.connected p).
    2: { cbn [Binary.redis_queue Binary.running Binary.trace Binary.emit
              Binary.with_symbols Binary.with_queue].
         by rewrite Hlog. }
    unfold Binary.subscribe_symbol.
    cbn [Binary.emit Binary.db_conn Binary.redis_queue Binary.protocol
         Binary.running Binary.symbols Binary.trace].
    destruct (Binary.subscribe_payload _ _) as [payload|e].
    + destruct (Binary.send_message p 100 payload) as [p' ok].
      cbn [Binary.redis_queue Binary.running Binary.trace Binary.emit
           Binary.with_symbols Binary.with_queue Binary.with_protocol].
      by rewrite !Hlog.
    + cbn [Binary.redis_queue Binary.running Binary.trace Binary.emit
           Binary.with_symbols Binary.with_queue].
      by rewrite !Hlog.
Qed.

(** X12. The subscription checker takes the requests one at a time, in
    the order they were queued.  While the collector runs, [n] rounds of
    the checker take the first [n] entries off the queue, well-formed or
    not, and sleep five seconds after each; the checker has no exit of
    its own, since nothing it calls clears [running]. *)
Theorem subscription_checker_polls_in_order n self :
  Binary.running self = true ->
  let result := Binary.subscription_checker n self in
  result.2 = Binary.OutOfFuel
  /\ Binary.redis_queue result.1 = drop n (Binary.redis_queue self)
  /\ sleeps (Binary.trace result.1)
     = sleeps (Binary.trace self) ++ repeat 5 n.
Proof.
  cbv zeta. revert self.
  induction n as [|n IH]; intros self Hr; cbn [Binary.subscription_checker].
  - cbn [fst snd drop repeat]. by rewrite app_nil_r.
  - rewrite Hr.
    destruct (check_new_subscriptions_pops self) as (Hq & Hrun & Hs).
    set (self1 := Binary.emit (Binary.check_new_subscriptions self) (Sleep 5)).
    destruct (IH self1) as (He & Hq' & Hs').
    { unfold self1. cbn [Binary.running Binary.emit]. congruence. }
    split; [exact He|]. split.
    + rewrite Hq'. unfold self1. cbn [Binary.redis_queue Binary.emit].
      rewrite Hq. by rewrite drop_drop.
    + rewrite Hs'. unfold self1. cbn [Binary.trace Binary.emit].
      rewrite sleeps_app, Hs. cbn [repeat].
      by rewrite <- app_assoc.
Qed.

Lemma subscription_checker_polls_in_order_witness :
  let self :=
    Binary.with_queue idle_collector
      [MsgMalformed; MsgRequest "NQU5" (Some "CME"); MsgEmpty;
       MsgRequest "CLV5" None] in
  let result := Binary.subscription_checker 3 self in
  result.2 = Binary.OutOfFuel
  /\ Binary.redis_queue result.1 = drop 3 (Binary.redis_queue self)
  /\ sleeps (Binary.trace result.1)
     = sleeps (Binary.trace self) ++ repeat 5 3.
Proof.
  intros self. apply (subscription_checker_polls_in_order 3 self).
  reflexivity.
Defined.

(** ** Start-up of the binary collector *)

Lemma subscribe_symbol_frame self p symbol :
  Binary.connected p = true ->
  packable symbol ->
  exists self' p',
    Binary.subscribe_symbol self p symbol = (self', None)
    /\ Binary.protocol self' = Some p'
    /\ Binary.connected p' = true
    /\ Binary.writer p'
       = Binary.writer p ++ frame_layout 100 (subscribe_bytes symbol).
Proof.
  intros Hc Hs. unfold Binary.subscribe_symbol.
  destruct (subscribe_payload_ok symbol Hs) as [-> Hl].
  rewrite (send_message_frame p 100 (subscribe_bytes symbol) Hc
             ltac:(lia) Hl).
  by eexists _, _.
Qed.

Lemma subscribe_each_frames todo : forall self p,
  Binary.protocol self = Some p ->
  Binary.connected p = true ->
  Forall packable todo ->
  exists self' p',
    Binary.subscribe_each self todo = (self', None)
    /\ Binary.protocol self' = Some p'
    /\ Binary.connected p' = true
    /\ Binary.writer p' = Binary.writer p ++ subscribe_frames todo.
Proof.
  induction todo as [|symbol rest IH]; intros self p Hp Hc Hok;
    cbn [Binary.subscribe_each].
  - exists self, p. unfold subscribe_frames. cbn. by rewrite app_nil_r.
  - apply Forall_cons in Hok as [Hs Hok]. rewrite Hp.
    destruct (subscribe_symbol_frame self p symbol Hc Hs)
      as (self1 & p1 & -> & Hp1 & Hc1 & Hw1).
    destruct (IH self1 p1 Hp1 Hc1 Hok) as (self2 & p2 & -> & Hp2 & Hc2 & Hw2).
    exists self2, p2. repeat split; [done..|].
    rewrite Hw2, Hw1. unfold subscribe_frames. cbn [map concat].
    by rewrite <- app_assoc.
Qed.

(** X13. A successful start-up subscribes to every configured symbol, in
    order.  When the database and the queue answer and one of the five
    attempts to connect succeeds, [run] writes upstream exactly the
    subscribe frames of the symbols of [self.symbols], one after the
    other in list order with nothing before or between them, each naming
    the exchange the resolver gives for its symbol, and goes on to start
    its two tasks. *)
Theorem startup_subscribes_configured_symbols env self k :
  Binary.database_up env = true ->
  Binary.redis_up env = true ->
  (k < 5)%nat ->
  Binary.connect_ok env k = true ->
  (forall j, (j < k)%nat -> Binary.connect_ok env j = false) ->
  Forall packable (Binary.symbols self) ->
  (Binary.run env self).2 = Binary.Started
  /\ written (Binary.run env self).1 = subscribe_frames (Binary.symbols self).
Proof.
  intros Hdb Hredis Hk Hok Hfail Hsym.
  rewrite (run_first_success_eq env self k Hdb Hredis Hk Hok Hfail).
  cbv zeta.
  match goal with
  | |- context [Binary.subscribe_each ?s ?l] =>
    destruct (subscribe_each_frames l s
                {| Binary.connected := true;
                   Binary.reader := Binary.upstream env;
                   Binary.writer := [] |} eq_refl eq_refl Hsym)
      as (self' & p' & -> & Hp & _ & Hw)
  end.
  split; [done|]. unfold written. cbn [fst Binary.protocol Binary.emit].
  by rewrite Hp, Hw.
Qed.

Lemma startup_subscribes_configured_symbols_witness :
  let env := {| Binary.database_up := true; Binary.redis_up := true;
                Binary.connect_ok := fun k => (1 <=? k)%nat;
                Binary.upstream := {| buffer := []; incoming := [];
                                      reset := false |} |} in
  let self := Binary.with_symbols idle_collector ["GCQ5"; "ESU5"; "GCQ5"] in
  (Binary.run env self).2 = Binary.Started
  /\ written (Binary.run env self).1 = subscribe_frames (Binary.symbols self).
Proof.
  intros env self.
  apply (startup_subscribes_configured_symbols env self 1).
  - reflexivity.
  - reflexivity.
  - lia.
  - reflexivity.
  - intros j Hj. by replace j with 0%nat by lia.
  - repeat constructor; unfold packable; cbn; lia.
Defined.

(** X14. The binary collector contacts the upstream only when both stores
    answer.  [run] tries the database first and the queue second; if
    either does not answer it returns at once: no attempt to connect is
    made, no protocol object is created, nothing is written, and the
    symbols, the queue and the tables are as they were. *)
Theorem startup_stops_at_first_unavailable_store env self :
  Binary.database_up env && Binary.redis_up env = false ->
  (Binary.run env self).2
  = (if Binary.database_up env then Binary.RedisUnavailable
     else Binary.DatabaseUnavailable)
  /\ attempts (Binary.trace (Binary.run env self).1)
     = attempts (Binary.trace self)
  /\ Binary.protocol (Binary.run env self).1 = Binary.protocol self
  /\ Binary.symbols (Binary.run env self).1 = Binary.symbols self
  /\ Binary.redis_queue (Binary.run env self).1 = Binary.redis_queue self
  /\ Binary.db_conn (Binary.run env self).1 = Binary.db_conn self.
Proof.
  assert (forall tr l text,
            attempts (tr ++ [Logged l text]) = attempts tr) as Hlog.
  { intros tr l text. by rewrite attempts_app, app_nil_r. }
  intros H. unfold Binary.run.
  destruct (Binary.database_up env); cbn [negb].
  - cbn [andb] in H. rewrite H. cbn [negb fst snd].
    cbn [Binary.trace Binary.emit Binary.protocol Binary.symbols
         Binary.redis_queue Binary.db_conn].
    by rewrite !Hlog.
  - cbn [fst snd Binary.trace Binary.emit Binary.protocol Binary.symbols
         Binary.redis_queue Binary.db_conn].
    by rewrite !Hlog.
Qed.

Lemma startup_stops_at_first_unavailable_store_witness :
  let env := {| Binary.database_up := true; Binary.redis_up := false;
                Binary.connect_ok := fun _ => true;
                Binary.upstream := {| buffer := []; incoming := [];
                                      reset := false |} |} in
  let self := Binary.with_symbols idle_collector ["GCQ5"] in
  (Binary.run env self).2
  = (if Binary.database_up env then Binary.RedisUnavailable
     else Binary.DatabaseUnavailable)
  /\ attempts (Binary.trace (Binary.run env self).1)
     = attempts (Binary.trace self)
  /\ Binary.protocol (Binary.run env self).1 = Binary.protocol self
  /\ Binary.symbols (Binary.run env self).1 = Binary.symbols self
  /\ Binary.redis_queue (Binary.run env self).1 = Binary.redis_queue self
  /\ Binary.db_conn (Binary.run env self).1 = Binary.db_conn self.
Proof.
  intros env self.
  apply (startup_stops_at_first_unavailable_store env self). reflexivity.
Defined.

(** ** [str.strip] *)

Ltac char_bytes :=
  cbn [length take rev app map]; rewrite ?take_0; cbn [length rev app map].

(** The test at the head reads the bytes of one character only. *)
Lemma space_at_head_take (bs : list byte) n :
  PyStr.space_at_head (map Z_of_byte bs) = S n ->
  (S n <= length bs)%nat
  /\ forall rest,
       PyStr.space_at_head (map Z_of_byte (take (S n) bs) ++ rest) = S n.
Proof.
  unfold PyStr.space_at_head at 1.
  destruct bs as [|x0 t0]; cbn [map]; [done|].
  destruct (_ || _) eqn:E0.
  { intros [= <-]. char_bytes. split; [lia|].
    intros rest. unfold PyStr.space_at_head. cbn [app]. by rewrite E0. }
  destruct t0 as [|x1 t1]; cbn [map]; [done|].
  destruct ((_ =? 194) && _) eqn:E1.
  { intros [= <-]. char_bytes. split; [lia|].
    intros rest. unfold PyStr.space_at_head. cbn [app]. by rewrite E0, E1. }
  destruct t1 as [|x2 t2]; cbn [map]; [done|].
  destruct (PyStr.wide_space _ _ _) eqn:E2; [|done]. intros [= <-].
  char_bytes. split; [lia|]. intros rest.
  unfold PyStr.space_at_head. cbn [app]. by rewrite E0, E1, E2.
Qed.

(** What the test at the tail finds is a white-space character: the last
    bytes of the string, as many as the test says, pass the test at the
    head. *)
Lemma space_at_tail_char (rbs : list byte) n :
  PyStr.space_at_tail (map Z_of_byte rbs) = S n ->
  (S n <= length rbs)%nat
  /\ forall rest,
       PyStr.space_at_head (map Z_of_byte (rev (take (S n) rbs)) ++ rest)
       = S n.
Proof.
  unfold PyStr.space_at_tail.
  destruct rbs as [|x0 t0]; cbn [map]; [done|].
  destruct (_ || _) eqn:E0.
  { intros [= <-]. char_bytes. split; [lia|].
    intros rest. unfold PyStr.space_at_head. cbn [app]. by rewrite E0. }
  destruct t0 as [|x1 t1]; cbn [map]; [done|].
  destruct ((_ =? 194) && _) eqn:E1.
  { intros [= <-]. char_bytes. split; [lia|].
    intros rest. unfold PyStr.space_at_head. cbn [app].
    apply andb_true_iff in E1 as [Hb1 Hb0]. apply Z.eqb_eq in Hb1.
    rewrite Hb1, Hb0. reflexivity. }
  destruct t1 as [|x2 t2]; cbn [map]; [done|].
  destruct (PyStr.wide_space _ _ _) eqn:E2; [|done]. intros [= <-].
  char_bytes. split; [lia|]. intros rest.
  unfold PyStr.space_at_head. cbn [app]. rewrite E2.
  assert (Z_of_byte x2 = 225 \/ Z_of_byte x2 = 226 \/ Z_of_byte x2 = 227)
    as Hlead.
  { unfold PyStr.wide_space in E2.
    destruct (Z.eqb_spec (Z_of_byte x2) 225); [by left|].
    destruct (Z.eqb_spec (Z_of_byte x2) 226); [by right; left|].
    destruct (Z.eqb_spec (Z_of_byte x2) 227); [by right; right|].
    done. }
  by destruct Hlead as [-> | [-> | ->]].
Qed.

Lemma blank_app a b : blank a -> blank b -> blank (a ++ b).
Proof.
  induction 1 as [|n bs Hn Hrest IH]; intros Hb; [done|].
  destruct (space_at_head_take bs n Hn) as [Hlen Hchar].
  apply (blank_cons n).
  - rewrite <- (take_drop (S n) bs), <- app_assoc, map_app. apply Hchar.
  - rewrite drop_app_le by lia. by apply IH.
Qed.

(** One white-space character is [blank]. *)
Lemma blank_char (c : list byte) n :
  length c = S n ->
  PyStr.space_at_head (map Z_of_byte c) = S n ->
  blank c.
Proof.
  intros Hl Hc. apply (blank_cons n); [done|].
  rewrite drop_ge by lia. constructor.
Qed.

Lemma strip_with_head fuel : forall bs,
  exists k,
    PyStr.strip_with PyStr.space_at_head fuel bs = drop k bs
    /\ (k <= length bs)%nat
    /\ blank (take k bs)
    /\ ((length bs <= fuel)%nat ->
        PyStr.space_at_head (map Z_of_byte (drop k bs)) = 0%nat).
Proof.
  induction fuel as [|fuel IH]; intros bs; cbn [PyStr.strip_with].
  { exists 0%nat. rewrite drop_0, take_0.
    split; [done|]. split; [lia|]. split; [constructor|].
    intros Hl. destruct bs; [done|cbn in Hl; lia]. }
  destruct (PyStr.space_at_head (map Z_of_byte bs)) as [|n] eqn:E.
  { exists 0%nat. rewrite drop_0, take_0.
    split; [done|]. split; [lia|]. split; [constructor|done]. }
  destruct (space_at_head_take bs n E) as [Hlen Hchar].
  destruct (IH (drop (S n) bs)) as (k & -> & Hk & Hb & Hz).
  rewrite length_drop in Hk.
  exists (S n + k)%nat. rewrite drop_drop. split; [done|]. split; [lia|].
  split.
  - rewrite <- take_take_drop.
    apply blank_app; [|exact Hb].
    apply (blank_char _ n); [rewrite length_take; lia|].
    specialize (Hchar []). by rewrite app_nil_r in Hchar.
  - intros Hl. rewrite <- drop_drop. apply Hz. rewrite length_drop. lia.
Qed.

Lemma strip_with_tail fuel : forall rbs,
  exists k,
    PyStr.strip_with PyStr.space_at_tail fuel rbs = drop k rbs
    /\ (k <= length rbs)%nat
    /\ blank (rev (take k rbs))
    /\ ((length rbs <= fuel)%nat ->
        PyStr.space_at_tail (map Z_of_byte (drop k rbs)) = 0%nat).
Proof.
  induction fuel as [|fuel IH]; intros rbs; cbn [PyStr.strip_with].
  { exists 0%nat. rewrite drop_0, take_0.
    split; [done|]. split; [lia|]. split; [constructor|].
    intros Hl. destruct rbs; [done|cbn in Hl; lia]. }
  destruct (PyStr.space_at_tail (map Z_of_byte rbs)) as [|n] eqn:E.
  { exists 0%nat. rewrite drop_0, take_0.
    split; [done|]. split; [lia|]. split; [constructor|done]. }
  destruct (space_at_tail_char rbs n E) as [Hlen Hchar].
  destruct (IH (drop (S n) rbs)) as (k & -> & Hk & Hb & Hz).
  rewrite length_drop in Hk.
  exists (S n + k)%nat. rewrite drop_drop. split; [done|]. split; [lia|].
  split.
  - rewrite <- take_take_drop.
    rewrite rev_app_distr. apply blank_app; [exact Hb|].
    apply (blank_char _ n); [rewrite length_rev, length_take; lia|].
    specialize (Hchar []). by rewrite app_nil_r in Hchar.
  - intros Hl. rewrite <- drop_drop. apply Hz. rewrite length_drop. lia.
Qed.

(** [strip] removes white space and nothing else: the string is a run of
    white-space characters, the result, and another such run, and the
    result neither begins nor ends with a white-space character. *)
Lemma strip_spec (s : string) :
  exists l r,
    list_byte_of_string s = l ++ list_byte_of_string (PyStr.strip s) ++ r
    /\ blank l /\ blank r
    /\ PyStr.space_at_head (PyStr.codes (PyStr.strip s)) = 0%nat
    /\ PyStr.space_at_tail (rev (PyStr.codes (PyStr.strip s))) = 0%nat.
Proof.
  unfold PyStr.strip, PyStr.codes. cbv zeta.
  set (bs := list_byte_of_string s).
  destruct (strip_with_head (length bs) bs) as (k & -> & Hk & Hl & Hz).
  specialize (Hz (Nat.le_refl _)).
  set (m := drop k bs) in *.
  destruct (strip_with_tail (length m) (rev m)) as (j & -> & Hj & Hr & Hy).
  rewrite length_rev in Hj, Hy. specialize (Hy (Nat.le_refl _)).
  rewrite list_byte_of_string_of_list_byte.
  exists (take k bs), (rev (take j (rev m))).
  split; [|split; [exact Hl|split; [exact Hr|split]]].
  - rewrite <- rev_app_distr, take_drop, rev_involutive.
    unfold m. by rewrite take_drop.
  - destruct (PyStr.space_at_head (map Z_of_byte (rev (drop j (rev m)))))
      as [|n] eqn:E; [done|].
    destruct (space_at_head_take _ n E) as [_ Hchar].
    specialize (Hchar (map Z_of_byte (drop (S n) (rev (drop j (rev m)))
                                      ++ rev (take j (rev m))))).
    rewrite <- map_app, app_assoc, take_drop in Hchar.
    rewrite <- rev_app_distr, take_drop, rev_involutive in Hchar.
    congruence.
  - rewrite <- map_rev, rev_involutive. exact Hy.
Qed.

(** A blank as the third byte from the end leaves the last two bytes
    alone, and white space of two and three bytes is removed at both ends
    (U+2003, then [a], a blank and the three bytes of U+20AC, then U+00A0
    and a newline). *)
Lemma strip_examples :
  PyStr.strip "a bc" = "a bc"
  /\ PyStr.strip " {a: 1} " = "{a: 1}"
  /\ PyStr.split newline (PyStr.strip ("[1,2 ]]" +:+ String newline ""))
     = ["[1,2 ]]"]
  /\ PyStr.strip
       (string_of_list_byte
          [xe2; x80; x83; x61; x20; xe2; x82; xac; xc2; xa0; x0a])
     = string_of_list_byte [x61; x20; xe2; x82; xac].
Proof. repeat split; by vm_compute. Qed.

(** ** The listener of the plug-in client *)

Section Listener.
Context {S : Type}.
Variable json_loads : string -> option pyval.

Lemma untouched_refl (a : RTrader.RTraderProPlugin S) : untouched a a.
Proof. by repeat split. Qed.

Lemma untouched_trans (a b c : RTrader.RTraderProPlugin S) :
  untouched a b -> untouched b c -> untouched a c.
Proof.
  intros (?&?&?&?&?) (?&?&?&?&?). repeat split; congruence.
Qed.

Lemma untouched_emit (a : RTrader.RTraderProPlugin S) e :
  untouched a (RTrader.emit a e).
Proof. by repeat split. Qed.

Lemma process_message_untouched (self self' : RTrader.RTraderProPlugin S)
    st st' message :
  RTrader._process_message self st message = Ok (self', st') ->
  untouched self self'.
Proof.
  unfold RTrader._process_message. destruct message; try discriminate.
  repeat match goal with
         | |- context [if ?c then _ else _] => destruct c
         end;
    intros [= <- <-]; by repeat split.
Qed.

Lemma each_line_untouched messages :
  forall (self : RTrader.RTraderProPlugin S) st,
    untouched self (RTrader.each_line json_loads self st messages).1.1.
Proof.
  induction messages as [|msg_str rest IH]; intros self st; simpl.
  - apply untouched_refl.
  - destruct (String.eqb msg_str EmptyString); [apply IH|].
    destruct (json_loads msg_str) as [message|].
    + destruct (RTrader._process_message _ st message)
        as [[self' st']|e] eqn:E.
      * apply process_message_untouched in E.
        eapply untouched_trans; [|apply IH].
        eapply untouched_trans; [|exact E]. apply untouched_emit.
      * simpl. apply untouched_emit.
    + eapply untouched_trans; [|apply IH].
      eapply untouched_trans; apply untouched_emit.
Qed.

Lemma listen_once_untouched r (self : RTrader.RTraderProPlugin S) st :
  untouched self (RTrader.listen_once json_loads r self st).1.1.
Proof.
  destruct r as [data| |]; simpl;
    [|apply untouched_refl|apply untouched_emit].
  destruct data as [|b data]; [apply untouched_refl|].
  destruct (PyStr.decode (b :: data)) as [text|e];
    [|apply untouched_emit].
  pose proof (each_line_untouched
                (PyStr.split newline (PyStr.strip text)) self st) as H.
  destruct (RTrader.each_line _ _ _ _) as [[self' st'] [e|]]; simpl in *.
  - eapply untouched_trans; [exact H|apply untouched_emit].
  - exact H.
Qed.

Lemma listen_loop_ends todo : forall (self : RTrader.RTraderProPlugin S) st,
  let result := RTrader.listen_loop json_loads todo self st in
  RTrader.connected result.1 = false
  /\ last (RTrader.trace result.1)
     = Some (Logged INFO "R|Trader Pro listener stopped")
  /\ RTrader.running result.1 = RTrader.running self
  /\ RTrader.callbacks result.1 = RTrader.callbacks self
  /\ RTrader.sent result.1 = RTrader.sent self.
Proof.
  assert (forall c : RTrader.RTraderProPlugin S,
            last (RTrader.trace (RTrader.stop_listening c))
            = Some (Logged INFO "R|Trader Pro listener stopped")) as Hlast.
  { intros c. simpl. apply last_snoc. }
  induction todo as [|r rest IH]; intros self st; simpl.
  - destruct (_ && _); simpl; rewrite last_snoc; by repeat split.
  - destruct (_ && _); [|simpl; rewrite last_snoc; by repeat split].
    pose proof (listen_once_untouched r (RTrader.with_socket self rest) st)
      as (Hc & Hr & Hcb & Hs & _).
    destruct (RTrader.listen_once _ _ _ _) as [[self' st'] [|]];
      simpl in Hc, Hr, Hcb, Hs.
    + destruct (IH self' st') as (H1 & H2 & H3 & H4 & H5).
      repeat split; [done..| | |]; congruence.
    + simpl. rewrite last_snoc. by repeat split.
Qed.

Lemma process_message_without_callbacks
    (self self' : RTrader.RTraderProPlugin S) st st' message :
  RTrader.callbacks self = ∅ ->
  RTrader._process_message self st message = Ok (self', st') ->
  st' = st.
Proof.
  intros Hcb. unfold RTrader._process_message, RTrader.call.
  destruct message; try discriminate. rewrite Hcb, !lookup_empty.
  repeat match goal with
         | |- context [if ?c then _ else _] => destruct c
         end;
    by intros [= <- <-].
Qed.

Lemma each_line_without_callbacks messages :
  forall (self : RTrader.RTraderProPlugin S) st,
    RTrader.callbacks self = ∅ ->
    (RTrader.each_line json_loads self st messages).1.2 = st.
Proof.
  induction messages as [|msg_str rest IH]; intros self st Hcb; simpl;
    [done|].
  destruct (String.eqb msg_str EmptyString); [by apply IH|].
  destruct (json_loads msg_str) as [message|].
  - destruct (RTrader._process_message _ st message)
      as [[self' st']|e] eqn:E; [|done].
    pose proof (process_message_untouched _ _ _ _ _ E) as (_ & _ & Hcb' & _).
    apply process_message_without_callbacks in E; [|done]. subst st'.
    apply IH. by rewrite Hcb'.
  - by apply IH.
Qed.

Lemma listen_once_without_callbacks r (self : RTrader.RTraderProPlugin S) st :
  RTrader.callbacks self = ∅ ->
  (RTrader.listen_once json_loads r self st).1.2 = st.
Proof.
  intros Hcb. destruct r as [data| |]; simpl; [|done..].
  destruct data as [|b data]; [done|].
  destruct (PyStr.decode (b :: data)) as [text|e]; [|done].
  pose proof (each_line_without_callbacks
                (PyStr.split newline (PyStr.strip text)) self st Hcb) as H.
  by destruct (RTrader.each_line _ _ _ _) as [[self' st'] [e|]].
Qed.

Lemma listen_loop_without_callbacks todo :
  forall (self : RTrader.RTraderProPlugin S) st,
    RTrader.callbacks self = ∅ ->
    (RTrader.listen_loop json_loads todo self st).2 = st.
Proof.
  induction todo as [|r rest IH]; intros self st Hcb; simpl.
  - by destruct (_ && _).
  - destruct (_ && _); [|done].
    pose proof (listen_once_untouched r (RTrader.with_socket self rest) st)
      as (_ & _ & Hcb' & _).
    pose proof (listen_once_without_callbacks r
                  (RTrader.with_socket self rest) st Hcb) as Hst.
    destruct (RTrader.listen_once _ _ _ _) as [[self' st'] [|]];
      simpl in Hcb', Hst; subst st'; [|done].
    apply IH. by rewrite Hcb'.
Qed.

End Listener.

(** X15. The listener always ends with the client marked disconnected.
    Whatever the socket delivers, [_listen] comes to an end once the peer
    has closed, its last act is to clear [connected] and to log that it
    stopped, and it has neither sent anything, nor changed the registered
    callbacks, nor cleared [running]. *)
Theorem listener_ends_disconnected (S : Type)
    (json_loads : string -> option pyval)
    (self : RTrader.RTraderProPlugin S) (st : S) :
  let result := RTrader._listen json_loads self st in
  RTrader.connected result.1 = false
  /\ last (RTrader.trace result.1)
     = Some (Logged INFO "R|Trader Pro listener stopped")
  /\ RTrader.running result.1 = RTrader.running self
  /\ RTrader.callbacks result.1 = RTrader.callbacks self
  /\ RTrader.sent result.1 = RTrader.sent self.
Proof. apply listen_loop_ends. Qed.

(** X16. What the listener reads before a callback is registered is
    lost.  [connect] starts the listener before the collector registers
    its three callbacks; as long as none is registered, whatever the
    socket delivers, trades, quotes and depth updates included, leaves
    the state the callbacks act on exactly as it was. *)
Theorem data_before_callbacks_is_dropped (S : Type)
    (json_loads : string -> option pyval)
    (self : RTrader.RTraderProPlugin S) (st : S) :
  RTrader.callbacks self = ∅ ->
  (RTrader._listen json_loads self st).2 = st
  /\ (RTrader.listen_turn json_loads self st).2 = st.
Proof.
  intros Hcb. split; [by apply listen_loop_without_callbacks|].
  unfold RTrader.listen_turn.
  destruct (_ && _); [|done].
  destruct (RTrader.socket self) as [|r rest]; [done|].
  pose proof (listen_once_without_callbacks json_loads r
                (RTrader.with_socket self rest) st Hcb) as H.
  by destruct (RTrader.listen_once _ _ _ _) as [[self' st'] [|]].
Qed.

Lemma data_before_callbacks_is_dropped_witness :
  let json_loads := fun s : string =>
    if String.eqb s "T"
    then Some (PDict {[ "type" := PStr "TICK" ]}) else None in
  let self : RTrader.RTraderProPlugin nat :=
    (RTrader.connect (Some [RTrader.RecvData [x54; x0a]]) RTrader.new_plugin).1 in
  (RTrader._listen json_loads self 0%nat).2 = 0%nat
  /\ (RTrader.listen_turn json_loads self 0%nat).2 = 0%nat.
Proof.
  intros json_loads self.
  apply (data_before_callbacks_is_dropped nat json_loads self 0%nat).
  reflexivity.
Defined.

(** X17. Bytes that are not well-formed UTF-8 end the listener.  Each
    result of [recv] is decoded on its own, so a read that ends inside a
    multi-byte character, or holds any other ill-formed sequence, raises
    in [decode]: the listener logs an error and stops, the client is
    marked disconnected, nothing of that read reaches [json.loads] or the
    callbacks, and the reads that follow are never made. *)
Theorem undecodable_chunk_stops_listener (S : Type)
    (json_loads : string -> option pyval)
    (self : RTrader.RTraderProPlugin S) (st : S) data rest :
  RTrader.running self = true ->
  RTrader.connected self = true ->
  RTrader.socket self = RTrader.RecvData data :: rest ->
  PyStr.utf8_valid (map Struct.Z_of_byte data) = false ->
  RTrader._listen json_loads self st
  = (RTrader.stop_listening
       (RTrader.emit (RTrader.with_socket self rest)
          (Logged ERROR "Error in listener")), st).
Proof.
  intros Hr Hc Hs Hv. unfold RTrader._listen. rewrite Hs.
  cbn [RTrader.listen_loop]. rewrite Hr, Hc. cbn [andb].
  unfold RTrader.listen_once, PyStr.decode.
  destruct data as [|b data]; [discriminate|]. by rewrite Hv.
Qed.

Lemma undecodable_chunk_stops_listener_witness :
  let json_loads := fun _ : string => Some (PDict (∅ : gmap string pyval)) in
  let self : RTrader.RTraderProPlugin nat :=
    listening ∅ [RTrader.RecvData [x7b; x7d; x0a; xc3];
                 RTrader.RecvData [xa9; x0a]] in
  RTrader._listen json_loads self 0%nat
  = (RTrader.stop_listening
       (RTrader.emit (RTrader.with_socket self [RTrader.RecvData [xa9; x0a]])
          (Logged ERROR "Error in listener")), 0%nat).
Proof.
  intros json_loads self.
  apply (undecodable_chunk_stops_listener nat json_loads self 0%nat
           [x7b; x7d; x0a; xc3] [RTrader.RecvData [xa9; x0a]]);
    reflexivity.
Defined.

(** X18. A line of valid JSON that is not an object ends the listener.
    Text that [json.loads] rejects is logged and skipped, but a line it
    accepts as an array, a number, a string, a boolean or [null] makes
    [_process_message] raise where only decoding errors are caught: the
    listener logs an error and stops, the client is marked disconnected,
    and neither the lines after it nor the reads after it are
    processed. *)
Theorem non_object_line_stops_listener (S : Type)
    (json_loads : string -> option pyval)
    (self : RTrader.RTraderProPlugin S) (st : S)
    data rest text line lines v :
  RTrader.running self = true ->
  RTrader.connected self = true ->
  RTrader.socket self = RTrader.RecvData data :: rest ->
  PyStr.decode data = Ok text ->
  PyStr.split newline (PyStr.strip text) = line :: lines ->
  line <> EmptyString ->
  json_loads line = Some v ->
  (forall m, v <> PDict m) ->
  RTrader._listen json_loads self st
  = (RTrader.stop_listening
       (RTrader.emit
          (RTrader.emit (RTrader.with_socket self rest) (Decode line))
          (Logged ERROR "Error in listener")), st).
Proof.
  intros Hr Hc Hs Hd Hl Hne Hj Hv. unfold RTrader._listen. rewrite Hs.
  cbn [RTrader.listen_loop]. rewrite Hr, Hc. cbn [andb].
  unfold RTrader.listen_once.
  destruct data as [|b data].
  { exfalso. vm_compute in Hd. apply Ok_inj in Hd. subst text.
    vm_compute in Hl. by injection Hl as <- _. }
  rewrite Hd, Hl. cbn [RTrader.each_line].
  destruct (String.eqb_spec line EmptyString); [done|].
  rewrite Hj.
  destruct v; try reflexivity. by destruct (Hv d).
Qed.

Lemma non_object_line_stops_listener_witness :
  let json_loads := fun s : string =>
    if String.eqb s "[1]" then Some (PList [PInt 1])
    else Some (PDict (∅ : gmap string pyval)) in
  let data := [x5b; x31; x5d; x0a; x7b; x22; x61; x22; x3a; x31; x7d; x0a] in
  let self : RTrader.RTraderProPlugin nat :=
    listening ∅ [RTrader.RecvData data; RTrader.RecvData [x7b; x7d; x0a]] in
  RTrader._listen json_loads self 0%nat
  = (RTrader.stop_listening
       (RTrader.emit
          (RTrader.emit
             (RTrader.with_socket self [RTrader.RecvData [x7b; x7d; x0a]])
             (Decode "[1]"))
          (Logged ERROR "Error in listener")), 0%nat).
Proof.
  intros json_loads data self.
  apply (non_object_line_stops_listener nat json_loads self 0%nat data
           [RTrader.RecvData [x7b; x7d; x0a]]
           (string_of_list_byte data) "[1]"
           [string_of_list_byte [x7b; x22; x61; x22; x3a; x31; x7d]]
           (PList [PInt 1])).
  - reflexivity.
  - reflexivity.
  - reflexivity.
  - reflexivity.
  - by vm_compute.
  - discriminate.
  - reflexivity.
  - discriminate.
Defined.

Section Readable.
Context {S : Type}.
Variable json_loads : string -> option pyval.

Lemma each_line_passable messages :
  forall (self : RTrader.RTraderProPlugin S) st,
    Forall (passable json_loads) messages ->
    exists self' st',
      RTrader.each_line json_loads self st messages = (self', st', None)
      /\ decoder_calls (RTrader.trace self')
         = decoder_calls (RTrader.trace self)
           ++ List.filter (fun s => negb (String.eqb s EmptyString)) messages.
Proof.
  induction messages as [|msg_str rest IH]; intros self st Hall.
  - exists self, st. cbn. by rewrite app_nil_r.
  - apply Forall_cons in Hall as [Hm Hall]. cbn [RTrader.each_line List.filter].
    destruct (String.eqb_spec msg_str EmptyString) as [->|Hne]; cbn [negb].
    { apply IH, Hall. }
    destruct Hm as [->|[Hj|[m Hj]]]; [done| |]; rewrite Hj.
    + destruct (IH (RTrader.emit (RTrader.emit self (Decode msg_str))
                      (Logged ERROR "Invalid JSON message")) st Hall)
        as (self' & st' & -> & E).
      exists self', st'. split; [done|]. rewrite E, !calls_emit.
      cbn [decoder_calls omap]. by rewrite app_nil_r, <- app_assoc.
    + destruct (RTrader._process_message
                  (RTrader.emit self (Decode msg_str)) st (PDict m))
        as [[self1 st1]|e] eqn:Ep.
      2: { unfold RTrader._process_message in Ep.
           repeat match type of Ep with
                  | context [if ?c then _ else _] => destruct c
                  end; discriminate. }
      destruct (IH self1 st1 Hall) as (self' & st' & -> & E).
      exists self', st'. split; [done|].
      rewrite E, (process_message_calls _ _ _ _ _ Ep), calls_emit.
      cbn [decoder_calls omap]. by rewrite <- app_assoc.
Qed.

Lemma listen_loop_readable todo :
  forall (self : RTrader.RTraderProPlugin S) st,
    RTrader.running self = true ->
    RTrader.connected self = true ->
    Forall (readable json_loads) todo ->
    decoder_calls
      (RTrader.trace (RTrader.listen_loop json_loads todo self st).1)
    = decoder_calls (RTrader.trace self)
      ++ concat (map nonempty_lines todo).
Proof.
  induction todo as [|r rest IH]; intros self st Hr Hc Hall;
    cbn [RTrader.listen_loop]; rewrite Hr, Hc; cbn [andb].
  - cbn [fst map concat]. unfold RTrader.stop_listening.
    rewrite calls_emit. cbn [decoder_calls omap RTrader.trace
                             RTrader.set_connected RTrader.with_socket].
    by rewrite !app_nil_r.
  - apply Forall_cons in Hall as [Hrd Hall]. cbn [map concat].
    destruct r as [data| |]; [| |destruct Hrd].
    + destruct Hrd as (Hne & text & Hd & Hlines).
      unfold nonempty_lines at 1, lines_of. rewrite Hd.
      unfold RTrader.listen_once.
      destruct data as [|b data]; [done|]. rewrite Hd.
      destruct (each_line_passable _ (RTrader.with_socket self rest) st
                  Hlines) as (self' & st' & E & Hcalls).
      pose proof (each_line_untouched json_loads
                    (PyStr.split newline (PyStr.strip text))
                    (RTrader.with_socket self rest) st) as Hu.
      rewrite E in *. cbn [fst] in Hu.
      destruct Hu as (Hc' & Hr' & _).
      rewrite IH; [|by rewrite Hr'|by rewrite Hc'|done].
      rewrite Hcalls. cbn [RTrader.trace RTrader.with_socket].
      by rewrite <- app_assoc.
    + cbn [RTrader.listen_once nonempty_lines lines_of List.filter app].
      by rewrite IH.
Qed.

End Readable.

(** X19. Reads that hold whole lines are decoded line by line.  When every
    result of [recv] is a time-out or well-formed text whose lines are
    JSON objects or text [json.loads] rejects, the listener hands to
    [json.loads] the non-empty lines of the first read in order, then
    those of the second, and so on to the last: each line once, none
    skipped, none merged with a line of another read. *)
Theorem readable_chunks_are_decoded_line_by_line (S : Type)
    (json_loads : string -> option pyval)
    (self : RTrader.RTraderProPlugin S) (st : S) :
  RTrader.running self = true ->
  RTrader.connected self = true ->
  Forall (readable json_loads) (RTrader.socket self) ->
  decoder_calls (RTrader.trace (RTrader._listen json_loads self st).1)
  = decoder_calls (RTrader.trace self)
    ++ concat (map nonempty_lines (RTrader.socket self)).
Proof. apply listen_loop_readable. Qed.

Lemma readable_chunks_are_decoded_line_by_line_witness :
  let json_loads := fun s : string =>
    if String.eqb s "{}" then Some (PDict (∅ : gmap string pyval))
    else None in
  let self : RTrader.RTraderProPlugin nat :=
    listening ∅ [RTrader.RecvData [x7b; x7d; x0a; x0a; x78; x79; x7a; x0a];
                 RTrader.RecvTimeout;
                 RTrader.RecvData [x7b; x7d; x0a]] in
  decoder_calls (RTrader.trace (RTrader._listen json_loads self 0%nat).1)
  = decoder_calls (RTrader.trace self)
    ++ concat (map nonempty_lines (RTrader.socket self)).
Proof.
  intros json_loads self.
  apply (readable_chunks_are_decoded_line_by_line nat json_loads self 0%nat).
  - reflexivity.
  - reflexivity.
  - apply Forall_cons. split; [|apply Forall_cons; split; [exact I|]].
    + split; [discriminate|].
      exists (string_of_list_byte [x7b; x7d; x0a; x0a; x78; x79; x7a; x0a]).
      split; [reflexivity|].
      replace (PyStr.split newline
                 (PyStr.strip
                    (string_of_list_byte
                       [x7b; x7d; x0a; x0a; x78; x79; x7a; x0a])))
        with ["{}"; ""; "xyz"] by (by vm_compute).
      apply Forall_cons. split; [right; right; by exists ∅|].
      apply Forall_cons. split; [by left|].
      apply Forall_cons. split; [right; by left|]. apply Forall_nil_2.
    + apply Forall_cons. split; [|apply Forall_nil_2].
      split; [discriminate|].
      exists (string_of_list_byte [x7b; x7d; x0a]).
      split; [reflexivity|].
      replace (PyStr.split newline
                 (PyStr.strip (string_of_list_byte [x7b; x7d; x0a])))
        with ["{}"] by (by vm_compute).
      apply Forall_cons. split; [right; right; by exists ∅|].
      apply Forall_nil_2.
Defined.

(** ** The plug-in collector: dispatch and the level-2 table *)

Lemma connect_rtrader_pro_accepted ds iso now script self :
  RTrader.connect_rtrader_pro ds iso now (Some script) self
  = (RTrader.with_client
       (RTrader.log
          (RTrader.log self (Logged INFO "Connecting to R|Trader Pro at"))
          (Logged INFO "Connected to R|Trader Pro successfully"))
       (registered_client ds iso now script), true).
Proof. reflexivity. Qed.



Lemma level_rows_stamp ds timestamp data side levels : forall level rows,
  RTrader.level_rows ds timestamp data side level levels = Ok rows ->
  Forall (fun r => l_timestamp r = timestamp
                   /\ l_symbol r = default PNone (data !! "symbol")
                   /\ l_exchange r = default (PStr "CME") (data !! "exchange"))
         rows
  /\ length rows = length levels.
Proof.
  induction levels as [|b rest IH]; intros level rows; cbn [RTrader.level_rows].
  - intros <-%Ok_inj. by split.
  - step_binds; try discriminate. intros <-%Ok_inj.
    match goal with
    | H : RTrader.level_rows _ _ _ _ _ rest = Ok _ |- _ =>
      destruct (IH _ _ H) as [Hf Hl]
    end.
    split; [by constructor|]. cbn [length]. by rewrite Hl.
Qed.

(** X21. A depth update of the plug-in collector replaces what is stale
    and keeps the rest.  When the handler commits an update for a symbol
    at an instant [t], the level-2 table afterwards consists of the rows
    it held before, in their order, less those of that symbol older than
    one minute before [t], followed by at most ten bid and ten ask rows
    of the update, each stamped with the symbol and [t].  Every row of
    another symbol survives, and no row of the symbol older than one
    minute before [t] is left. *)
Theorem depth_update_replaces_stale_rows ds iso now data table table'
    symbol t :
  data !! "symbol" = Some (PStr symbol) ->
  RTrader.timestamp_of iso now data = Ok (PDatetime t) ->
  RTrader.level2_transaction ds iso now data table = Ok table' ->
  exists fresh,
    table'
    = filter (fun r => negb (RTrader.stale (Some symbol) (Some (t - 60000)) r))
             table
      ++ fresh
    /\ (length fresh <= 20)%nat
    /\ Forall (fun r => l_symbol r = PStr symbol
                        /\ l_timestamp r = PDatetime t) fresh
    /\ (forall r, r ∈ table -> l_symbol r <> PStr symbol -> r ∈ table')
    /\ (forall r u, r ∈ table' -> l_symbol r = PStr symbol ->
                    l_timestamp r = PDatetime u -> t - 60000 <= u).
Proof.
  intros Hs Ht. unfold RTrader.level2_transaction.
  rewrite Ht, Hs. cbn [bind default from_option id RTrader.symbol_key
                       RTrader.cutoff_of].
  destruct (RTrader.top_levels _) as [bids|e] eqn:Eb; [|discriminate].
  cbn [bind].
  destruct (RTrader.level_rows ds _ data "B" 0 bids) as [bid_rows|e] eqn:Ebr;
    [|discriminate].
  cbn [bind].
  destruct (RTrader.top_levels _) as [asks|e] eqn:Ea in |- *; [|discriminate].
  cbn [bind].
  destruct (RTrader.level_rows ds _ data "S" 0 asks) as [ask_rows|e] eqn:Ear;
    [|discriminate].
  cbn [bind]. intros <-%Ok_inj.
  apply top_levels_at_most_ten in Eb as [Hb _].
  apply top_levels_at_most_ten in Ea as [Ha _].
  apply level_rows_stamp in Ebr as [Hfb Hlb].
  apply level_rows_stamp in Ear as [Hfa Hla].
  rewrite Hs in Hfb, Hfa. cbn [default from_option id] in Hfb, Hfa.
  assert (Forall (fun r => l_symbol r = PStr symbol
                           /\ l_timestamp r = PDatetime t)
                 (bid_rows ++ ask_rows)) as Hfresh.
  { apply Forall_app. split; eapply Forall_impl; eauto;
      by intros r (? & ? & _). }
  exists (bid_rows ++ ask_rows).
  split; [done|]. split; [rewrite length_app; lia|]. split; [done|]. split.
  - intros r Hin Hne. apply elem_of_app. left.
    apply list_elem_of_filter. split; [|done].
    unfold RTrader.stale. destruct (l_symbol r) as [| | | |s| | |]; try done.
    destruct (l_timestamp r); try done.
    destruct (String.eqb_spec symbol s) as [->|]; [done|]. done.
  - intros r u Hin Hsym Hu. apply elem_of_app in Hin as [Hin|Hin].
    + apply list_elem_of_filter in Hin as [Hkeep _].
      unfold RTrader.stale in Hkeep. rewrite Hsym, Hu in Hkeep.
      rewrite String.eqb_refl in Hkeep. cbn [andb] in Hkeep.
      destruct (u <? t - 60000) eqn:E; [done|]. apply Z.ltb_ge in E. lia.
    + rewrite Forall_forall in Hfresh. destruct (Hfresh r Hin) as [_ Hr].
      rewrite Hu in Hr. injection Hr as ->. lia.
Qed.

Lemma depth_update_replaces_stale_rows_witness :
  let old_row (symbol : string) (t : Z) : level2_row :=
    {| l_timestamp := PDatetime t; l_symbol := PStr symbol;
       l_exchange := PStr "CME"; l_side := "B"; l_level := 1;
       l_price := Dec (PInt 1); l_size := PInt 1; l_order_count := None |} in
  let table := [old_row "GCQ5" 1000; old_row "ESU5" 1000;
                old_row "GCQ5" 100000] in
  let data : gmap string pyval :=
    <["timestamp" := PDatetime 120000]>
    (<["bids" := PList [price_level 1950 5]]> {[ "symbol" := PStr "GCQ5" ]}) in
  let table' :=
    [old_row "ESU5" 1000; old_row "GCQ5" 100000;
     {| l_timestamp := PDatetime 120000; l_symbol := PStr "GCQ5";
        l_exchange := PStr "CME"; l_side := "B"; l_level := 1;
        l_price := Dec (PInt 1950); l_size := PInt 5;
        l_order_count := None |}] in
  exists fresh,
    table'
    = filter (fun r => negb (RTrader.stale (Some "GCQ5") (Some (120000 - 60000)) r))
             table
      ++ fresh
    /\ (length fresh <= 20)%nat
    /\ Forall (fun r => l_symbol r = PStr "GCQ5"
                        /\ l_timestamp r = PDatetime 120000) fresh
    /\ (forall r, r ∈ table -> l_symbol r <> PStr "GCQ5" -> r ∈ table')
    /\ (forall r u, r ∈ table' -> l_symbol r = PStr "GCQ5" ->
                    l_timestamp r = PDatetime u -> 120000 - 60000 <= u).
Proof.
  intros old_row table data table'.
  apply (depth_update_replaces_stale_rows (fun _ => false) (fun _ => None) 0
           data table table' "GCQ5" 120000).
  - by vm_compute.
  - by vm_compute.
  - by vm_compute.
Defined.

(** ** Subscription tokens of the plug-in collector *)

Lemma split_without_separator sep s :
  PyStr.contains sep s = false -> PyStr.split sep s = [s].
Proof.
  induction s as [|c s IH]; [done|]. cbn [PyStr.contains PyStr.split].
  rewrite (Ascii.eqb_sym c sep).
  destruct (Ascii.eqb sep c); [done|]. intros H. by rewrite (IH H).
Qed.

Lemma split_at_separator sep a b :
  PyStr.contains sep a = false ->
  PyStr.split sep (a +:+ String sep b) = a :: PyStr.split sep b.
Proof.
  induction a as [|c a IH].
  - intros _. rewrite append_nil_l. cbn [PyStr.split].
    by rewrite Ascii.eqb_refl.
  - cbn [PyStr.contains]. rewrite append_cons. cbn [PyStr.split].
    rewrite (Ascii.eqb_sym c sep).
    destruct (Ascii.eqb sep c); [done|]. intros H. by rewrite (IH H).
Qed.

Lemma contains_append sep a b :
  PyStr.contains sep (a +:+ b) = PyStr.contains sep a || PyStr.contains sep b.
Proof.
  induction a as [|c a IH]; [by rewrite append_nil_l|].
  rewrite append_cons. cbn [PyStr.contains].
  by destruct (Ascii.eqb sep c).
Qed.

Lemma split_nonempty sep s : PyStr.split sep s <> [].
Proof.
  destruct s as [|c s]; [done|]. cbn [PyStr.split].
  destruct (Ascii.eqb c sep); [done|]. by destruct (PyStr.split sep s).
Qed.

Lemma parse_token_plain symbol :
  PyStr.contains colon symbol = false ->
  RTrader.parse_token symbol = Ok (symbol, "CME").
Proof. intros H. unfold RTrader.parse_token. by rewrite H. Qed.

Lemma parse_token_pair sym exchange :
  PyStr.contains colon sym = false ->
  PyStr.contains colon exchange = false ->
  RTrader.parse_token (sym +:+ ":" +:+ exchange) = Ok (sym, exchange).
Proof.
  intros Hs He. unfold RTrader.parse_token.
  rewrite contains_append. change (":" +:+ exchange) with (String colon exchange).
  cbn [PyStr.contains]. rewrite Ascii.eqb_refl, orb_true_r.
  by rewrite (split_at_separator colon sym exchange Hs),
    (split_without_separator colon exchange He).
Qed.

(** X22. A subscription token is read back as it was written.  A token
    without a colon names a symbol on the default exchange [CME]; a token
    [SYMBOL:EXCHANGE] whose two parts hold no colon is split into exactly
    these two parts; a token with a further colon cannot be unpacked and
    raises [ValueError], whatever follows the second colon. *)
Theorem parse_token_round_trip sym exchange :
  PyStr.contains colon sym = false ->
  PyStr.contains colon exchange = false ->
  RTrader.parse_token sym = Ok (sym, "CME")
  /\ RTrader.parse_token (sym +:+ ":" +:+ exchange) = Ok (sym, exchange)
  /\ forall more,
       RTrader.parse_token (sym +:+ ":" +:+ exchange +:+ ":" +:+ more)
       = Raised ValueError.
Proof.
  intros Hs He. split; [by apply parse_token_plain|].
  split; [by apply parse_token_pair|].
  intros more. unfold RTrader.parse_token.
  rewrite contains_append.
  change (":" +:+ exchange +:+ ":" +:+ more)
    with (String colon (exchange +:+ String colon more)).
  cbn [PyStr.contains]. rewrite Ascii.eqb_refl, orb_true_r.
  rewrite (split_at_separator colon sym _ Hs),
    (split_at_separator colon exchange more He).
  pose proof (split_nonempty colon more).
  by destruct (PyStr.split colon more).
Qed.

Lemma parse_token_round_trip_witness :
  RTrader.parse_token "ES" = Ok ("ES", "CME")
  /\ RTrader.parse_token ("ES" +:+ ":" +:+ "CBOT") = Ok ("ES", "CBOT")
  /\ forall more,
       RTrader.parse_token ("ES" +:+ ":" +:+ "CBOT" +:+ ":" +:+ more)
       = Raised ValueError.
Proof.
  apply (parse_token_round_trip "ES" "CBOT"); reflexivity.
Defined.

Lemma append_longer s c t : s +:+ String c t <> s.
Proof.
  induction s as [|a s IH]; [done|]. rewrite append_cons.
  intros H. injection H as H. by apply IH.
Qed.

Lemma subscribe_token_connected self client symbol sym exchange :
  RTrader.parse_token symbol = Ok (sym, exchange) ->
  RTrader.rtrader_client self = Some client ->
  RTrader.connected client = true ->
  exists client',
    RTrader.subscribe_token self symbol
    = (RTrader.log
         (RTrader.add_subscribed (RTrader.with_client self client') symbol)
         (Logged INFO "Subscribed to"), None)
    /\ RTrader.sent client'
       = RTrader.sent client ++ [subscribe_request sym exchange]
    /\ RTrader.connected client' = true.
Proof.
  intros Hp Hc Hconn. unfold RTrader.subscribe_token. rewrite Hp, Hc.
  destruct (plugin_send_connected client sym exchange Hconn)
    as (client' & -> & Hs & Hc').
  by exists client'.
Qed.

(** X23. The start-up loop and the queue track a subscription under
    different keys.  The start-up loop records a configured token as it
    is written, the queue records [symbol:exchange].  So a symbol
    configured without an exchange and later requested through the queue
    on [CME] is not recognised: a second, identical subscribe message is
    sent and the symbol is then tracked under both keys.  A symbol
    configured as [symbol:exchange] is recognised, and the request is
    dropped without a message. *)
Theorem plain_startup_token_is_requested_again self client symbol requested
    rest :
  PyStr.contains colon symbol = false ->
  RTrader.rtrader_client self = Some client ->
  RTrader.connected client = true ->
  RTrader.redis_queue self = MsgRequest symbol requested :: rest ->
  default "CME" requested = "CME" ->
  symbol +:+ ":" +:+ "CME" ∉ RTrader.subscribed_symbols self ->
  (let started := (RTrader.subscribe_token self symbol).1 in
   let polled := RTrader.check_new_subscriptions started in
   sent_by started = RTrader.sent client ++ [subscribe_request symbol "CME"]
   /\ sent_by polled
      = RTrader.sent client
        ++ [subscribe_request symbol "CME"; subscribe_request symbol "CME"]
   /\ RTrader.subscribed_symbols polled
      = {[ symbol +:+ ":" +:+ "CME" ]}
        ∪ ({[ symbol ]} ∪ RTrader.subscribed_symbols self))
  /\ (let started :=
        (RTrader.subscribe_token self (symbol +:+ ":" +:+ "CME")).1 in
      let polled := RTrader.check_new_subscriptions started in
      sent_by started = RTrader.sent client ++ [subscribe_request symbol "CME"]
      /\ polled = RTrader.with_queue started rest).
Proof.
  intros Hplain Hc Hconn Hq Hdef Hfresh. split.
  - destruct (subscribe_token_connected self client symbol symbol "CME"
                (parse_token_plain symbol Hplain) Hc Hconn)
      as (client' & -> & Hs & Hc').
    cbn [fst]. cbv zeta.
    set (started := RTrader.log _ _).
    assert (RTrader.redis_queue started = MsgRequest symbol requested :: rest)
      as Hq' by exact Hq.
    assert (symbol +:+ ":" +:+ default "CME" requested
              ∉ RTrader.subscribed_symbols started) as Hfresh'.
    { rewrite Hdef. unfold started.
      cbn [RTrader.subscribed_symbols RTrader.log RTrader.add_subscribed].
      apply not_elem_of_union. split; [|done].
      apply not_elem_of_singleton. apply append_longer. }
    destruct (plugin_first_request started symbol requested rest client'
                Hq' Hfresh' eq_refl) as [Hyes _].
    destruct (Hyes Hc') as [Hsent Hset]. rewrite Hdef in Hsent, Hset.
    split; [by unfold sent_by; cbn; rewrite Hs|].
    split.
    + rewrite Hsent, Hs. by rewrite <- app_assoc.
    + by rewrite Hset.
  - assert (PyStr.contains colon "CME" = false) as Hcme by done.
    destruct (subscribe_token_connected self client
                (symbol +:+ ":" +:+ "CME") symbol "CME"
                (parse_token_pair symbol "CME" Hplain Hcme) Hc Hconn)
      as (client' & -> & Hs & Hc').
    cbn [fst]. cbv zeta.
    set (started := RTrader.log _ _).
    split; [by unfold sent_by; cbn; rewrite Hs|].
    apply (plugin_tracked_request_is_noop started symbol requested rest).
    + exact Hq.
    + rewrite Hdef. unfold started.
      cbn [RTrader.subscribed_symbols RTrader.log RTrader.add_subscribed].
      apply elem_of_union_l. by apply elem_of_singleton.
Qed.

Lemma plain_startup_token_is_requested_again_witness :
  let client : RTrader.RTraderProPlugin RTrader.Store := listening ∅ [] in
  let self :=
    {| RTrader.store := empty_store;
       RTrader.redis_queue := [MsgRequest "GCQ5" (Some "CME")];
       RTrader.rtrader_client := Some client;
       RTrader.symbols := ["GCQ5"];
       RTrader.subscribed_symbols := ∅ |} in
  (let started := (RTrader.subscribe_token self "GCQ5").1 in
   let polled := RTrader.check_new_subscriptions started in
   sent_by started = RTrader.sent client ++ [subscribe_request "GCQ5" "CME"]
   /\ sent_by polled
      = RTrader.sent client
        ++ [subscribe_request "GCQ5" "CME"; subscribe_request "GCQ5" "CME"]
   /\ RTrader.subscribed_symbols polled
      = {[ "GCQ5" +:+ ":" +:+ "CME" ]}
        ∪ ({[ "GCQ5" ]} ∪ RTrader.subscribed_symbols self))
  /\ (let started :=
        (RTrader.subscribe_token self ("GCQ5" +:+ ":" +:+ "CME")).1 in
      let polled := RTrader.check_new_subscriptions started in
      sent_by started = RTrader.sent client ++ [subscribe_request "GCQ5" "CME"]
      /\ polled = RTrader.with_queue started []).
Proof.
  intros client self.
  apply (plain_startup_token_is_requested_again self client "GCQ5"
           (Some "CME") []).
  - reflexivity.
  - reflexivity.
  - reflexivity.
  - reflexivity.
  - reflexivity.
  - apply not_elem_of_empty.
Defined.

(** ** Start-up and shutdown of the plug-in collector *)

(** What a turn of the listener can change in the client: it never sends,
    never touches the callbacks or [running], and it may clear
    [connected] but never sets it. *)
Lemma listen_turn_effect {S : Type} json_loads
    (client : RTrader.RTraderProPlugin S) (st : S) :
  let client' := (RTrader.listen_turn json_loads client st).1 in
  RTrader.sent client' = RTrader.sent client
  /\ RTrader.running client' = RTrader.running client
  /\ RTrader.callbacks client' = RTrader.callbacks client
  /\ (RTrader.connected client' = true -> RTrader.connected client = true).
Proof.
  cbv zeta. unfold RTrader.listen_turn.
  destruct (RTrader.running client && RTrader.connected client) eqn:Hgo;
    [|done].
  apply andb_true_iff in Hgo as [_ Hc].
  destruct (RTrader.socket client) as [|r rest]; [done|].
  pose proof (listen_once_untouched json_loads r
                (RTrader.with_socket client rest) st) as (_ & Hr & Hcb & Hs & _).
  by destruct (RTrader.listen_once _ _ _ _) as [[client' st'] [|]].
Qed.

(** The turn of the listener in a run of the two threads is the step
    [ListenerTurn] of the runs the tracked-set properties are stated
    on. *)
Lemma listener_turn_is_a_step json_loads self :
  RTrader.listener_turn json_loads self
  = plugin_step json_loads ListenerTurn self.
Proof. reflexivity. Qed.

(** The same for any number of turns, seen from the collector: the
    queue, the tracked set and the symbols are not touched either. *)
Lemma listener_turns_effect json_loads n : forall self client,
  RTrader.rtrader_client self = Some client ->
  exists client',
    RTrader.rtrader_client (RTrader.listener_turns json_loads n self)
    = Some client'
    /\ RTrader.sent client' = RTrader.sent client
    /\ RTrader.running client' = RTrader.running client
    /\ RTrader.callbacks client' = RTrader.callbacks client
    /\ (RTrader.connected client' = true -> RTrader.connected client = true)
    /\ (n = 0%nat -> client' = client)
    /\ RTrader.subscribed_symbols (RTrader.listener_turns json_loads n self)
       = RTrader.subscribed_symbols self
    /\ RTrader.redis_queue (RTrader.listener_turns json_loads n self)
       = RTrader.redis_queue self
    /\ RTrader.symbols (RTrader.listener_turns json_loads n self)
       = RTrader.symbols self.
Proof.
  induction n as [|n IH]; intros self client Hc; cbn [RTrader.listener_turns].
  { exists client. by repeat split. }
  pose proof (listen_turn_effect json_loads client (RTrader.store self))
    as (Hs & Hr & Hcb & Hconn).
  destruct (IH (RTrader.listener_turn json_loads self)
               (RTrader.listen_turn json_loads client (RTrader.store self)).1)
    as (client' & Hc' & Hs' & Hr' & Hcb' & Hconn' & _ & Hset & Hq & Hsym).
  { unfold RTrader.listener_turn. rewrite Hc.
    by destruct (RTrader.listen_turn _ _ _). }
  exists client'. split; [exact Hc'|].
  split; [congruence|]. split; [congruence|]. split; [congruence|].
  split; [tauto|]. split; [done|].
  rewrite Hset, Hq, Hsym. unfold RTrader.listener_turn. rewrite Hc.
  by destruct (RTrader.listen_turn _ _ _).
Qed.

Lemma register_effect json_loads n name callback self client :
  RTrader.rtrader_client self = Some client ->
  exists client',
    RTrader.rtrader_client (RTrader.register json_loads n name callback self)
    = Some client'
    /\ RTrader.sent client' = RTrader.sent client
    /\ RTrader.running client' = RTrader.running client
    /\ (RTrader.connected client' = true -> RTrader.connected client = true)
    /\ (n = 0%nat -> RTrader.connected client' = RTrader.connected client)
    /\ RTrader.subscribed_symbols
         (RTrader.register json_loads n name callback self)
       = RTrader.subscribed_symbols self
    /\ RTrader.redis_queue (RTrader.register json_loads n name callback self)
       = RTrader.redis_queue self
    /\ RTrader.symbols (RTrader.register json_loads n name callback self)
       = RTrader.symbols self.
Proof.
  intros Hc. unfold RTrader.register.
  destruct (listener_turns_effect json_loads n self client Hc)
    as (c1 & Hc1 & Hs & Hr & _ & Hconn & Hzero & Hset & Hq & Hsym).
  rewrite Hc1. exists (RTrader.set_callback c1 name callback).
  split; [done|]. split; [done|]. split; [done|]. split; [done|].
  split; [by intros ->%Hzero|]. done.
Qed.

(** When the port accepts, [connect_rtrader_pro] returns normally however
    the listener is scheduled: nothing has been sent, nothing is tracked
    that was not, and the listener can only have lost the connection. *)
Lemma connect_rtrader_pro_beside_accepted json_loads ds iso now turns script
    self :
  exists self' client',
    RTrader.connect_rtrader_pro_beside json_loads ds iso now turns
      (Some script) self = (self', true)
    /\ RTrader.rtrader_client self' = Some client'
    /\ RTrader.sent client' = []
    /\ RTrader.running client' = true
    /\ (silent turns -> RTrader.connected client' = true)
    /\ RTrader.subscribed_symbols self' = RTrader.subscribed_symbols self
    /\ RTrader.redis_queue self' = RTrader.redis_queue self
    /\ RTrader.symbols self' = RTrader.symbols self.
Proof.
  unfold RTrader.connect_rtrader_pro_beside. cbn [RTrader.connect].
  set (self0 := RTrader.log (RTrader.with_client _ _) _).
  set (client0 := RTrader.emit _ _) in self0.
  destruct (register_effect json_loads (turns (RTrader.AtCallback 0))
              "tick_callback" (RTrader._handle_tick_data ds iso now)
              self0 client0 eq_refl)
    as (c1 & Hc1 & Hs1 & Hr1 & _ & Hz1 & Hset1 & Hq1 & Hsym1).
  destruct (register_effect json_loads (turns (RTrader.AtCallback 1))
              "quote_callback" (RTrader._handle_quote_data ds iso now)
              _ c1 Hc1)
    as (c2 & Hc2 & Hs2 & Hr2 & _ & Hz2 & Hset2 & Hq2 & Hsym2).
  destruct (register_effect json_loads (turns (RTrader.AtCallback 2))
              "level2_callback" (RTrader._handle_level2_data ds iso now)
              _ c2 Hc2)
    as (c3 & Hc3 & Hs3 & Hr3 & _ & Hz3 & Hset3 & Hq3 & Hsym3).
  eexists _, c3. split; [reflexivity|]. split; [exact Hc3|].
  split; [by rewrite Hs3, Hs2, Hs1|]. split; [by rewrite Hr3, Hr2, Hr1|].
  split.
  { intros Hsilent. by rewrite Hz3, Hz2, Hz1 by apply Hsilent. }
  by rewrite Hset3, Hset2, Hset1, Hq3, Hq2, Hq1, Hsym3, Hsym2, Hsym1.
Qed.

(** The start-up loop beside the listener subscribes a prefix of its
    tokens: it sends one message for each token it reaches while the
    client is connected and none from the moment the listener has
    stopped. *)
Lemma subscribe_each_beside_prefix json_loads turns todo : forall i self client,
  RTrader.rtrader_client self = Some client ->
  Forall well_formed_token todo ->
  exists self' client' k,
    RTrader.subscribe_each_beside json_loads turns i self todo = (self', None)
    /\ RTrader.rtrader_client self' = Some client'
    /\ (k <= length todo)%nat
    /\ RTrader.sent client'
       = RTrader.sent client ++ map token_request (take k todo)
    /\ RTrader.subscribed_symbols self'
       = list_to_set (take k todo) ∪ RTrader.subscribed_symbols self
    /\ RTrader.redis_queue self' = RTrader.redis_queue self
    /\ (RTrader.connected client' = true ->
        RTrader.connected client = true /\ k = length todo)
    /\ (RTrader.connected client = false -> k = 0%nat)
    /\ (silent turns ->
        RTrader.connected client' = RTrader.connected client).
Proof.
  induction todo as [|token rest IH]; intros i self client Hc Hall.
  { exists self, client, 0%nat. cbn. rewrite app_nil_r, (left_id_L ∅ (∪)).
    by repeat split. }
  apply Forall_cons in Hall as [(sym & exchange & Hp) Hall].
  cbn [RTrader.subscribe_each_beside].
  destruct (listener_turns_effect json_loads (turns (RTrader.AtToken i))
              self client Hc)
    as (c1 & Hc1 & Hs1 & _ & _ & Hconn1 & Hz1 & Hset1 & Hq1 & _).
  set (self1 := RTrader.listener_turns _ _ _) in *.
  unfold RTrader.subscribe_token. rewrite Hp, Hc1.
  destruct (RTrader.connected c1) eqn:Hk.
  - destruct (plugin_send_connected c1 sym exchange Hk)
      as (c2 & -> & Hs2 & Hk2).
    match goal with
    | |- context [RTrader.subscribe_each_beside _ _ _ ?s rest] =>
      destruct (IH (S i) s c2 eq_refl Hall)
        as (self' & client' & k & -> & Hc' & Hle & Hsent & Hset & Hq
            & Hup & _ & Hsilent)
    end.
    exists self', client', (S k). split; [done|]. split; [done|].
    split; [cbn; lia|]. split; [|split; [|split; [|split; [|split]]]].
    + rewrite Hsent, Hs2, Hs1. cbn [take map]. unfold token_request at 2.
      rewrite Hp. by rewrite <- app_assoc.
    + rewrite Hset.
      cbn [RTrader.subscribed_symbols RTrader.log RTrader.add_subscribed
           RTrader.with_client take list_to_set].
      rewrite Hset1.
      by rewrite !(assoc_L (∪)), (comm_L (∪) (list_to_set (take k rest))).
    + rewrite Hq. cbn [RTrader.redis_queue RTrader.log RTrader.add_subscribed
                       RTrader.with_client]. exact Hq1.
    + intros Hfin. destruct (Hup Hfin) as [_ ->]. split; [by apply Hconn1|done].
    + intros Hoff. specialize (Hconn1 eq_refl). congruence.
    + intros Hsil. rewrite (Hsilent Hsil), Hk2.
      rewrite (Hz1 (Hsil _)) in Hk. congruence.
  - rewrite (plugin_send_disconnected c1 sym exchange Hk).
    match goal with
    | |- context [RTrader.subscribe_each_beside _ _ _ ?s rest] =>
      destruct (IH (S i) s c1 eq_refl Hall)
        as (self' & client' & k & -> & Hc' & Hle & Hsent & Hset & Hq
            & Hup & Hoff & Hsilent)
    end.
    rewrite (Hoff Hk) in *.
    exists self', client', 0%nat. split; [done|]. split; [done|].
    split; [lia|]. cbn [take map list_to_set] in *.
    split; [by rewrite Hsent, Hs1|]. split.
    { rewrite Hset. cbn [RTrader.subscribed_symbols RTrader.log
                         RTrader.with_client]. by rewrite Hset1. }
    split.
    { rewrite Hq. cbn [RTrader.redis_queue RTrader.log RTrader.with_client].
      exact Hq1. }
    split; [|split; [done|]].
    + intros Hfin. destruct (Hup Hfin) as [Hon _]. congruence.
    + intros Hsil. rewrite (Hsilent Hsil).
      by rewrite (Hz1 (Hsil _)) in Hk |- *.
Qed.

Lemma subscribe_each_beside_app json_loads turns l1 : forall l2 i self,
  RTrader.subscribe_each_beside json_loads turns i self (l1 ++ l2)
  = match RTrader.subscribe_each_beside json_loads turns i self l1 with
    | (self', None) =>
      RTrader.subscribe_each_beside json_loads turns (i + length l1) self' l2
    | (self', Some e) => (self', Some e)
    end.
Proof.
  induction l1 as [|token l1 IH]; intros l2 i self.
  { cbn. by rewrite Nat.add_0_r. }
  cbn [app RTrader.subscribe_each_beside length].
  destruct (RTrader.subscribe_token _ token) as [self' [e|]]; [done|].
  rewrite IH. by replace (S i + length l1)%nat with (i + S (length l1))%nat by lia.
Qed.

(** With a silent listener the two threads run as one: the start-up
    calls of [run] are those of the method bodies. *)
Lemma startup_with_silent_listener json_loads ds iso now turns stream self :
  silent turns ->
  RTrader.connect_rtrader_pro_beside json_loads ds iso now turns stream self
  = RTrader.connect_rtrader_pro ds iso now stream self
  /\ RTrader.subscribe_symbols_beside json_loads turns self
     = RTrader.subscribe_symbols self.
Proof.
  intros Hsil. split.
  - unfold RTrader.connect_rtrader_pro_beside, RTrader.connect_rtrader_pro,
      RTrader.register.
    rewrite !Hsil. by destruct stream.
  - unfold RTrader.subscribe_symbols_beside, RTrader.subscribe_symbols.
    generalize (RTrader.log self (Logged INFO "Subscribing to symbols")).
    generalize 0%nat.
    induction (RTrader.symbols self) as [|token rest IH]; intros i s; [done|].
    cbn [RTrader.subscribe_each_beside RTrader.subscribe_each].
    rewrite Hsil. cbn [RTrader.listener_turns].
    destruct (RTrader.subscribe_token s token) as [s' [e|]]; [done|].
    apply IH.
Qed.

(** The peer closes the connection while the start-up loop is between
    its first and its second token: the listener reads the end of the
    stream and stops, the first token has been subscribed and the
    second never is. *)
Lemma listener_stop_cuts_startup_short (json_loads : string -> option pyval)
    (ds : string -> bool) (iso : string -> option Z) (now : Z) :
  let env :=
    {| RTrader.database_up := true; RTrader.redis_up := true;
       RTrader.upstream := Some [];
       RTrader.interrupt_after := 0;
       RTrader.listener :=
         fun pt => match pt with
                   | RTrader.AtToken 1 => 1%nat
                   | _ => 0%nat
                   end |} in
  let self :=
    {| RTrader.store := empty_store;
       RTrader.redis_queue := [];
       RTrader.rtrader_client := None;
       RTrader.symbols := ["GCQ5"; "MGCQ5"];
       RTrader.subscribed_symbols := ∅ |} in
  let result := RTrader.connect_services json_loads ds iso now env self in
  result.2 = None
  /\ sent_by result.1 = [subscribe_request "GCQ5" "CME"]
  /\ RTrader.subscribed_symbols result.1 = {[ "GCQ5" ]}
  /\ ~ alive result.1.
Proof.
  repeat split; try reflexivity.
  intros (client & Hc & Hk). by injection Hc as <-.
Qed.

(** A listener that has stopped, or was never started, takes no turn. *)
Lemma listener_turns_stopped json_loads n : forall self client,
  RTrader.rtrader_client self = Some client ->
  RTrader.running client && RTrader.connected client = false ->
  RTrader.listener_turns json_loads n self = self.
Proof.
  induction n as [|n IH]; intros self client Hc Hoff; [done|].
  cbn [RTrader.listener_turns].
  assert (RTrader.listener_turn json_loads self = self) as ->.
  { unfold RTrader.listener_turn, RTrader.listen_turn. rewrite Hc, Hoff.
    rewrite <- Hc. by destruct self. }
  by apply (IH self client).
Qed.

(** X24. The start-up of the plug-in collector subscribes a prefix of the
    configured tokens, and all of them if the listener outlives it.  When
    the two stores answer, the plug-in port accepts the connection and
    every token of [self.symbols] can be unpacked, the four start-up
    calls of [run] return normally however the listener thread is
    scheduled beside them, and the queue has not been read.  The
    messages sent are the subscribe messages of the first [k] tokens, in
    list order, and exactly these tokens are tracked, each as it is
    written: the loop sends while the client is connected and, once the
    listener has stopped and cleared the flag, it only logs a failure
    for each token that is left.  If the client is still connected when
    the loop ends, as it is when the listener has taken no turn, every
    token has been subscribed. *)
Theorem plugin_startup_subscribes_configured_tokens json_loads ds iso now env
    self script :
  RTrader.database_up env = true ->
  RTrader.redis_up env = true ->
  RTrader.upstream env = Some script ->
  Forall well_formed_token (RTrader.symbols self) ->
  let result := RTrader.connect_services json_loads ds iso now env self in
  result.2 = None
  /\ RTrader.redis_queue result.1 = RTrader.redis_queue self
  /\ exists k,
       (k <= length (RTrader.symbols self))%nat
       /\ sent_by result.1 = map token_request (take k (RTrader.symbols self))
       /\ RTrader.subscribed_symbols result.1
          = list_to_set (take k (RTrader.symbols self))
            ∪ RTrader.subscribed_symbols self
       /\ (alive result.1 -> k = length (RTrader.symbols self))
       /\ (silent (RTrader.listener env) -> alive result.1).
Proof.
  intros Hdb Hredis Hup Hall. cbv zeta.
  unfold RTrader.connect_services, RTrader.connect_database,
    RTrader.connect_redis.
  rewrite Hdb, Hredis, Hup.
  match goal with
  | |- context [RTrader.connect_rtrader_pro_beside _ _ _ _ ?t _ ?s] =>
    destruct (connect_rtrader_pro_beside_accepted json_loads ds iso now t
                script s)
      as (self1 & c1 & -> & Hc1 & Hs1 & _ & Hsil1 & Hset1 & Hq1 & Hsym1)
  end.
  cbn [RTrader.subscribed_symbols RTrader.redis_queue RTrader.symbols
       RTrader.log] in Hset1, Hq1, Hsym1.
  unfold RTrader.subscribe_symbols_beside.
  rewrite Hsym1.
  destruct (subscribe_each_beside_prefix json_loads (RTrader.listener env)
              (RTrader.symbols self) 0
              (RTrader.log self1 (Logged INFO "Subscribing to symbols"))
              c1 Hc1 Hall)
    as (self' & client' & k & -> & Hc' & Hle & Hsent & Hset & Hq & Hup'
        & _ & Hsil).
  cbn [fst snd]. split; [done|]. split; [by rewrite Hq|].
  exists k. split; [exact Hle|]. unfold sent_by, alive. rewrite Hc'.
  split; [by rewrite Hsent, Hs1|].
  split.
  { rewrite Hset. cbn [RTrader.subscribed_symbols RTrader.log].
    by rewrite Hset1. }
  split.
  - intros (c & [= <-] & Hk). by destruct (Hup' Hk).
  - intros Hsilent. exists client'. split; [done|].
    by rewrite (Hsil Hsilent), (Hsil1 Hsilent).
Qed.

Lemma plugin_startup_subscribes_configured_tokens_witness :
  let json_loads := fun _ : string => Some (PDict (∅ : gmap string pyval)) in
  let env :=
    {| RTrader.database_up := true; RTrader.redis_up := true;
       RTrader.upstream :=
         Some [RTrader.RecvTimeout; RTrader.RecvData [x7b; x7d; x0a]];
       RTrader.interrupt_after := 0;
       RTrader.listener :=
         fun pt => match pt with
                   | RTrader.AtCallback 0 | RTrader.AtToken 1 => 1%nat
                   | _ => 0%nat
                   end |} in
  let self :=
    {| RTrader.store := empty_store;
       RTrader.redis_queue := [MsgRequest "NQU5" None];
       RTrader.rtrader_client := None;
       RTrader.symbols := RTrader.init_symbols None;
       RTrader.subscribed_symbols := ∅ |} in
  let result :=
    RTrader.connect_services json_loads (fun _ => false) (fun _ => None) 0
      env self in
  result.2 = None
  /\ RTrader.redis_queue result.1 = RTrader.redis_queue self
  /\ exists k,
       (k <= length (RTrader.symbols self))%nat
       /\ sent_by result.1 = map token_request (take k (RTrader.symbols self))
       /\ RTrader.subscribed_symbols result.1
          = list_to_set (take k (RTrader.symbols self))
            ∪ RTrader.subscribed_symbols self
       /\ (alive result.1 -> k = length (RTrader.symbols self))
       /\ (silent (RTrader.listener env) -> alive result.1).
Proof.
  intros json_loads env self.
  apply (plugin_startup_subscribes_configured_tokens json_loads
           (fun _ => false) (fun _ => None) 0 env self
           [RTrader.RecvTimeout; RTrader.RecvData [x7b; x7d; x0a]]).
  - reflexivity.
  - reflexivity.
  - reflexivity.
  - apply Forall_cons. split; [by exists "GCQ5", "CME"|].
    apply Forall_cons. split; [by exists "MGCQ5", "CME"|].
    apply Forall_nil_2.
Defined.

(** X25. One token that cannot be unpacked stops the plug-in collector at
    start-up.  When the stores answer and the plug-in port accepts the
    connection, a token of [self.symbols] with two colons makes [run] end
    with the [ValueError] it raises, however the listener thread is
    scheduled.  The messages sent are the subscribe messages of the
    first [k] tokens before the faulty one, and these are the tokens
    tracked: all the tokens before it if the client is still connected
    when the loop reaches the faulty one, as it is when the listener has
    taken no turn.  The tokens after it are never subscribed, the queue
    is never read, and the clean-up leaves the client disconnected and
    stopped. *)
Theorem malformed_token_aborts_startup json_loads ds iso now env self script
    before bad after :
  RTrader.database_up env = true ->
  RTrader.redis_up env = true ->
  RTrader.upstream env = Some script ->
  RTrader.symbols self = before ++ bad :: after ->
  Forall well_formed_token before ->
  RTrader.parse_token bad = Raised ValueError ->
  let started := started_by_run json_loads ds iso now env self in
  let result := RTrader.run json_loads ds iso now env self in
  started.2 = Some (RTrader.SubscribeRaised ValueError)
  /\ result.2 = Some (RTrader.SubscribeRaised ValueError)
  /\ RTrader.redis_queue result.1 = RTrader.redis_queue self
  /\ (exists k,
        (k <= length before)%nat
        /\ sent_by result.1 = map token_request (take k before)
        /\ RTrader.subscribed_symbols result.1
           = list_to_set (take k before) ∪ RTrader.subscribed_symbols self
        /\ (alive started.1 -> k = length before)
        /\ (silent (RTrader.listener env) -> alive started.1))
  /\ exists client,
       RTrader.rtrader_client result.1 = Some client
       /\ RTrader.connected client = false
       /\ RTrader.running client = false.
Proof.
  intros Hdb Hredis Hup Hsym Hall Hbad. cbv zeta.
  unfold RTrader.run. fold (started_by_run json_loads ds iso now env self).
  unfold started_by_run, RTrader.connect_services, RTrader.connect_database,
    RTrader.connect_redis.
  rewrite Hdb, Hredis, Hup.
  match goal with
  | |- context [RTrader.connect_rtrader_pro_beside _ _ _ _ ?t _ ?s] =>
    destruct (connect_rtrader_pro_beside_accepted json_loads ds iso now t
                script s)
      as (self1 & c1 & -> & Hc1 & Hs1 & _ & Hsil1 & Hset1 & Hq1 & Hsym1)
  end.
  cbn [RTrader.subscribed_symbols RTrader.redis_queue RTrader.symbols
       RTrader.log] in Hset1, Hq1, Hsym1.
  unfold RTrader.subscribe_symbols_beside.
  rewrite Hsym1, Hsym, subscribe_each_beside_app.
  destruct (subscribe_each_beside_prefix json_loads (RTrader.listener env)
              before 0
              (RTrader.log self1 (Logged INFO "Subscribing to symbols"))
              c1 Hc1 Hall)
    as (self2 & c2 & k & -> & Hc2 & Hle & Hsent & Hset & Hq & Hup2
        & _ & Hsil).
  cbn [RTrader.subscribe_each_beside].
  destruct (listener_turns_effect json_loads
              (RTrader.listener env (RTrader.AtToken (0 + length before)))
              self2 c2 Hc2)
    as (c3 & Hc3 & Hs3 & _ & _ & Hconn3 & Hz3 & Hset3 & Hq3 & _).
  set (self3 := RTrader.listener_turns _ _ self2) in *.
  unfold RTrader.subscribe_token. rewrite Hbad. cbn [fst snd].
  destruct (listener_turns_effect json_loads
              (RTrader.listener env RTrader.AtCleanup)
              (RTrader.log self3 (Logged ERROR "Fatal error")) c3 Hc3)
    as (c4 & Hc4 & Hs4 & _ & _ & _ & _ & Hset4 & Hq4 & _).
  set (self4 := RTrader.listener_turns _ _ (RTrader.log self3 _)) in *.
  unfold RTrader.cleanup.
  cbn [RTrader.rtrader_client RTrader.log]. rewrite Hc4.
  cbn [RTrader.redis_queue RTrader.subscribed_symbols RTrader.rtrader_client
       RTrader.log RTrader.with_client] in *.
  split; [done|]. split; [done|]. split; [congruence|]. split.
  - exists k. split; [exact Hle|]. unfold sent_by, alive.
    cbn [RTrader.rtrader_client RTrader.sent RTrader.disconnect RTrader.emit
         RTrader.log RTrader.with_client].
    split; [by rewrite Hs4, Hs3, Hsent, Hs1|].
    split; [by rewrite Hset4, Hset3, Hset, Hset1|].
    split.
    + intros (c & Hc & Hk). rewrite Hc3 in Hc. injection Hc as <-.
      by destruct (Hup2 (Hconn3 Hk)).
    + intros Hsilent. exists c3. split; [done|].
      by rewrite (Hz3 (Hsilent _)), (Hsil Hsilent), (Hsil1 Hsilent).
  - by eexists.
Qed.

Lemma malformed_token_aborts_startup_witness :
  let json_loads := fun _ : string => Some (PDict (∅ : gmap string pyval)) in
  let env :=
    {| RTrader.database_up := true; RTrader.redis_up := true;
       RTrader.upstream := Some [RTrader.RecvTimeout];
       RTrader.interrupt_after := 3;
       RTrader.listener :=
         fun pt => match pt with
                   | RTrader.AtToken _ => 1%nat
                   | _ => 0%nat
                   end |} in
  let self :=
    {| RTrader.store := empty_store;
       RTrader.redis_queue := [MsgRequest "NQU5" None];
       RTrader.rtrader_client := None;
       RTrader.symbols :=
         RTrader.init_symbols (Some "ES:CME,NQ,GC:COMEX:X,YM");
       RTrader.subscribed_symbols := ∅ |} in
  let before := ["ES:CME"; "NQ"] in
  let started :=
    started_by_run json_loads (fun _ => false) (fun _ => None) 0 env self in
  let result :=
    RTrader.run json_loads (fun _ => false) (fun _ => None) 0 env self in
  started.2 = Some (RTrader.SubscribeRaised ValueError)
  /\ result.2 = Some (RTrader.SubscribeRaised ValueError)
  /\ RTrader.redis_queue result.1 = RTrader.redis_queue self
  /\ (exists k,
        (k <= length before)%nat
        /\ sent_by result.1 = map token_request (take k before)
        /\ RTrader.subscribed_symbols result.1
           = list_to_set (take k before) ∪ RTrader.subscribed_symbols self
        /\ (alive started.1 -> k = length before)
        /\ (silent (RTrader.listener env) -> alive started.1))
  /\ exists client,
       RTrader.rtrader_client result.1 = Some client
       /\ RTrader.connected client = false
       /\ RTrader.running client = false.
Proof.
  intros json_loads env self before.
  apply (malformed_token_aborts_startup json_loads (fun _ => false)
           (fun _ => None) 0 env self [RTrader.RecvTimeout] before
           "GC:COMEX:X" ["YM"]).
  - reflexivity.
  - reflexivity.
  - reflexivity.
  - by vm_compute.
  - apply Forall_cons. split; [by exists "ES", "CME"|].
    apply Forall_cons. split; [by exists "NQ", "CME"|].
    apply Forall_nil_2.
  - reflexivity.
Defined.

(** X26. The plug-in collector tries the plug-in port once.  When the
    stores answer and the port refuses the connection, [run] makes no
    second attempt and does not wait: it logs the failure as fatal, runs
    its clean-up and ends with the exception.  The journal holds the
    start-up lines, one attempt, the fatal error and the two shutdown
    lines and no sleep; nothing has been sent, nothing is tracked that
    was not, and the queue has not been read. *)
Theorem plugin_collector_connects_once json_loads ds iso now env self :
  RTrader.database_up env = true ->
  RTrader.redis_up env = true ->
  RTrader.upstream env = None ->
  let result := RTrader.run json_loads ds iso now env self in
  result.2 = Some RTrader.ConnectFailed
  /\ RTrader.journal (RTrader.store result.1)
     = RTrader.journal (RTrader.store self)
       ++ plugin_preamble
       ++ [ Logged ERROR "Fatal error";
            Logged INFO "Shutting down collector...";
            Logged INFO "Collector stopped" ]
  /\ RTrader.rtrader_client result.1
     = Some {| RTrader.connected := false; RTrader.running := false;
               RTrader.callbacks := ∅; RTrader.socket := [];
               RTrader.sent := [];
               RTrader.trace :=
                 [ Logged ERROR "Failed to connect to R|Trader Pro";
                   Logged INFO "Disconnected from R|Trader Pro" ] |}
  /\ RTrader.subscribed_symbols result.1 = RTrader.subscribed_symbols self
  /\ RTrader.redis_queue result.1 = RTrader.redis_queue self
  /\ RTrader.db_conn (RTrader.store result.1)
     = RTrader.db_conn (RTrader.store self).
Proof.
  intros Hdb Hredis Hup. cbv zeta.
  unfold RTrader.run, RTrader.connect_services, RTrader.connect_database,
    RTrader.connect_redis, RTrader.connect_rtrader_pro_beside.
  cbn [RTrader.log]. rewrite Hdb, Hredis, Hup.
  cbn [RTrader.connect RTrader.log RTrader.with_client].
  match goal with
  | |- context [RTrader.listener_turns _ ?n ?s] =>
    rewrite (listener_turns_stopped json_loads n s
               (RTrader.emit RTrader.new_plugin
                  (Logged ERROR "Failed to connect to R|Trader Pro"))
               eq_refl eq_refl)
  end.
  cbn. unfold plugin_preamble. rewrite <- !app_assoc. by repeat split.
Qed.

Lemma plugin_collector_connects_once_witness :
  let json_loads := fun _ : string => Some (PDict (∅ : gmap string pyval)) in
  let env := {| RTrader.database_up := true; RTrader.redis_up := true;
                RTrader.upstream := None;
                RTrader.interrupt_after := 5;
                RTrader.listener := fun _ => 2%nat |} in
  let self :=
    {| RTrader.store := empty_store;
       RTrader.redis_queue := [MsgRequest "NQU5" None];
       RTrader.rtrader_client := None;
       RTrader.symbols := ["GCQ5"; "MGCQ5"];
       RTrader.subscribed_symbols := ∅ |} in
  let result :=
    RTrader.run json_loads (fun _ => false) (fun _ => None) 0 env self in
  result.2 = Some RTrader.ConnectFailed
  /\ RTrader.journal (RTrader.store result.1)
     = RTrader.journal (RTrader.store self)
       ++ plugin_preamble
       ++ [ Logged ERROR "Fatal error";
            Logged INFO "Shutting down collector...";
            Logged INFO "Collector stopped" ]
  /\ RTrader.rtrader_client result.1
     = Some {| RTrader.connected := false; RTrader.running := false;
               RTrader.callbacks := ∅; RTrader.socket := [];
               RTrader.sent := [];
               RTrader.trace :=
                 [ Logged ERROR "Failed to connect to R|Trader Pro";
                   Logged INFO "Disconnected from R|Trader Pro" ] |}
  /\ RTrader.subscribed_symbols result.1 = RTrader.subscribed_symbols self
  /\ RTrader.redis_queue result.1 = RTrader.redis_queue self
  /\ RTrader.db_conn (RTrader.store result.1)
     = RTrader.db_conn (RTrader.store self).
Proof.
  intros json_loads env self.
  apply (plugin_collector_connects_once json_loads (fun _ => false)
           (fun _ => None) 0 env self); reflexivity.
Defined.

(** ** The plug-in collector after the connection is lost *)

Section Inert.
Variable json_loads : string -> option pyval.

Lemma plugin_step_lost sent0 tracked db o self :
  lost sent0 tracked db self ->
  lost sent0 tracked db (plugin_step json_loads o self).
Proof.
  intros ((client & Hc & Hconn & Hsent) & Hset & Hdb).
  destruct o as [| token | | m | r]; cbn [plugin_step].
  - unfold RTrader.check_new_subscriptions.
    destruct (RTrader.redis_queue self) as [|[| |symbol requested] rest].
    + by repeat split; [exists client|..].
    + by repeat split; [exists client|..].
    + by repeat split; [exists client|..].
    + cbv zeta. case_bool_decide.
      { by repeat split; [exists client|..]. }
      cbn [RTrader.rtrader_client RTrader.with_queue]. rewrite Hc.
      rewrite (plugin_send_disconnected client symbol
                 (default "CME" requested) Hconn).
      by repeat split; [exists client|..].
  - unfold RTrader.subscribe_token.
    destruct (RTrader.parse_token token) as [[sym exchange]|e].
    2: { by repeat split; [exists client|..]. }
    rewrite Hc, (plugin_send_disconnected client sym exchange Hconn).
    by repeat split; [exists client|..].
  - rewrite Hc. unfold RTrader.listen_turn. rewrite Hconn, andb_false_r.
    by repeat split; [exists client|..].
  - by repeat split; [exists client|..].
  - rewrite Hc. repeat split; [|done..].
    by exists (RTrader.with_socket client (RTrader.socket client ++ [r])).
Qed.

Lemma plugin_run_lost sent0 tracked db ops : forall self,
  lost sent0 tracked db self ->
  lost sent0 tracked db (plugin_run json_loads ops self).
Proof.
  unfold plugin_run. induction ops as [|o ops IH]; intros self H; [done|].
  cbn [foldl]. by apply IH, plugin_step_lost.
Qed.

End Inert.

(** X27. The plug-in collector never reconnects, and requests that arrive
    afterwards are lost.  Once the client is marked disconnected, as it is
    when the listener stops, no step of a run marks it connected again:
    whatever is polled from the queue, published or delivered by the
    socket, no message is sent, the tracked set and the two tables stay
    as they are, and each poll still takes its request off the queue. *)
Theorem disconnected_plugin_collector_is_inert json_loads ops self client :
  RTrader.rtrader_client self = Some client ->
  RTrader.connected client = false ->
  let final := plugin_run json_loads ops self in
  sent_by final = RTrader.sent client
  /\ RTrader.subscribed_symbols final = RTrader.subscribed_symbols self
  /\ RTrader.db_conn (RTrader.store final)
     = RTrader.db_conn (RTrader.store self)
  /\ (exists client', RTrader.rtrader_client final = Some client'
                      /\ RTrader.connected client' = false)
  /\ forall symbol requested rest,
       RTrader.redis_queue final = MsgRequest symbol requested :: rest ->
       RTrader.redis_queue (RTrader.check_new_subscriptions final) = rest
       /\ sent_by (RTrader.check_new_subscriptions final) = RTrader.sent client.
Proof.
  intros Hc Hconn. cbv zeta.
  assert (lost (RTrader.sent client) (RTrader.subscribed_symbols self)
            (RTrader.db_conn (RTrader.store self)) self) as H0.
  { by repeat split; [exists client|..]. }
  pose proof (plugin_run_lost json_loads _ _ _ ops self H0) as H.
  destruct H as ((c' & Hc' & Hconn' & Hsent') & Hset & Hdb).
  unfold sent_by at 1. rewrite Hc'.
  split; [done|]. split; [done|]. split; [done|].
  split; [by exists c'|].
  intros symbol requested rest Hq.
  pose proof (plugin_step_lost json_loads _ _ _ Poll _
                (conj (ex_intro _ c' (conj Hc' (conj Hconn' Hsent')))
                      (conj Hset Hdb))) as ((c2 & Hc2 & _ & Hsent2) & _).
  cbn [plugin_step] in Hc2. split.
  - unfold RTrader.check_new_subscriptions. rewrite Hq.
    cbv zeta. case_bool_decide; [done|].
    cbn [RTrader.rtrader_client RTrader.with_queue]. rewrite Hc'.
    by rewrite (plugin_send_disconnected c' symbol
                  (default "CME" requested) Hconn').
  - unfold sent_by. by rewrite Hc2.
Qed.

Lemma disconnected_plugin_collector_is_inert_witness :
  let json_loads := fun _ : string => Some (PDict (∅ : gmap string pyval)) in
  let client : RTrader.RTraderProPlugin RTrader.Store :=
    (RTrader._listen json_loads (listening ∅ []) empty_store).1 in
  let self :=
    {| RTrader.store := empty_store;
       RTrader.redis_queue := [MsgRequest "NQU5" (Some "CME")];
       RTrader.rtrader_client := Some client;
       RTrader.symbols := [];
       RTrader.subscribed_symbols := ∅ |} in
  let final :=
    plugin_run json_loads
      [Arrive (RTrader.RecvData [x7b; x7d; x0a]); ListenerTurn;
       Publish (MsgRequest "ESU5" None); Poll] self in
  sent_by final = RTrader.sent client
  /\ RTrader.subscribed_symbols final = RTrader.subscribed_symbols self
  /\ RTrader.db_conn (RTrader.store final)
     = RTrader.db_conn (RTrader.store self)
  /\ (exists client', RTrader.rtrader_client final = Some client'
                      /\ RTrader.connected client' = false)
  /\ forall symbol requested rest,
       RTrader.redis_queue final = MsgRequest symbol requested :: rest ->
       RTrader.redis_queue (RTrader.check_new_subscriptions final) = rest
       /\ sent_by (RTrader.check_new_subscriptions final) = RTrader.sent client.
Proof.
  intros json_loads client self.
  apply (disconnected_plugin_collector_is_inert json_loads
           [Arrive (RTrader.RecvData [x7b; x7d; x0a]); ListenerTurn;
            Publish (MsgRequest "ESU5" None); Poll] self client);
    reflexivity.
Defined.

(** ** Depth updates of the plug-in collector *)

(** X28. The plug-in collector stores the first ten levels of each side.
    Whenever its level-2 handler commits an update whose bids and asks are
    lists, the rows it appends are one for each of the first ten bids
    followed by one for each of the first ten asks, ranked from 1 in the
    order given, each with the price and size of its level (0 where the
    level has none); levels beyond the tenth are left out without an
    error. *)
Theorem plugin_depth_keeps_first_ten ds iso now data table table' bids asks :
  data !! "bids" = Some (PList bids) ->
  data !! "asks" = Some (PList asks) ->
  RTrader.level2_transaction ds iso now data table = Ok table' ->
  exists kept bid_rows ask_rows,
    table' = kept ++ bid_rows ++ ask_rows
    /\ map l_level bid_rows = seqZ 1 (Z.of_nat (length (take 10 bids)))
    /\ map l_level ask_rows = seqZ 1 (Z.of_nat (length (take 10 asks)))
    /\ Forall (fun r => l_side r = "B") bid_rows
    /\ Forall (fun r => l_side r = "S") ask_rows
    /\ Forall2 (stored_as ds) (take 10 bids) bid_rows
    /\ Forall2 (stored_as ds) (take 10 asks) ask_rows.
Proof.
  intros Hb Ha. unfold RTrader.level2_transaction. rewrite Hb, Ha.
  change (default (PList []) (Some (PList bids))) with (PList bids).
  change (default (PList []) (Some (PList asks))) with (PList asks).
  cbn [RTrader.top_levels].
  step_binds; try discriminate. intros <-%Ok_inj.
  repeat match goal with
  | H : RTrader.level_rows _ _ _ _ _ _ = Ok _ |- _ =>
    apply level_rows_ranked in H; destruct H as (? & ? & ?)
  end.
  by eexists _, _, _.
Qed.

Lemma plugin_depth_keeps_first_ten_witness :
  exists kept bid_rows ask_rows,
    map (fun r => {| l_timestamp := PDatetime 0; l_symbol := PStr "GCQ5";
                     l_exchange := PStr "CME"; l_side := "B";
                     l_level := r.1; l_price := Dec (PInt r.2);
                     l_size := PInt r.1; l_order_count := None |})
        [(1, 1950); (2, 1949); (3, 1948); (4, 1947); (5, 1946); (6, 1945);
         (7, 1944); (8, 1943); (9, 1942); (10, 1941)]
    = kept ++ bid_rows ++ ask_rows
    /\ map l_level bid_rows = seqZ 1 (Z.of_nat (length (take 10 fifteen_bids)))
    /\ map l_level ask_rows
       = seqZ 1 (Z.of_nat (length (take 10 (@nil pyval))))
    /\ Forall (fun r => l_side r = "B") bid_rows
    /\ Forall (fun r => l_side r = "S") ask_rows
    /\ Forall2 (stored_as (fun _ => false)) (take 10 fifteen_bids) bid_rows
    /\ Forall2 (stored_as (fun _ => false)) (take 10 []) ask_rows.
Proof.
  apply (plugin_depth_keeps_first_ten (fun _ => false) (fun _ => None) 0
           depth_update [] _ fifteen_bids []).
  - by vm_compute.
  - by vm_compute.
  - by vm_compute.
Defined.

(** ** The configured symbols *)

Lemma length_split sep s :
  length (PyStr.split sep s) = S (occurrences sep s).
Proof.
  induction s as [|c s IH]; [done|]. cbn [PyStr.split occurrences].
  destruct (Ascii.eqb c sep); cbn [length]; [by rewrite IH|].
  destruct (PyStr.split sep s); [done|]. exact IH.
Qed.

(** X29. Both collectors take one symbol from every comma-separated field
    of [SYMBOLS], the empty fields included.  A value with [n] commas
    gives [n + 1] symbols, so the list is never empty: an empty value
    gives the single symbol [''], and an unset variable gives the two
    default symbols of the collector. *)
Theorem configured_symbols_one_per_field :
  (forall s, length (Binary.init_symbols (Some s)) = S (occurrences comma s))
  /\ (forall s,
        length (RTrader.init_symbols (Some s)) = S (occurrences comma s))
  /\ Binary.init_symbols (Some "") = [""]
  /\ RTrader.init_symbols (Some "") = [""]
  /\ Binary.init_symbols None = ["GCQ5"; "ESU5"]
  /\ RTrader.init_symbols None = ["GCQ5"; "MGCQ5"].
Proof.
  split; [|split].
  - intros s. unfold Binary.init_symbols. cbn [default from_option id].
    by rewrite length_map, length_split.
  - intros s. unfold RTrader.init_symbols. cbn [default from_option id].
    by rewrite length_map, length_split.
  - repeat split; by vm_compute.
Qed.

(** ** Reads that time out *)

Section Timeouts.
Context {S : Type}.
Variable json_loads : string -> option pyval.

Lemma same_but_socket_fields (a b : RTrader.RTraderProPlugin S) :
  same_but_socket a b ->
  RTrader.connected a = RTrader.connected b
  /\ RTrader.running a = RTrader.running b
  /\ RTrader.callbacks a = RTrader.callbacks b
  /\ RTrader.sent a = RTrader.sent b
  /\ RTrader.trace a = RTrader.trace b.
Proof.
  unfold same_but_socket, RTrader.with_socket. intros H.
  injection H as H1 H2 H3 H4 H5. by repeat split.
Qed.

Lemma same_but_socket_with (a b : RTrader.RTraderProPlugin S) x :
  same_but_socket a b -> RTrader.with_socket a x = RTrader.with_socket b x.
Proof.
  intros H. apply same_but_socket_fields in H as (H1 & H2 & H3 & H4 & H5).
  unfold RTrader.with_socket. by rewrite H1, H2, H3, H4, H5.
Qed.

Lemma listen_loop_same todo (a b : RTrader.RTraderProPlugin S) st :
  same_but_socket a b ->
  RTrader.listen_loop json_loads todo a st
  = RTrader.listen_loop json_loads todo b st.
Proof.
  intros H. pose proof (same_but_socket_fields a b H) as (H1 & H2 & _).
  destruct todo as [|r rest]; cbn [RTrader.listen_loop];
    rewrite H1, H2; by rewrite !(same_but_socket_with a b _ H).
Qed.

Lemma process_message_with_socket (self : RTrader.RTraderProPlugin S) st
    message x :
  RTrader._process_message (RTrader.with_socket self x) st message
  = match RTrader._process_message self st message with
    | Ok (self', st') => Ok (RTrader.with_socket self' x, st')
    | Raised e => Raised e
    end.
Proof.
  unfold RTrader._process_message. destruct message; try reflexivity.
  repeat match goal with
         | |- context [if ?c then _ else _] => destruct c
         end; reflexivity.
Qed.

Lemma each_line_with_socket messages :
  forall (self : RTrader.RTraderProPlugin S) st x,
    RTrader.each_line json_loads (RTrader.with_socket self x) st messages
    = let '(self', st', e) :=
        RTrader.each_line json_loads self st messages in
      (RTrader.with_socket self' x, st', e).
Proof.
  induction messages as [|msg_str rest IH]; intros self st x;
    cbn [RTrader.each_line]; [done|].
  destruct (String.eqb msg_str EmptyString); [apply IH|].
  destruct (json_loads msg_str) as [message|].
  - change (RTrader.emit (RTrader.with_socket self x) (Decode msg_str))
      with (RTrader.with_socket (RTrader.emit self (Decode msg_str)) x).
    rewrite process_message_with_socket.
    destruct (RTrader._process_message _ st message) as [[self' st']|e];
      [apply IH|done].
  - apply (IH (RTrader.emit (RTrader.emit self (Decode msg_str))
                 (Logged ERROR "Invalid JSON message")) st x).
Qed.

Lemma listen_once_with_socket r (self : RTrader.RTraderProPlugin S) st x :
  RTrader.listen_once json_loads r (RTrader.with_socket self x) st
  = let '(self', st', go_on) := RTrader.listen_once json_loads r self st in
    (RTrader.with_socket self' x, st', go_on).
Proof.
  destruct r as [data| |]; cbn [RTrader.listen_once]; [|done..].
  destruct data as [|b data]; [done|].
  destruct (PyStr.decode (b :: data)) as [text|e]; [|done].
  rewrite each_line_with_socket.
  by destruct (RTrader.each_line json_loads self st _) as [[self' st'] [e|]].
Qed.

Lemma listen_loop_answered todo :
  forall (self : RTrader.RTraderProPlugin S) st,
    (RTrader.listen_loop json_loads todo self st).2
    = (RTrader.listen_loop json_loads (answered todo) self st).2
    /\ same_but_socket
         (RTrader.listen_loop json_loads todo self st).1
         (RTrader.listen_loop json_loads (answered todo) self st).1.
Proof.
  induction todo as [|r rest IH]; intros self st; [done|].
  destruct (RTrader.running self && RTrader.connected self) eqn:Hgo.
  2: { cbn [RTrader.listen_loop]. rewrite Hgo.
       destruct (answered (r :: rest)); cbn [RTrader.listen_loop];
         by rewrite Hgo. }
  destruct r as [data| |].
  - change (answered (RTrader.RecvData data :: rest))
      with (RTrader.RecvData data :: answered rest).
    cbn [RTrader.listen_loop]. rewrite Hgo.
    rewrite !listen_once_with_socket.
    destruct (RTrader.listen_once json_loads (RTrader.RecvData data) self st)
      as [[self' st'] [|]]; [|done].
    rewrite (listen_loop_same rest (RTrader.with_socket self' rest) self' st')
      by done.
    rewrite (listen_loop_same (answered rest)
               (RTrader.with_socket self' (answered rest)) self' st')
      by done.
    apply IH.
  - change (answered (RTrader.RecvTimeout :: rest)) with (answered rest).
    cbn [RTrader.listen_loop RTrader.listen_once]. rewrite Hgo.
    rewrite (listen_loop_same rest (RTrader.with_socket self rest) self st)
      by done.
    apply IH.
  - change (answered (RTrader.RecvError :: rest))
      with (RTrader.RecvError :: answered rest).
    cbn [RTrader.listen_loop RTrader.listen_once]. by rewrite Hgo.
Qed.

End Timeouts.

(** X30. A read that times out changes nothing.  The listener run on what
    the socket delivers and the listener run on the same deliveries with
    the time-outs left out end in the same state: the same calls of the
    callbacks on the same state, the same log, the same flags and
    messages sent; only the count of reads differs. *)
Theorem timeouts_are_transparent (S : Type)
    (json_loads : string -> option pyval)
    (self : RTrader.RTraderProPlugin S) (st : S) :
  let waited := RTrader._listen json_loads self st in
  let prompt :=
    RTrader._listen json_loads
      (RTrader.with_socket self (answered (RTrader.socket self))) st in
  waited.2 = prompt.2
  /\ RTrader.trace waited.1 = RTrader.trace prompt.1
  /\ RTrader.connected waited.1 = RTrader.connected prompt.1
  /\ RTrader.running waited.1 = RTrader.running prompt.1
  /\ RTrader.callbacks waited.1 = RTrader.callbacks prompt.1
  /\ RTrader.sent waited.1 = RTrader.sent prompt.1.
Proof.
  cbv zeta. unfold RTrader._listen. cbn [RTrader.socket RTrader.with_socket].
  rewrite (listen_loop_same json_loads (answered (RTrader.socket self))
             (RTrader.with_socket self (answered (RTrader.socket self)))
             self st) by done.
  destruct (listen_loop_answered json_loads (RTrader.socket self) self st)
    as [Hst Hsame].
  apply same_but_socket_fields in Hsame as (H1 & H2 & H3 & H4 & H5).
  by repeat split.
Qed.
